(** * Azure SQL database cost components: a shallow embedding

    The development follows the Go sources of the repository:
    - [internal/resources/azure/mssql_database.go] (type [MSSQLDatabase]),
    - the sibling resource [SQLDatabase] of the same package,
    - the Terraform provider function [NewAzureRMMSSQLDatabase] with its
      SKU parser [parseMSSQLSku].

    The usage schema engine, the cost aggregator, the regeneration of the
    usage file and the caller of the builders are not among the sources;
    they are modelled from the design, and each such definition says so.

    Go strings are byte strings; they are embedded as [string].  The
    case-mapping functions of package [strings] are embedded on strings of
    ASCII bytes, on which they work byte by byte; what they do to other
    strings (a mapping of every Unicode letter) is not embedded, and the
    properties whose truth rests on what a lowered or title-cased string
    is are stated for ASCII strings ([Strings.is_ascii]).  [decimal.Decimal]
    values are only ever built from [int64] values by [NewFromInt] and
    [Sub], which are exact, so they are embedded as [Z]. *)

From Stdlib Require Import ZArith Ascii String List Lia Bool.
From stdpp Require Import base tactics option list gmap strings pretty.

Local Open Scope string_scope.
Local Open Scope list_scope.
Local Open Scope Z_scope.

(** ** Package [strings] *)

Module Strings.

Definition is_upper (c : ascii) : bool :=
  let n := N_of_ascii c in ((65 <=? n) && (n <=? 90))%N.

Definition is_lower (c : ascii) : bool :=
  let n := N_of_ascii c in ((97 <=? n) && (n <=? 122))%N.

Definition lower_byte (c : ascii) : ascii :=
  if is_upper c then ascii_of_N (N_of_ascii c + 32) else c.

Definition upper_byte (c : ascii) : ascii :=
  if is_lower c then ascii_of_N (N_of_ascii c - 32) else c.

Fixpoint map_bytes (f : ascii -> ascii) (s : string) : string :=
  match s with
  | EmptyString => EmptyString
  | String c s' => String (f c) (map_bytes f s')
  end.

(** A string of ASCII bytes: no byte of it is [utf8.RuneSelf] (128) or
    above.  [strings.ToLower] and [strings.ToTitle] test for this first. *)
Definition is_ascii_byte (c : ascii) : bool := (N_of_ascii c <? 128)%N.

Fixpoint is_ascii (s : string) : bool :=
  match s with
  | EmptyString => true
  | String c s' => is_ascii_byte c && is_ascii s'
  end.

(** [strings.ToLower] on a string of ASCII bytes, where it maps the bytes
    'A' to 'Z' and keeps the others.  On any other string Go maps every
    rune by [unicode.ToLower] (U+0130 becomes "i"), which this definition
    does not do: it speaks for the code on [is_ascii] strings only. *)
Definition ToLower (s : string) : string := map_bytes lower_byte s.

(** [strings.ToTitle] on a string of ASCII bytes, where the title case of
    a letter is its upper case.  As for [ToLower], it speaks for the code
    on [is_ascii] strings only. *)
Definition ToTitle (s : string) : string := map_bytes upper_byte s.

(** [strings.HasPrefix s prefix] *)
Fixpoint HasPrefix (s prefix : string) {struct prefix} : bool :=
  match prefix, s with
  | EmptyString, _ => true
  | String p prefix', String c s' => Ascii.eqb c p && HasPrefix s' prefix'
  | String _ _, EmptyString => false
  end.

(** [strings.Contains s substr] *)
Fixpoint Contains (s substr : string) : bool :=
  HasPrefix s substr ||
  match s with
  | EmptyString => false
  | String _ s' => Contains s' substr
  end.

(** [strings.Split s sep] for a separator [sep] of one byte, the only
    form the sources use ([strings.Split(sku, "_")]).  The result is
    never empty: a string without separator is returned whole. *)
Fixpoint Split (s : string) (sep : ascii) : list string :=
  match s with
  | EmptyString => [EmptyString]
  | String c s' =>
      if Ascii.eqb c sep then EmptyString :: Split s' sep
      else match Split s' sep with
           | [] => [String c EmptyString]
           | w :: ws => String c w :: ws
           end
  end.

(** [strings.Join elems sep] *)
Fixpoint Join (elems : list string) (sep : string) : string :=
  match elems with
  | [] => EmptyString
  | [w] => w
  | w :: ws => w +:+ sep +:+ Join ws sep
  end.

End Strings.

(** ** Package [strconv] *)

Module Strconv.

Definition digit (c : ascii) : option N :=
  let n := N_of_ascii c in
  if ((48 <=? n) && (n <=? 57))%N then Some (n - 48)%N else None.

(** The digits of [s] in base 10, most significant first, added to [acc];
    [None] is [ParseUint]'s syntax error on a byte that is no digit. *)
Fixpoint digits (acc : N) (s : string) : option N :=
  match s with
  | EmptyString => Some acc
  | String c s' =>
      match digit c with
      | Some d => digits (acc * 10 + d)%N s'
      | None => None
      end
  end.

(** The magnitude [ParseUint(s, 10, 64)] reads, before range checks. *)
Definition ParseUint (s : string) : option N :=
  match s with
  | EmptyString => None
  | _ => digits 0%N s
  end.

(** [strconv.ParseInt(s, 10, 64)].  The callers only test [err != nil],
    so a syntax error and a range error are both [None].  A magnitude
    that overflows [uint64] is a range error in [ParseUint] and stays
    one here, since it is beyond the [int64] cutoff as well. *)
Definition ParseInt (s : string) : option Z :=
  match s with
  | EmptyString => None
  | String c s' =>
      let neg := Ascii.eqb c "-" in
      let body := if Ascii.eqb c "+" || neg then s' else s in
      match ParseUint body with
      | None => None
      | Some un =>
          let cutoff := (2 ^ 63)%N in
          if negb neg && (cutoff <=? un)%N then None
          else if neg && (cutoff <? un)%N then None
          else Some (if neg then - Z.of_N un else Z.of_N un)
      end
  end.

End Strconv.

(** ** Package [fmt]

    [fmt.Sprintf] on string operands, for the directives the builders can
    meet: text outside directives is copied; [%%] writes a percent sign;
    [%s] and [%v] write the next operand; a verb left without operand
    writes [%!c(MISSING)], and a percent sign that ends the format writes
    [%!(NOVERB)].  Directives with flags, width, precision or an argument
    index, other verbs on an operand, a verb that is no ASCII byte, and
    operands left over are outside the fragment: the result is [None]. *)

Module Fmt.

(** A byte that, right after the percent sign, is the verb: not one of the
    flags [#0+- ], not a digit of a width, and none of [*], [.], [[]. *)
Definition plain_verb (c : ascii) : bool :=
  let n := N_of_ascii c in
  ((n <? 128) && negb ((48 <=? n) && (n <=? 57)))%N
  && negb (existsb (Ascii.eqb c) ["#"; "+"; "-"; " "; "*"; "."; "["]%char).

Fixpoint Sprintf (format : string) (a : list string) : option string :=
  match format with
  | EmptyString =>
      match a with
      | [] => Some EmptyString
      | _ :: _ => None
      end
  | String c rest =>
      if Ascii.eqb c "%" then
        match rest with
        | EmptyString =>
            match a with
            | [] => Some "%!(NOVERB)"
            | _ :: _ => None
            end
        | String verb rest' =>
            if Ascii.eqb verb "%" then String "%" <$> Sprintf rest' a
            else if plain_verb verb then
              match a with
              | [] =>
                  (fun t => "%!" +:+ String verb "(MISSING)" +:+ t)
                    <$> Sprintf rest' []
              | x :: a' =>
                  if Ascii.eqb verb "s" || Ascii.eqb verb "v"
                  then (fun t => x +:+ t) <$> Sprintf rest' a'
                  else None
              end
            else None
        end
      else String c <$> Sprintf rest a
  end.

End Fmt.

(** ** Logging and panics

    [log.Warnf] is the only effect of the builders besides a possible
    run-time panic (a slice out of range, a nil dereference).  A logged
    entry is the call as written: the format string and its operands.
    logrus renders it with [fmt.Sprintf]. *)

Module Log.
Inductive Entry : Type :=
| Warnf (format : string) (args : list string).

(** The text logrus writes for an entry: [fmt.Sprintf(format, args...)]. *)
Definition render (e : Entry) : option string :=
  match e with
  | Warnf format args => Fmt.Sprintf format args
  end.
End Log.

(** A Go computation: the entries it logged, and its value unless it
    panicked. *)
Definition Go (A : Type) : Type := (list Log.Entry * option A)%type.

Definition ret {A} (a : A) : Go A := ([], Some a).

Definition panic {A} : Go A := ([], None).

Definition warnf (format : string) (args : list string) : Go unit :=
  ([Log.Warnf format args], Some tt).

Definition bind {A B} (m : Go A) (k : A -> Go B) : Go B :=
  match m with
  | (l, Some a) => let '(l', b) := k a in (l ++ l', b)
  | (l, None) => (l, None)
  end.

Notation "'let*' x ':=' m 'in' k" := (bind m (fun x => k))
  (at level 10, x name, m at level 100, k at level 200).

Definition logged {A} (m : Go A) : list Log.Entry := fst m.
Definition value {A} (m : Go A) : option A := snd m.

(** ** Package [schema]: the types the builders fill in

    Only the fields the sources assign are kept; every other field of the
    Go structs keeps its zero value. *)

Module AttributeFilter.
Record t : Type := Build
  { Key : string; Value : option string; ValueRegex : option string }.
End AttributeFilter.

Module ProductFilter.
Record t : Type := Build
  { VendorName : option string;
    Region : option string;
    Service : option string;
    ProductFamily : option string;
    AttributeFilters : list AttributeFilter.t }.
End ProductFilter.

Module PriceFilter.
Record t : Type := Build { PurchaseOption : option string }.
End PriceFilter.

Module CostComponent.
Record t : Type := Build
  { Name : string;
    Unit : string;
    UnitMultiplier : Z;
    HourlyQuantity : option Z;
    MonthlyQuantity : option Z;
    ProductFilter : option ProductFilter.t;
    PriceFilter : option PriceFilter.t }.
End CostComponent.

Module UsageItem.
Inductive UsageVariableType : Type := Int64 | Float64 | StringVal.
Record t : Type := Build
  { Key : string; DefaultValue : Z; ValueType : UsageVariableType }.
End UsageItem.

Module Resource.
Record t : Type := Build
  { Name : string;
    UsageSchema : list UsageItem.t;
    CostComponents : list CostComponent.t }.
End Resource.

(** [schema.UsageData] as the builders see it: the usage values held for
    one resource, by key.  The nil pointer holds none and is the empty
    map. *)
Abbreviation UsageData := (gmap string Z).

(** Go's [==] on strings. *)
Notation "a == b" := (String.eqb a b) (at level 70, no associativity).

(** [s[:n]] on a Go string: a run-time panic when [n] exceeds the length. *)
Definition slice_to (s : string) (n : nat) : Go string :=
  if (n <=? String.length s)%nat then ret (substring 0 n s) else panic.

(** A Go map from strings to strings, read at a key: the zero value [""]
    when the key is missing. *)
Definition map_index (m : gmap string string) (k : string) : string :=
  default "" (m !! k).

(** ** [internal/resources/azure/mssql_database.go] *)

Module MSSQL.

Definition sqlServiceName := "SQL Database".
Definition sqlProductFamily := "Databases".
Definition sqlServerlessTier := "general purpose - serverless".
Definition sqlHyperscaleTier := "hyperscale".

Record MSSQLDatabase : Type := Build
  { Address : string;
    Region : string;
    SKU : string;
    LicenceType : string;
    Tier : string;
    Family : string;
    Cores : Z;
    MaxSizeGB : option Z;
    ReadReplicaCount : option Z;
    ZoneRedundant : bool;
    (* usage fields, tagged [infracost_usage] *)
    ExtraDataStorageGB : option Z;
    MonthlyVCoreHours : option Z;
    LongTermRetentionStorageGB : option Z }.

(** Modelled from the spec: [resources.PopulateArgsWithUsage], which
    [PopulateUsage] calls, is not among the sources.  Following the
    struct tags, each field tagged [infracost_usage] receives the value
    the usage data holds under that key; a field without a value there
    is left as it was. *)
Definition PopulateUsage (r : MSSQLDatabase) (u : UsageData) : MSSQLDatabase :=
  let pick (key : string) (old : option Z) :=
    match u !! key with Some v => Some v | None => old end in
  {| Address := Address r; Region := Region r; SKU := SKU r;
     LicenceType := LicenceType r; Tier := Tier r; Family := Family r;
     Cores := Cores r; MaxSizeGB := MaxSizeGB r;
     ReadReplicaCount := ReadReplicaCount r;
     ZoneRedundant := ZoneRedundant r;
     ExtraDataStorageGB := pick "extra_data_storage_gb" (ExtraDataStorageGB r);
     MonthlyVCoreHours := pick "monthly_vcore_hours" (MonthlyVCoreHours r);
     LongTermRetentionStorageGB :=
       pick "long_term_retention_storage_gb" (LongTermRetentionStorageGB r) |}.

Section WithPackage.

(** The package constant [vendorName] is declared in another file of
    package [azure]. *)
Variable vendorName : string.

(** The price filter [&schema.PriceFilter{PurchaseOption: "Consumption"}]
    that the components repeat. *)
Definition consumption : option PriceFilter.t :=
  Some {| PriceFilter.PurchaseOption := Some "Consumption" |}.

Definition mssqlSkuName (r : MSSQLDatabase) (cores : Z) : string :=
  let sku := pretty cores +:+ " vCore" in
  if ZoneRedundant r then sku +:+ " Zone Redundancy" else sku.

Definition provisionedComputeCostComponent (r : MSSQLDatabase)
  : Go CostComponent.t :=
  let skuName := mssqlSkuName r (Cores r) in
  let productNameRegex := "/" +:+ Tier r +:+ " - " +:+ Family r +:+ "/" in
  let name := "Compute (provisioned, " +:+ SKU r +:+ ")" in
  let* _ := warnf "'Multiple products found' are safe to ignore for '%s' due to limitations in the Azure API." [name] in
  ret {| CostComponent.Name := name;
         CostComponent.Unit := "hours";
         CostComponent.UnitMultiplier := 1;
         CostComponent.HourlyQuantity := Some 1;
         CostComponent.MonthlyQuantity := None;
         CostComponent.ProductFilter := Some
           {| ProductFilter.VendorName := Some vendorName;
              ProductFilter.Region := Some (Region r);
              ProductFilter.Service := Some sqlServiceName;
              ProductFilter.ProductFamily := Some sqlProductFamily;
              ProductFilter.AttributeFilters :=
                [ AttributeFilter.Build "productName" None (Some productNameRegex);
                  AttributeFilter.Build "skuName" (Some skuName) None ] |};
         CostComponent.PriceFilter := consumption |}.

Definition readReplicaCostComponent (r : MSSQLDatabase) : CostComponent.t :=
  let productNameRegex := "/" +:+ Tier r +:+ " - " +:+ Family r +:+ "/" in
  let skuName := mssqlSkuName r (Cores r) in
  let replicaCount :=
    match ReadReplicaCount r with
    | Some n => Some n
    | None => None
    end in
  {| CostComponent.Name := "Read replicas";
     CostComponent.Unit := "hours";
     CostComponent.UnitMultiplier := 1;
     CostComponent.HourlyQuantity := replicaCount;
     CostComponent.MonthlyQuantity := None;
     CostComponent.ProductFilter := Some
       {| ProductFilter.VendorName := Some vendorName;
          ProductFilter.Region := Some (Region r);
          ProductFilter.Service := Some sqlServiceName;
          ProductFilter.ProductFamily := Some sqlProductFamily;
          ProductFilter.AttributeFilters :=
            [ AttributeFilter.Build "productName" None (Some productNameRegex);
              AttributeFilter.Build "skuName" (Some skuName) None ] |};
     CostComponent.PriceFilter := consumption |}.

Definition serverlessComputeHoursCostComponent (r : MSSQLDatabase)
  : CostComponent.t :=
  let productNameRegex := "/" +:+ Tier r +:+ " - " +:+ Family r +:+ "/" in
  let vCoreHours :=
    match MonthlyVCoreHours r with
    | Some h => Some h
    | None => None
    end in
  let serverlessSkuName := mssqlSkuName r 1 in
  {| CostComponent.Name := "Compute (serverless, " +:+ SKU r +:+ ")";
     CostComponent.Unit := "vCore-hours";
     CostComponent.UnitMultiplier := 1;
     CostComponent.HourlyQuantity := None;
     CostComponent.MonthlyQuantity := vCoreHours;
     CostComponent.ProductFilter := Some
       {| ProductFilter.VendorName := Some vendorName;
          ProductFilter.Region := Some (Region r);
          ProductFilter.Service := Some sqlServiceName;
          ProductFilter.ProductFamily := Some sqlProductFamily;
          ProductFilter.AttributeFilters :=
            [ AttributeFilter.Build "productName" None (Some productNameRegex);
              AttributeFilter.Build "skuName" (Some serverlessSkuName) None ] |};
     CostComponent.PriceFilter := consumption |}.

(** The variable [licenseRegion] of [sqlLicenseCostComponent]: three
    tests on the region of the resource, each overriding the one before. *)
Definition licenseRegion (region : string) : string :=
  let licenseRegion := "Global" in
  let licenseRegion :=
    if Strings.Contains region "usgov" then "US Gov" else licenseRegion in
  let licenseRegion :=
    if Strings.Contains region "china" then "China" else licenseRegion in
  let licenseRegion :=
    if Strings.Contains region "germany" then "Germany" else licenseRegion in
  licenseRegion.

Definition sqlLicenseCostComponent (r : MSSQLDatabase) : CostComponent.t :=
  {| CostComponent.Name := "SQL license";
     CostComponent.Unit := "vCore-hours";
     CostComponent.UnitMultiplier := 1;
     CostComponent.HourlyQuantity := Some (Cores r);
     CostComponent.MonthlyQuantity := None;
     CostComponent.ProductFilter := Some
       {| ProductFilter.VendorName := Some vendorName;
          ProductFilter.Region := Some (licenseRegion (Region r));
          ProductFilter.Service := Some sqlServiceName;
          ProductFilter.ProductFamily := Some sqlProductFamily;
          ProductFilter.AttributeFilters :=
            [ AttributeFilter.Build "productName" None
                (Some ("/" +:+ Tier r +:+ " - " +:+ "SQL License" +:+ "/")) ] |};
     CostComponent.PriceFilter := consumption |}.

Definition mssqlStorageComponent (r : MSSQLDatabase) : CostComponent.t :=
  let storageGB :=
    match MaxSizeGB r with
    | Some n => Some n
    | None => Some 5
    end in
  let storageTier :=
    if Strings.ToLower (Tier r) == "general purpose - serverless"
    then "General Purpose" else Tier r in
  let skuName :=
    if ZoneRedundant r then storageTier +:+ " Zone Redundancy"
    else storageTier in
  let productNameRegex := "/" +:+ storageTier +:+ " - Storage/" in
  {| CostComponent.Name := "Storage";
     CostComponent.Unit := "GB";
     CostComponent.UnitMultiplier := 1;
     CostComponent.HourlyQuantity := None;
     CostComponent.MonthlyQuantity := storageGB;
     CostComponent.ProductFilter := Some
       {| ProductFilter.VendorName := Some vendorName;
          ProductFilter.Region := Some (Region r);
          ProductFilter.Service := Some sqlServiceName;
          ProductFilter.ProductFamily := Some sqlProductFamily;
          ProductFilter.AttributeFilters :=
            [ AttributeFilter.Build "productName" None (Some productNameRegex);
              AttributeFilter.Build "skuName" (Some skuName) None;
              AttributeFilter.Build "meterName" None (Some "/^Data Stored/") ] |};
     CostComponent.PriceFilter := None |}.

Definition longTermRetentionMSSQLCostComponent (r : MSSQLDatabase)
  : CostComponent.t :=
  let retention :=
    match LongTermRetentionStorageGB r with
    | Some n => Some n
    | None => None
    end in
  {| CostComponent.Name := "Long-term retention";
     CostComponent.Unit := "GB";
     CostComponent.UnitMultiplier := 1;
     CostComponent.HourlyQuantity := None;
     CostComponent.MonthlyQuantity := retention;
     CostComponent.ProductFilter := Some
       {| ProductFilter.VendorName := Some vendorName;
          ProductFilter.Region := Some (Region r);
          ProductFilter.Service := Some sqlServiceName;
          ProductFilter.ProductFamily := Some sqlProductFamily;
          ProductFilter.AttributeFilters :=
            [ AttributeFilter.Build "productName"
                (Some "SQL Database - LTR Backup Storage") None;
              AttributeFilter.Build "skuName" (Some "Backup RA-GRS") None;
              AttributeFilter.Build "meterName" (Some "RA-GRS Data Stored") None ] |};
     CostComponent.PriceFilter := consumption |}.

Definition vCorePurchaseCostComponents (r : MSSQLDatabase)
  : Go (list CostComponent.t) :=
  let costComponents := [] in
  let* costComponents :=
    if Strings.ToLower (Tier r) == sqlServerlessTier
    then ret (costComponents ++ [serverlessComputeHoursCostComponent r])
    else let* c := provisionedComputeCostComponent r in
         ret (costComponents ++ [c]) in
  let costComponents :=
    if Strings.ToLower (Tier r) == sqlHyperscaleTier
    then let component := readReplicaCostComponent r in
         costComponents ++ [component]
    else costComponents in
  let costComponents :=
    if negb (Strings.ToLower (Tier r) == sqlServerlessTier)
    then if Strings.ToLower (LicenceType r) == "licenseincluded"
         then costComponents ++ [sqlLicenseCostComponent r]
         else costComponents
    else costComponents in
  let costComponents := costComponents ++ [mssqlStorageComponent r] in
  let costComponents :=
    if negb (Strings.ToLower (Tier r) == sqlHyperscaleTier)
    then costComponents ++ [longTermRetentionMSSQLCostComponent r]
    else costComponents in
  ret costComponents.

(** The derived quantity of the "Extra data storage" component: the
    variable [storageGB] of [dtuPurchaseCostComponents]. *)
Definition extraStorageGB (r : MSSQLDatabase) (sn : string) : option Z :=
  let storageGB :=
    match MaxSizeGB r with
    | Some n =>
        let storageGB :=
          if Strings.ToLower sn == "premium" then n - 500 else n - 250 in
        if storageGB <? 0 then None else Some storageGB
    | None => None
    end in
  match ExtraDataStorageGB r with
  | Some n => Some n
  | None => storageGB
  end.

Definition dtuPurchaseCostComponents (r : MSSQLDatabase)
  : Go (list CostComponent.t) :=
  let costComponents := [] in
  let skuName := Strings.ToLower (SKU r) in
  let skuName := if skuName == "basic" then "b" else skuName in
  let costComponents := costComponents ++
    [ {| CostComponent.Name := "Compute (" +:+ Strings.ToTitle (SKU r) +:+ ")";
         CostComponent.Unit := "days";
         CostComponent.UnitMultiplier := 1;
         CostComponent.HourlyQuantity := None;
         CostComponent.MonthlyQuantity := Some 30;
         CostComponent.ProductFilter := Some
           {| ProductFilter.VendorName := Some vendorName;
              ProductFilter.Region := Some (Region r);
              ProductFilter.Service := Some sqlServiceName;
              ProductFilter.ProductFamily := Some sqlProductFamily;
              ProductFilter.AttributeFilters :=
                [ AttributeFilter.Build "productName" None
                    (Some "/^SQL Database Single/i");
                  AttributeFilter.Build "skuName" None
                    (Some ("/^" +:+ skuName +:+ "$/i")) ] |};
         CostComponent.PriceFilter := consumption |} ] in
  let* costComponents :=
    if negb (skuName == "b") then
      let* initial := slice_to skuName 1 in
      let sn := map_index (<["p" := "Premium"]> (<["s" := "Standard"]> ∅))
                          initial in
      let storageGB := extraStorageGB r sn in
      ret (costComponents ++
        [ {| CostComponent.Name := "Extra data storage";
             CostComponent.Unit := "GB";
             CostComponent.UnitMultiplier := 1;
             CostComponent.HourlyQuantity := None;
             CostComponent.MonthlyQuantity := storageGB;
             CostComponent.ProductFilter := Some
               {| ProductFilter.VendorName := Some vendorName;
                  ProductFilter.Region := Some (Region r);
                  ProductFilter.Service := Some sqlServiceName;
                  ProductFilter.ProductFamily := Some sqlProductFamily;
                  ProductFilter.AttributeFilters :=
                    [ AttributeFilter.Build "productName" None
                        (Some ("/SQL Database " +:+ sn +:+ " - Storage/i"));
                      AttributeFilter.Build "skuName" None
                        (Some ("/^" +:+ sn +:+ "$/i"));
                      AttributeFilter.Build "meterName"
                        (Some "Data Stored") None ] |};
             CostComponent.PriceFilter := consumption |} ])
    else ret costComponents in
  ret (costComponents ++ [longTermRetentionMSSQLCostComponent r]).

(** The test of [BuildResource] for the DTU purchase model, on the SKU in
    lower case. *)
Definition isDTU (sku : string) : bool :=
  (sku == "basic") || Strings.HasPrefix sku "s" || Strings.HasPrefix sku "p".

Definition BuildResource (r : MSSQLDatabase) : Go Resource.t :=
  let costComponents := [] in
  let sku := Strings.ToLower (SKU r) in
  let* costComponents :=
    if isDTU sku
    then let* cs := dtuPurchaseCostComponents r in ret (costComponents ++ cs)
    else let* cs := vCorePurchaseCostComponents r in ret (costComponents ++ cs) in
  ret {| Resource.Name := Address r;
         Resource.UsageSchema :=
           [ UsageItem.Build "extra_data_storage_gb" 0 UsageItem.Int64;
             UsageItem.Build "monthly_vcore_hours" 0 UsageItem.Int64;
             UsageItem.Build "long_term_retention_storage_gb" 0 UsageItem.Int64 ];
         Resource.CostComponents := costComponents |}.

End WithPackage.

End MSSQL.

(** A pointer dereference [*p]: a run-time panic on nil. *)
Definition deref {A} (p : option A) : Go A :=
  match p with
  | Some a => ret a
  | None => panic
  end.

(** ** The sibling resource [SQLDatabase] of package [azure] *)

Module SQL.

Definition sqlServiceName := "SQL Database".
Definition sqlProductFamily := "Databases".
Definition sqlServerlessTier := "general purpose - serverless".
Definition sqlHyperscaleTier := "hyperscale".

Definition tierMapping : gmap string string :=
  <["p" := "Premium"]> (<["s" := "Standard"]> ∅).

Record SQLDatabase : Type := Build
  { Address : string;
    Region : string;
    SKU : string;
    LicenceType : string;
    Tier : string;
    Family : string;
    Cores : option Z;
    MaxSizeGB : option Z;
    ReadReplicaCount : option Z;
    ZoneRedundant : bool;
    (* usage fields, tagged [infracost_usage] *)
    ExtraDataStorageGB : option Z;
    MonthlyVCoreHours : option Z;
    LongTermRetentionStorageGB : option Z }.

Section WithPackage.

(** [vendorName] and [priceFilterConsumption] are declared in other
    files of package [azure]. *)
Variable vendorName : string.
Variable priceFilterConsumption : option PriceFilter.t.

Definition productFilter (r : SQLDatabase) (filters : list AttributeFilter.t)
  : option ProductFilter.t :=
  Some {| ProductFilter.VendorName := Some vendorName;
          ProductFilter.Region := Some (Region r);
          ProductFilter.Service := Some sqlServiceName;
          ProductFilter.ProductFamily := Some sqlProductFamily;
          ProductFilter.AttributeFilters := filters |}.

Definition mssqlSkuName (r : SQLDatabase) (cores : Z) : string :=
  let sku := pretty cores +:+ " vCore" in
  if ZoneRedundant r then sku +:+ " Zone Redundancy" else sku.

Definition provisionedComputeCostComponent (r : SQLDatabase)
  : Go CostComponent.t :=
  let* cores := deref (Cores r) in
  let skuName := mssqlSkuName r cores in
  let productNameRegex := "/" +:+ Tier r +:+ " - " +:+ Family r +:+ "/" in
  let name := "Compute (provisioned, " +:+ SKU r +:+ ")" in
  let* _ := warnf "'Multiple products found' are safe to ignore for '%s' due to limitations in the Azure API." [name] in
  ret {| CostComponent.Name := name;
         CostComponent.Unit := "hours";
         CostComponent.UnitMultiplier := 1;
         CostComponent.HourlyQuantity := Some 1;
         CostComponent.MonthlyQuantity := None;
         CostComponent.ProductFilter := productFilter r
           [ AttributeFilter.Build "productName" None (Some productNameRegex);
             AttributeFilter.Build "skuName" (Some skuName) None ];
         CostComponent.PriceFilter := priceFilterConsumption |}.

Definition readReplicaCostComponent (r : SQLDatabase) : Go CostComponent.t :=
  let productNameRegex := "/" +:+ Tier r +:+ " - " +:+ Family r +:+ "/" in
  let* cores := deref (Cores r) in
  let skuName := mssqlSkuName r cores in
  let replicaCount :=
    match ReadReplicaCount r with
    | Some n => Some n
    | None => None
    end in
  ret {| CostComponent.Name := "Read replicas";
         CostComponent.Unit := "hours";
         CostComponent.UnitMultiplier := 1;
         CostComponent.HourlyQuantity := replicaCount;
         CostComponent.MonthlyQuantity := None;
         CostComponent.ProductFilter := productFilter r
           [ AttributeFilter.Build "productName" None (Some productNameRegex);
             AttributeFilter.Build "skuName" (Some skuName) None ];
         CostComponent.PriceFilter := priceFilterConsumption |}.

Definition serverlessComputeHoursCostComponent (r : SQLDatabase)
  : CostComponent.t :=
  let productNameRegex := "/" +:+ Tier r +:+ " - " +:+ Family r +:+ "/" in
  let vCoreHours :=
    match MonthlyVCoreHours r with
    | Some h => Some h
    | None => None
    end in
  let serverlessSkuName := mssqlSkuName r 1 in
  {| CostComponent.Name := "Compute (serverless, " +:+ SKU r +:+ ")";
     CostComponent.Unit := "vCore-hours";
     CostComponent.UnitMultiplier := 1;
     CostComponent.HourlyQuantity := None;
     CostComponent.MonthlyQuantity := vCoreHours;
     CostComponent.ProductFilter := productFilter r
       [ AttributeFilter.Build "productName" None (Some productNameRegex);
         AttributeFilter.Build "skuName" (Some serverlessSkuName) None ];
     CostComponent.PriceFilter := priceFilterConsumption |}.

(** The variable [licenseRegion] of [sqlLicenseCostComponent]: three
    tests on the region of the resource, each overriding the one before. *)
Definition licenseRegion (region : string) : string :=
  let licenseRegion := "Global" in
  let licenseRegion :=
    if Strings.Contains region "usgov" then "US Gov" else licenseRegion in
  let licenseRegion :=
    if Strings.Contains region "china" then "China" else licenseRegion in
  let licenseRegion :=
    if Strings.Contains region "germany" then "Germany" else licenseRegion in
  licenseRegion.

Definition sqlLicenseCostComponent (r : SQLDatabase) : Go CostComponent.t :=
  let* cores := deref (Cores r) in
  ret {| CostComponent.Name := "SQL license";
         CostComponent.Unit := "vCore-hours";
         CostComponent.UnitMultiplier := 1;
         CostComponent.HourlyQuantity := Some cores;
         CostComponent.MonthlyQuantity := None;
         CostComponent.ProductFilter := Some
           {| ProductFilter.VendorName := Some vendorName;
              ProductFilter.Region := Some (licenseRegion (Region r));
              ProductFilter.Service := Some sqlServiceName;
              ProductFilter.ProductFamily := Some sqlProductFamily;
              ProductFilter.AttributeFilters :=
                [ AttributeFilter.Build "productName" None
                    (Some ("/" +:+ Tier r +:+ " - " +:+ "SQL License" +:+ "/")) ] |};
         CostComponent.PriceFilter := priceFilterConsumption |}.

Definition mssqlStorageComponent (r : SQLDatabase) : CostComponent.t :=
  let storageGB :=
    match MaxSizeGB r with
    | Some n => Some n
    | None => Some 5
    end in
  let storageTier :=
    if Strings.ToLower (Tier r) == "general purpose - serverless"
    then "General Purpose" else Tier r in
  let skuName :=
    if ZoneRedundant r then storageTier +:+ " Zone Redundancy"
    else storageTier in
  let productNameRegex := "/" +:+ storageTier +:+ " - Storage/" in
  {| CostComponent.Name := "Storage";
     CostComponent.Unit := "GB";
     CostComponent.UnitMultiplier := 1;
     CostComponent.HourlyQuantity := None;
     CostComponent.MonthlyQuantity := storageGB;
     CostComponent.ProductFilter := productFilter r
       [ AttributeFilter.Build "productName" None (Some productNameRegex);
         AttributeFilter.Build "skuName" (Some skuName) None;
         AttributeFilter.Build "meterName" None (Some "/^Data Stored/") ];
     CostComponent.PriceFilter := None |}.

Definition longTermRetentionMSSQLCostComponent (r : SQLDatabase)
  : CostComponent.t :=
  let retention :=
    match LongTermRetentionStorageGB r with
    | Some n => Some n
    | None => None
    end in
  {| CostComponent.Name := "Long-term retention";
     CostComponent.Unit := "GB";
     CostComponent.UnitMultiplier := 1;
     CostComponent.HourlyQuantity := None;
     CostComponent.MonthlyQuantity := retention;
     CostComponent.ProductFilter := productFilter r
       [ AttributeFilter.Build "productName"
           (Some "SQL Database - LTR Backup Storage") None;
         AttributeFilter.Build "skuName" (Some "Backup RA-GRS") None;
         AttributeFilter.Build "meterName" (Some "RA-GRS Data Stored") None ];
     CostComponent.PriceFilter := priceFilterConsumption |}.

Definition vCorePurchaseCostComponents (r : SQLDatabase)
  : Go (list CostComponent.t) :=
  let costComponents := [] in
  let* costComponents :=
    if Strings.ToLower (Tier r) == sqlServerlessTier
    then ret (costComponents ++ [serverlessComputeHoursCostComponent r])
    else let* c := provisionedComputeCostComponent r in
         ret (costComponents ++ [c]) in
  let* costComponents :=
    if Strings.ToLower (Tier r) == sqlHyperscaleTier
    then let* component := readReplicaCostComponent r in
         ret (costComponents ++ [component])
    else ret costComponents in
  let* costComponents :=
    if negb (Strings.ToLower (Tier r) == sqlServerlessTier)
       && (Strings.ToLower (LicenceType r) == "licenseincluded")
    then let* c := sqlLicenseCostComponent r in
         ret (costComponents ++ [c])
    else ret costComponents in
  let costComponents := costComponents ++ [mssqlStorageComponent r] in
  let costComponents :=
    if negb (Strings.ToLower (Tier r) == sqlHyperscaleTier)
    then costComponents ++ [longTermRetentionMSSQLCostComponent r]
    else costComponents in
  ret costComponents.

Definition extraDataStorageCostComponent (r : SQLDatabase)
  : Go CostComponent.t :=
  let* initial := slice_to (Strings.ToLower (SKU r)) 1 in
  let sn := map_index tierMapping initial in
  let storageGB :=
    match MaxSizeGB r with
    | Some n =>
        let storageGB :=
          if Strings.ToLower sn == "premium" then n - 500 else n - 250 in
        if storageGB <? 0 then None else Some storageGB
    | None => None
    end in
  let storageGB :=
    match ExtraDataStorageGB r with
    | Some n => Some n
    | None => storageGB
    end in
  ret {| CostComponent.Name := "Extra data storage";
         CostComponent.Unit := "GB";
         CostComponent.UnitMultiplier := 1;
         CostComponent.HourlyQuantity := None;
         CostComponent.MonthlyQuantity := storageGB;
         CostComponent.ProductFilter := productFilter r
           [ AttributeFilter.Build "productName" None
               (Some ("/SQL Database " +:+ sn +:+ " - Storage/i"));
             AttributeFilter.Build "skuName" None
               (Some ("/^" +:+ sn +:+ "$/i"));
             AttributeFilter.Build "meterName" (Some "Data Stored") None ];
         CostComponent.PriceFilter := priceFilterConsumption |}.

Definition dtuPurchaseCostComponents (r : SQLDatabase)
  : Go (list CostComponent.t) :=
  let costComponents := [] in
  let skuName := Strings.ToLower (SKU r) in
  let skuName := if skuName == "basic" then "b" else skuName in
  let costComponents := costComponents ++
    [ {| CostComponent.Name := "Compute (" +:+ Strings.ToTitle (SKU r) +:+ ")";
         CostComponent.Unit := "days";
         CostComponent.UnitMultiplier := 1;
         CostComponent.HourlyQuantity := None;
         CostComponent.MonthlyQuantity := Some 30;
         CostComponent.ProductFilter := productFilter r
           [ AttributeFilter.Build "productName" None
               (Some "/^SQL Database Single/i");
             AttributeFilter.Build "skuName" None
               (Some ("/^" +:+ skuName +:+ "$/i")) ];
         CostComponent.PriceFilter := priceFilterConsumption |} ] in
  let* costComponents :=
    if negb (skuName == "b")
    then let* c := extraDataStorageCostComponent r in
         ret (costComponents ++ [c])
    else ret costComponents in
  ret (costComponents ++ [longTermRetentionMSSQLCostComponent r]).

Definition costComponents (r : SQLDatabase) : Go (list CostComponent.t) :=
  match Cores r with
  | Some _ => vCorePurchaseCostComponents r
  | None => dtuPurchaseCostComponents r
  end.

Definition BuildResource (r : SQLDatabase) : Go Resource.t :=
  let* cs := costComponents r in
  ret {| Resource.Name := Address r;
         Resource.UsageSchema :=
           [ UsageItem.Build "extra_data_storage_gb" 0 UsageItem.Int64;
             UsageItem.Build "monthly_vcore_hours" 0 UsageItem.Int64;
             UsageItem.Build "long_term_retention_storage_gb" 0 UsageItem.Int64 ];
         Resource.CostComponents := cs |}.

End WithPackage.

End SQL.

(** ** [github.com/tidwall/gjson] and [schema.ResourceData]

    A [gjson.Result] is represented by what the builder observes of it:
    its [Type] and the results of its methods [Exists], [String], [Int]
    and [Bool]. *)

Module Gjson.
Inductive Kind : Type := Null | False_ | Number | String_ | True_ | JSON.

Record Result : Type := Build
  { Type_ : Kind; Exists : bool; String : string; Int : Z; Bool : bool }.

Definition is_null (k : Kind) : bool :=
  match k with Null => true | _ => false end.

(** The result of [Get] on a path that is not in the document. *)
Definition absent : Result := Build Null false "" 0 false.
(** The JSON literal [null]: it exists, and its type is [Null]. *)
Definition null : Result := Build Null true "" 0 false.
(** A JSON string that reads neither as a number nor as a boolean. *)
Definition text (s : string) : Result := Build String_ true s 0 false.
(** A JSON integer written in decimal digits.  [Int] reads it into an
    [int64]: a literal beyond the range wraps around. *)
Definition number (n : Z) : Result :=
  Build Number true (pretty n)
        ((n + 2 ^ 63) `mod` 2 ^ 64 - 2 ^ 63) (negb (n =? 0)).
(** The JSON literals [true] and [false]. *)
Definition boolean (b : bool) : Result :=
  if b then Build True_ true "true" 1 true
  else Build False_ true "false" 0 false.
End Gjson.

Module ResourceData.
Record t : Type := Build
  { Address : string;
    Get : string -> Gjson.Result }.

(** A node with the given attributes and no other. *)
Definition of_attributes (address : string) (attrs : gmap string Gjson.Result) : t :=
  {| Address := address;
     Get := fun key => default Gjson.absent (attrs !! key) |}.
End ResourceData.

(** [s[i]] on a Go slice: a run-time panic when [i] is out of range. *)
Definition index {A} (s : list A) (i : nat) : Go A :=
  match s !! i with
  | Some a => ret a
  | None => panic
  end.

(** [s[0:n]] on a Go slice whose capacity is its length. *)
Definition slice_upto {A} (s : list A) (n : nat) : Go (list A) :=
  if (n <=? length s)%nat then ret (take n s) else panic.

(** A Go result pair [(value, error)] with [err != nil] as [Err]. *)
Inductive Result (A : Type) : Type :=
| Ok (a : A)
| Err (msg : string).
Arguments Ok {A} a.
Arguments Err {A} msg.

(** ** The Terraform provider: [NewAzureRMMSSQLDatabase] *)

Module Terraform.

Record skuConfig : Type := Build_skuConfig
  { tier : string; family : string; cores : Z }.

Definition tiers : gmap string string :=
  <["GP" := "General Purpose"]>
    (<["GP_S" := "General Purpose - Serverless"]>
       (<["HS" := "Hyperscale"]>
          (<["BC" := "Business Critical"]> ∅))).

Definition families : gmap string string :=
  <["Gen5" := "Compute Gen5"]>
    (<["Gen4" := "Compute Gen4"]>
       (<["M" := "Compute M Series"]> ∅)).

Definition parseMSSQLSku (address sku : string) : Go (Result skuConfig) :=
  let s := Strings.Split sku "_" in
  if (length s <? 3)%nat then
    ret (Err ("Unrecognized MSSQL SKU format for resource "
                +:+ address +:+ ": " +:+ sku))
  else
    let* prefix := slice_upto s (length s - 2) in
    let tierKey := Strings.Join prefix "_" in
    match tiers !! tierKey with
    | None =>
        ret (Err ("Invalid tier in MSSQL SKU for resource "
                    +:+ address +:+ ": " +:+ sku))
    | Some tier =>
        let* familyKey := index s (length s - 2) in
        match families !! familyKey with
        | None =>
            ret (Err ("Invalid family in MSSQL SKU for resource "
                        +:+ address +:+ ": " +:+ sku))
        | Some family =>
            let* last := index s (length s - 1) in
            match Strconv.ParseInt last with
            | None =>
                ret (Err ("Invalid core count in MSSQL SKU for resource "
                            +:+ address +:+ ": " +:+ sku))
            | Some cores =>
                ret (Ok {| tier := tier; family := family; cores := cores |})
            end
        end
    end.

Section WithPackage.

(** [vendorName] and [lookupRegion] are declared in other files of the
    provider package. *)
Variable vendorName : string.
Variable lookupRegion : ResourceData.t -> list string -> string.

Definition NewAzureRMMSSQLDatabase (d : ResourceData.t) (u : UsageData)
  : Go (option Resource.t) :=
  let get := ResourceData.Get d in
  let region := lookupRegion d ["server_id"] in
  let sku :=
    if negb (Gjson.is_null (Gjson.Type_ (get "sku_name")))
    then Gjson.String (get "sku_name") else "" in
  let maxSize :=
    if negb (Gjson.is_null (Gjson.Type_ (get "max_size_gb")))
    then Some (Gjson.Int (get "max_size_gb")) else None in
  let replicaCount :=
    if Gjson.Exists (get "read_replica_count")
    then Some (Gjson.Int (get "read_replica_count")) else None in
  let licenceType :=
    if Gjson.Exists (get "license_type")
    then Gjson.String (get "license_type") else "LicenseIncluded" in
  let skuLower := Strings.ToLower sku in
  let r :=
    {| MSSQL.Address := ResourceData.Address d;
       MSSQL.Region := region;
       MSSQL.SKU := sku;
       MSSQL.LicenceType := licenceType;
       MSSQL.Tier := "";
       MSSQL.Family := "";
       MSSQL.Cores := 0;
       MSSQL.MaxSizeGB := maxSize;
       MSSQL.ReadReplicaCount := replicaCount;
       MSSQL.ZoneRedundant := Gjson.Bool (get "zone_redundant");
       MSSQL.ExtraDataStorageGB := None;
       MSSQL.MonthlyVCoreHours := None;
       MSSQL.LongTermRetentionStorageGB := None |} in
  let* r :=
    if negb (skuLower == "basic")
       && negb (Strings.HasPrefix skuLower "s")
       && negb (Strings.HasPrefix skuLower "p")
    then
      let* parsed := parseMSSQLSku (ResourceData.Address d) sku in
      match parsed with
      | Err msg =>
          let* _ := warnf msg [] in
          ret None
      | Ok c =>
          ret (Some
            {| MSSQL.Address := MSSQL.Address r;
               MSSQL.Region := MSSQL.Region r;
               MSSQL.SKU := MSSQL.SKU r;
               MSSQL.LicenceType := MSSQL.LicenceType r;
               MSSQL.Tier := tier c;
               MSSQL.Family := family c;
               MSSQL.Cores := cores c;
               MSSQL.MaxSizeGB := MSSQL.MaxSizeGB r;
               MSSQL.ReadReplicaCount := MSSQL.ReadReplicaCount r;
               MSSQL.ZoneRedundant := MSSQL.ZoneRedundant r;
               MSSQL.ExtraDataStorageGB := MSSQL.ExtraDataStorageGB r;
               MSSQL.MonthlyVCoreHours := MSSQL.MonthlyVCoreHours r;
               MSSQL.LongTermRetentionStorageGB :=
                 MSSQL.LongTermRetentionStorageGB r |})
      end
    else ret (Some r) in
  match r with
  | None => ret None
  | Some r =>
      let r := MSSQL.PopulateUsage r u in
      let* res := MSSQL.BuildResource vendorName r in
      ret (Some res)
  end.

End WithPackage.

End Terraform.

(** ** The run over the nodes of a plan *)

(** Modelled from the spec: the caller of the builders is not among the
    sources.  Following design section 4.2, a node whose builder returns
    none is skipped, its address is recorded, and the run goes on with the
    next node. *)
Fixpoint buildAll (build : ResourceData.t -> Go (option Resource.t))
    (nodes : list ResourceData.t) : Go (list Resource.t * list string) :=
  match nodes with
  | [] => ret ([], [])
  | d :: rest =>
      let* res := build d in
      let* others := buildAll build rest in
      ret match res with
          | Some r => (r :: others.1, others.2)
          | None => (others.1, ResourceData.Address d :: others.2)
          end
  end.

(** ** Concrete inputs *)

Module Examples.

Definition node (attrs : list (string * Gjson.Result)) : ResourceData.t :=
  ResourceData.of_attributes "azurerm_mssql_database.db" (list_to_map attrs).

Definition region (d : ResourceData.t) (attrs : list string) : string := "eastus".

Definition build (attrs : list (string * Gjson.Result)) (u : UsageData)
  : Go (option Resource.t) :=
  Terraform.NewAzureRMMSSQLDatabase "azure" region (node attrs) u.

(** The instance of a resource with [for_each] whose key is [50%off]: its
    address is the base address followed by the key, quoted, in brackets.
    Its SKU holds a tier key and a family key and no core count. *)
Definition quote : string := String "034" EmptyString.

Definition percent_node : ResourceData.t :=
  ResourceData.of_attributes
    ("azurerm_mssql_database.db[" +:+ quote +:+ "50%off" +:+ quote +:+ "]")
    (list_to_map [("sku_name", Gjson.text "GP_Gen5")]).

(** A General Purpose database of four cores, as the provider builds it
    from the SKU GP_Gen5_4. *)
Definition general_purpose : MSSQL.MSSQLDatabase :=
  {| MSSQL.Address := "azurerm_mssql_database.db";
     MSSQL.Region := "eastus";
     MSSQL.SKU := "GP_Gen5_4";
     MSSQL.LicenceType := "LicenseIncluded";
     MSSQL.Tier := "General Purpose";
     MSSQL.Family := "Compute Gen5";
     MSSQL.Cores := 4;
     MSSQL.MaxSizeGB := Some 500;
     MSSQL.ReadReplicaCount := None;
     MSSQL.ZoneRedundant := false;
     MSSQL.ExtraDataStorageGB := None;
     MSSQL.MonthlyVCoreHours := None;
     MSSQL.LongTermRetentionStorageGB := None |}.

(** A Standard database of the DTU purchase model. *)
Definition standard : MSSQL.MSSQLDatabase :=
  {| MSSQL.Address := "azurerm_mssql_database.db";
     MSSQL.Region := "eastus";
     MSSQL.SKU := "S0";
     MSSQL.LicenceType := "LicenseIncluded";
     MSSQL.Tier := "";
     MSSQL.Family := "";
     MSSQL.Cores := 0;
     MSSQL.MaxSizeGB := Some 500;
     MSSQL.ReadReplicaCount := None;
     MSSQL.ZoneRedundant := false;
     MSSQL.ExtraDataStorageGB := None;
     MSSQL.MonthlyVCoreHours := None;
     MSSQL.LongTermRetentionStorageGB := None |}.

(** A Hyperscale database for which the usage file gives
    [long_term_retention_storage_gb = 100]. *)
Definition hyperscale_with_retention : MSSQL.MSSQLDatabase :=
  {| MSSQL.Address := "azurerm_mssql_database.db";
     MSSQL.Region := "eastus";
     MSSQL.SKU := "HS_Gen5_4";
     MSSQL.LicenceType := "LicenseIncluded";
     MSSQL.Tier := "Hyperscale";
     MSSQL.Family := "Compute Gen5";
     MSSQL.Cores := 4;
     MSSQL.MaxSizeGB := Some 500;
     MSSQL.ReadReplicaCount := None;
     MSSQL.ZoneRedundant := false;
     MSSQL.ExtraDataStorageGB := None;
     MSSQL.MonthlyVCoreHours := None;
     MSSQL.LongTermRetentionStorageGB := Some 100 |}.

(** A General Purpose database with the same usage. *)
Definition general_purpose_with_retention : MSSQL.MSSQLDatabase :=
  {| MSSQL.Address := "azurerm_mssql_database.db";
     MSSQL.Region := "eastus";
     MSSQL.SKU := "GP_Gen5_4";
     MSSQL.LicenceType := "LicenseIncluded";
     MSSQL.Tier := "General Purpose";
     MSSQL.Family := "Compute Gen5";
     MSSQL.Cores := 4;
     MSSQL.MaxSizeGB := Some 500;
     MSSQL.ReadReplicaCount := None;
     MSSQL.ZoneRedundant := false;
     MSSQL.ExtraDataStorageGB := None;
     MSSQL.MonthlyVCoreHours := None;
     MSSQL.LongTermRetentionStorageGB := Some 100 |}.

(** A Standard database for which the usage file gives
    [extra_data_storage_gb = -1]. *)
Definition standard_with_negative_usage : MSSQL.MSSQLDatabase :=
  {| MSSQL.Address := "azurerm_mssql_database.db";
     MSSQL.Region := "eastus";
     MSSQL.SKU := "S0";
     MSSQL.LicenceType := "LicenseIncluded";
     MSSQL.Tier := "";
     MSSQL.Family := "";
     MSSQL.Cores := 0;
     MSSQL.MaxSizeGB := Some 500;
     MSSQL.ReadReplicaCount := None;
     MSSQL.ZoneRedundant := false;
     MSSQL.ExtraDataStorageGB := Some (-1);
     MSSQL.MonthlyVCoreHours := None;
     MSSQL.LongTermRetentionStorageGB := None |}.

(** The sibling resource, once with a core count and once without. *)
Definition sql_general_purpose : SQL.SQLDatabase :=
  {| SQL.Address := "azurerm_sql_database.db";
     SQL.Region := "eastus";
     SQL.SKU := "GP_Gen5_4";
     SQL.LicenceType := "LicenseIncluded";
     SQL.Tier := "General Purpose";
     SQL.Family := "Compute Gen5";
     SQL.Cores := Some 4;
     SQL.MaxSizeGB := Some 500;
     SQL.ReadReplicaCount := None;
     SQL.ZoneRedundant := false;
     SQL.ExtraDataStorageGB := None;
     SQL.MonthlyVCoreHours := None;
     SQL.LongTermRetentionStorageGB := None |}.

Definition sql_standard : SQL.SQLDatabase :=
  {| SQL.Address := "azurerm_sql_database.db";
     SQL.Region := "eastus";
     SQL.SKU := "S0";
     SQL.LicenceType := "LicenseIncluded";
     SQL.Tier := "";
     SQL.Family := "";
     SQL.Cores := None;
     SQL.MaxSizeGB := Some 500;
     SQL.ReadReplicaCount := None;
     SQL.ZoneRedundant := false;
     SQL.ExtraDataStorageGB := None;
     SQL.MonthlyVCoreHours := None;
     SQL.LongTermRetentionStorageGB := None |}.

Definition consumption : option PriceFilter.t :=
  Some {| PriceFilter.PurchaseOption := Some "Consumption" |}.

End Examples.

(** The cost components of the General Purpose example. *)
Definition general_purpose_components : list CostComponent.t :=
  default [] (Resource.CostComponents <$>
                snd (MSSQL.BuildResource "azure" Examples.general_purpose)).

(** ** The usage schema engine

    The engine that resolves usage values (design section 4.3) is not
    among the sources; only a golden usage file of its tests is.  Its
    definitions below follow the design. *)

Module Usage.

(** Modelled from the spec: the resource addresses and the patterns that
    key a usage specification, which the missing engine works on.  An
    address is a base (module path, type and name) with an optional index,
    [[N]] for count and [["key"]] for for_each; a pattern is an address or
    the wildcard [base[*]]. *)
Inductive Index : Type :=
| Count (n : N)
| ForEach (key : string).

Record ResourceAddress : Type := Build
  { base : string; index : option Index }.

Inductive Pattern : Type :=
| Exact (a : ResourceAddress)
| Wildcard (base : string).

#[global] Instance Index_eq_dec : EqDecision Index.
Proof. solve_decision. Defined.

#[global] Instance ResourceAddress_eq_dec : EqDecision ResourceAddress.
Proof. solve_decision. Defined.

#[global] Instance Pattern_eq_dec : EqDecision Pattern.
Proof. solve_decision. Defined.

#[global] Instance Index_countable : Countable Index.
Proof.
  refine (inj_countable'
    (fun i => match i with Count n => inl n | ForEach k => inr k end)
    (fun s => match s with inl n => Count n | inr k => ForEach k end) _).
  intros []; reflexivity.
Defined.

#[global] Instance ResourceAddress_countable : Countable ResourceAddress.
Proof.
  refine (inj_countable' (fun a => (base a, index a))
                         (fun p => Build p.1 p.2) _).
  intros []; reflexivity.
Defined.

#[global] Instance Pattern_countable : Countable Pattern.
Proof.
  refine (inj_countable'
    (fun p => match p with Exact a => inl a | Wildcard b => inr b end)
    (fun s => match s with inl a => Exact a | inr b => Wildcard b end) _).
  intros []; reflexivity.
Defined.

Section WithValue.

Context {V : Type}.

(** Modelled from the spec: the lookup of the missing engine in the entry
    that matches the address exactly. *)
Definition exact_value (spec : gmap Pattern (gmap string V))
    (a : ResourceAddress) (key : string) : option V :=
  entry ← spec !! Exact a; entry !! key.

(** Modelled from the spec: the lookup of the missing engine in the
    wildcard entry [base[*]], which matches any index of that base. *)
Definition wildcard_value (spec : gmap Pattern (gmap string V))
    (a : ResourceAddress) (key : string) : option V :=
  match index a with
  | Some _ => entry ← spec !! Wildcard (base a); entry !! key
  | None => None
  end.

(** Modelled from the spec: the lookup of the missing engine in the entry
    of the un-indexed base address, which design section 4.2 names as the
    last entry tried for an indexed address. *)
Definition base_value (spec : gmap Pattern (gmap string V))
    (a : ResourceAddress) (key : string) : option V :=
  match index a with
  | Some _ => entry ← spec !! Exact (Build (base a) None); entry !! key
  | None => None
  end.

(** Modelled from the spec: the resolution of one schema item, given as
    (key, declared default), by the missing engine.  The precedence is
    that of design sections 4.2 and 4.3: exact entry, wildcard entry,
    entry of the un-indexed base address, declared default.  Values are
    taken as already coerced to their declared type. *)
Definition resolve (spec : gmap Pattern (gmap string V))
    (a : ResourceAddress) (item : string * V) : V :=
  match exact_value spec a item.1 with
  | Some v => v
  | None =>
      match wildcard_value spec a item.1 with
      | Some v => v
      | None =>
          match base_value spec a item.1 with
          | Some v => v
          | None => item.2
          end
      end
  end.

(** Modelled from the spec: the usage data the missing engine produces
    for a resource, a value for each key of its schema. *)
Definition resolveUsage (schema : list (string * V))
    (spec : gmap Pattern (gmap string V)) (a : ResourceAddress)
  : gmap string V :=
  list_to_map (map (fun item => (item.1, resolve spec a item)) schema).

End WithValue.

(** The keys and declared defaults of a resource's [UsageSchema]. *)
Definition declared (schema : list UsageItem.t) : list (string * Z) :=
  map (fun item => (UsageItem.Key item, UsageItem.DefaultValue item)) schema.

End Usage.

(** ** The cost aggregator

    The aggregator (design section 4.5) is not among the sources; its
    definitions below follow the design. *)

Module Aggregator.

(** The average number of hours in a month: the 730 the comment in
    [dtuPurchaseCostComponents] refers to. *)
Definition hoursInMonth : Z := 730.

(** A cost component with the unit price matched for it, if any. *)
Record Priced : Type := Build
  { component : CostComponent.t; unitPrice : option Z }.

(** Modelled from the spec: the quantity the missing aggregator prices, an
    hourly quantity being normalised to a month. *)
Definition monthlyQuantity (c : CostComponent.t) : option Z :=
  match CostComponent.MonthlyQuantity c with
  | Some q => Some q
  | None =>
      match CostComponent.HourlyQuantity c with
      | Some h => Some (h * hoursInMonth)
      | None => None
      end
  end.

(** Modelled from the spec: the cost the missing aggregator computes for a
    component, quantity x unit price x unit multiplier in fixed-point
    units, and zero for a component that lacks a price or a quantity. *)
Definition cost (p : Priced) : Z :=
  match monthlyQuantity (component p), unitPrice p with
  | Some q, Some price => q * price * CostComponent.UnitMultiplier (component p)
  | _, _ => 0
  end.

(** Modelled from the spec: the result of the missing aggregator for a
    resource, which retains every component, with its cost. *)
Definition costed (ps : list Priced) : list (Priced * Z) :=
  map (fun p => (p, cost p)) ps.

(** Modelled from the spec: the cost of a resource in the missing
    aggregator, the sum of the costs of its components. *)
Definition total (ps : list Priced) : Z :=
  fold_right Z.add 0 (map snd (costed ps)).

End Aggregator.

(** ** The usage-file template

    The code that regenerates the usage file is not among the sources;
    only a golden output of its tests is.  Its definitions below follow
    the design. *)

Module UsageFile.

(** Modelled from the spec: the document the missing regeneration works
    on.  Following the design notes it is a structured tree whose nodes
    keep their comment as metadata beside their data: a key, a scalar
    value if any, a comment if any, whether the entry is commented out,
    and the entries below it. *)
#[warnings="-register-all"]
Inductive Node : Type :=
| MkNode (key : string) (value : option string) (comment : option string)
         (commented_out : bool) (children : list Node).

Definition key (n : Node) : string :=
  match n with MkNode k _ _ _ _ => k end.
Definition value (n : Node) : option string :=
  match n with MkNode _ v _ _ _ => v end.
Definition comment (n : Node) : option string :=
  match n with MkNode _ _ c _ _ => c end.
Definition commented_out (n : Node) : bool :=
  match n with MkNode _ _ _ co _ => co end.
Definition children (n : Node) : list Node :=
  match n with MkNode _ _ _ _ ns => ns end.

Definition find_key (k : string) (ns : list Node) : option Node :=
  List.find (fun n => key n == k) ns.

Definition has_key (k : string) (ns : list Node) : bool :=
  existsb (fun n => key n == k) ns.

(** Modelled from the spec: an entry of the template that the prior file
    lacks is added commented out, with everything below it, by the
    missing regeneration. *)
Fixpoint comment_out (n : Node) : Node :=
  match n with
  | MkNode k v c _ ns => MkNode k v c true (map comment_out ns)
  end.

Section Merge.

(** How a data value is updated from the regenerated one and the prior
    one; the design leaves it to the caller. *)
Variable update : option string -> option string -> option string.

(** Modelled from the spec: the comment-preserving merge of the missing
    regeneration.  [merge t p] is the prior node [p] merged with the
    template node [t] of the same key, if the template has one: the node
    keeps its place and its comment (the comment of the template fills in
    where it has none), its data value is updated, the nodes below it are
    merged in turn, and the entries of the template that it lacks are
    added after them. *)
Fixpoint merge (t : option Node) (p : Node) {struct p} : Node :=
  match p with
  | MkNode k v c co ps =>
      let ts := match t with Some t => children t | None => [] end in
      MkNode k
        (match t with Some t => update (value t) v | None => v end)
        (match c with
         | Some _ => c
         | None => match t with Some t => comment t | None => None end
         end)
        co
        (map (fun q => merge (find_key (key q) ts) q) ps
         ++ map comment_out (List.filter (fun t' => negb (has_key (key t') ps)) ts))
  end.

(** Modelled from the spec: the file the missing regeneration produces,
    the prior document merged with the template generated from the
    usage schemas of the resources. *)
Definition regenerate (template prior : Node) : Node :=
  merge (Some template) prior.

End Merge.

(** The comments of a document, each with the path of keys that leads to
    its node. *)
Fixpoint annotations (n : Node) : list (list string * string) :=
  match n with
  | MkNode k _ c _ ns =>
      (match c with Some text => [([k], text)] | None => [] end)
      ++ map (fun a => (k :: a.1, a.2)) (flat_map annotations ns)
  end.

(** The paths of keys of all the nodes of a document. *)
Fixpoint paths (n : Node) : list (list string) :=
  match n with
  | MkNode k _ _ _ ns => [k] :: map (cons k) (flat_map paths ns)
  end.

End UsageFile.

(** ** Observations on the builders' results *)

Definition has_component (name : string) (cs : list CostComponent.t) : bool :=
  existsb (fun c => CostComponent.Name c == name) cs.

Definition named (name : string) (cs : list CostComponent.t)
  : list CostComponent.t :=
  List.filter (fun c => CostComponent.Name c == name) cs.

Definition monthly_quantities (name : string) (cs : list CostComponent.t)
  : list (option Z) :=
  map CostComponent.MonthlyQuantity (named name cs).

Definition hourly_quantities (name : string) (cs : list CostComponent.t)
  : list (option Z) :=
  map CostComponent.HourlyQuantity (named name cs).

Definition filter_regions (name : string) (cs : list CostComponent.t)
  : list (option string) :=
  map (fun c => p ← CostComponent.ProductFilter c; ProductFilter.Region p)
      (named name cs).

Definition component_names (cs : list CostComponent.t) : list string :=
  map CostComponent.Name cs.

(** The cost components of the resource a computation built, if it built
    one. *)
Definition components_of (m : Go Resource.t) : option (list CostComponent.t) :=
  Resource.CostComponents <$> value m.

Definition built_components (m : Go (option Resource.t))
  : option (list CostComponent.t) :=
  match value m with
  | Some (Some res) => Some (Resource.CostComponents res)
  | _ => None
  end.

(** ** The conditions the properties speak of *)

Definition is_serverless (tier : string) : bool :=
  Strings.ToLower tier == "general purpose - serverless".

Definition is_hyperscale (tier : string) : bool :=
  Strings.ToLower tier == "hyperscale".

Definition licence_included (licenceType : string) : bool :=
  Strings.ToLower licenceType == "licenseincluded".

(** The strings of a database that the builders lower or title-case, its
    SKU, tier and licence type, are of ASCII bytes.  The properties that
    rest on [Strings.ToLower] or [Strings.ToTitle] are stated for such
    databases, on which the two definitions are what Go computes. *)
Definition ascii_strings (r : MSSQL.MSSQLDatabase) : bool :=
  Strings.is_ascii (MSSQL.SKU r) && Strings.is_ascii (MSSQL.Tier r)
  && Strings.is_ascii (MSSQL.LicenceType r).

Definition sql_ascii_strings (s : SQL.SQLDatabase) : bool :=
  Strings.is_ascii (SQL.SKU s) && Strings.is_ascii (SQL.Tier s)
  && Strings.is_ascii (SQL.LicenceType s).

(** The SKUs of the DTU purchase model, as [MSSQLDatabase.BuildResource]
    tells them apart; every other SKU is of the vCore purchase model. *)
Definition dtu_purchase (sku : string) : bool :=
  MSSQL.isDTU (Strings.ToLower sku).

Definition basic_sku (sku : string) : bool :=
  Strings.ToLower sku == "basic".

Definition premium_sku (sku : string) : bool :=
  Strings.HasPrefix (Strings.ToLower sku) "p".

(** The licence region as the specification words it: the last of the tests
    for "usgov", "china" and "germany" that succeeds decides, and
    "Global" is the default. *)
Definition license_region_spec (region : string) : string :=
  if Strings.Contains region "germany" then "Germany"
  else if Strings.Contains region "china" then "China"
  else if Strings.Contains region "usgov" then "US Gov"
  else "Global".

(** The quantity of "Extra data storage" as the specification words it. *)
Definition extra_storage_spec (premium : bool) (maxSizeGB usage : option Z)
  : option Z :=
  match usage with
  | Some n => Some n
  | None =>
      match maxSizeGB with
      | Some m =>
          let difference := m - (if premium then 500 else 250) in
          if difference <? 0 then None else Some difference
      | None => None
      end
  end.

(** An SKU of the form tier_family_cores, as the specification words it. *)
Definition sku_well_formed (sku : string) : Prop :=
  exists tierKey familyKey coreCount : string,
    sku = tierKey +:+ "_" +:+ familyKey +:+ "_" +:+ coreCount /\
    tierKey ∈ ["GP"; "GP_S"; "HS"; "BC"] /\
    familyKey ∈ ["Gen5"; "Gen4"; "M"] /\
    is_Some (Strconv.ParseInt coreCount).

(** [free_of sep s]: the byte [sep] does not occur in [s]. *)
Fixpoint free_of (sep : ascii) (s : string) : bool :=
  match s with
  | EmptyString => true
  | String c s' => negb (Ascii.eqb c sep) && free_of sep s'
  end.

(** The SKU the provider reads off a node. *)
Definition sku_of (d : ResourceData.t) : string :=
  if negb (Gjson.is_null (Gjson.Type_ (ResourceData.Get d "sku_name")))
  then Gjson.String (ResourceData.Get d "sku_name") else "".

(** The licence type the provider gives a node: the attribute
    [license_type] when it exists, "LicenseIncluded" otherwise. *)
Definition licence_of (d : ResourceData.t) : string :=
  if Gjson.Exists (ResourceData.Get d "license_type")
  then Gjson.String (ResourceData.Get d "license_type")
  else "LicenseIncluded".

(** The struct [NewAzureRMMSSQLDatabase] fills from the attributes of a
    node, with the configuration parsed from its SKU when it has one. *)
Definition resource_of (region : string) (d : ResourceData.t)
    (c : option Terraform.skuConfig) : MSSQL.MSSQLDatabase :=
  {| MSSQL.Address := ResourceData.Address d;
     MSSQL.Region := region;
     MSSQL.SKU := sku_of d;
     MSSQL.LicenceType := licence_of d;
     MSSQL.Tier := from_option Terraform.tier "" c;
     MSSQL.Family := from_option Terraform.family "" c;
     MSSQL.Cores := from_option Terraform.cores 0 c;
     MSSQL.MaxSizeGB :=
       if negb (Gjson.is_null (Gjson.Type_ (ResourceData.Get d "max_size_gb")))
       then Some (Gjson.Int (ResourceData.Get d "max_size_gb")) else None;
     MSSQL.ReadReplicaCount :=
       if Gjson.Exists (ResourceData.Get d "read_replica_count")
       then Some (Gjson.Int (ResourceData.Get d "read_replica_count")) else None;
     MSSQL.ZoneRedundant := Gjson.Bool (ResourceData.Get d "zone_redundant");
     MSSQL.ExtraDataStorageGB := None;
     MSSQL.MonthlyVCoreHours := None;
     MSSQL.LongTermRetentionStorageGB := None |}.

(** The names of the cost components of an [MSSQLDatabase], as they
    follow from its SKU, tier and licence type alone. *)
Definition mssql_component_names (sku tier licenceType : string) : list string :=
  if dtu_purchase sku then
    ["Compute (" +:+ Strings.ToTitle sku +:+ ")"]
    ++ (if basic_sku sku then [] else ["Extra data storage"])
    ++ ["Long-term retention"]
  else if is_serverless tier then
    ["Compute (serverless, " +:+ sku +:+ ")"; "Storage"; "Long-term retention"]
  else
    ["Compute (provisioned, " +:+ sku +:+ ")"]
    ++ (if is_hyperscale tier then ["Read replicas"] else [])
    ++ (if licence_included licenceType then ["SQL license"] else [])
    ++ ["Storage"]
    ++ (if is_hyperscale tier then [] else ["Long-term retention"]).

(** The entry [aws_s3_bucket.with_usage] of the golden usage file, as a
    prior file that holds a hand-written comment, and a template for the
    same resource. *)
Module GoldenFile.

Definition prior : UsageFile.Node :=
  UsageFile.MkNode "resource_usage" None None false
    [ UsageFile.MkNode "aws_s3_bucket.with_usage" None None false
        [ UsageFile.MkNode "object_tags" (Some "10000000")
            (Some "This comment shouldn't be overwritten") false [] ] ].

Definition template : UsageFile.Node :=
  UsageFile.MkNode "resource_usage" None None false
    [ UsageFile.MkNode "aws_s3_bucket.with_usage" None None false
        [ UsageFile.MkNode "object_tags" (Some "0") (Some "Total object tags.")
            false [];
          UsageFile.MkNode "standard" None None false
            [ UsageFile.MkNode "storage_gb" (Some "0.0")
                (Some "Total storage in GB.") false [] ] ] ].

(** The value the operator wrote is kept; a default fills a gap. *)
Definition keep_prior (regenerated prior : option string) : option string :=
  match prior with
  | Some _ => prior
  | None => regenerated
  end.

End GoldenFile.

(** ** The registry entry of the resource type *)

Module RegistryItem.
Record t : Type := Build
  { Name : string;
    RFunc : ResourceData.t -> UsageData -> Go (option Resource.t);
    ReferenceAttributes : list string }.
End RegistryItem.

Definition GetAzureRMMSSQLDatabaseRegistryItem (vendorName : string)
    (lookupRegion : ResourceData.t -> list string -> string) : RegistryItem.t :=
  {| RegistryItem.Name := "azurerm_mssql_database";
     RegistryItem.RFunc :=
       Terraform.NewAzureRMMSSQLDatabase vendorName lookupRegion;
     RegistryItem.ReferenceAttributes := ["server_id"] |}.

(** ** Further observations on the two resource types *)

(** The [MSSQLDatabase] that holds the fields of an [SQLDatabase].  A nil
    core count reads as 0, the value [NewAzureRMMSSQLDatabase] leaves in
    [Cores] for an SKU it does not parse. *)
Definition to_mssql (s : SQL.SQLDatabase) : MSSQL.MSSQLDatabase :=
  {| MSSQL.Address := SQL.Address s;
     MSSQL.Region := SQL.Region s;
     MSSQL.SKU := SQL.SKU s;
     MSSQL.LicenceType := SQL.LicenceType s;
     MSSQL.Tier := SQL.Tier s;
     MSSQL.Family := SQL.Family s;
     MSSQL.Cores := default 0 (SQL.Cores s);
     MSSQL.MaxSizeGB := SQL.MaxSizeGB s;
     MSSQL.ReadReplicaCount := SQL.ReadReplicaCount s;
     MSSQL.ZoneRedundant := SQL.ZoneRedundant s;
     MSSQL.ExtraDataStorageGB := SQL.ExtraDataStorageGB s;
     MSSQL.MonthlyVCoreHours := SQL.MonthlyVCoreHours s;
     MSSQL.LongTermRetentionStorageGB := SQL.LongTermRetentionStorageGB s |}.

(** The database with its three usage fields nil. *)
Definition without_usage (r : MSSQL.MSSQLDatabase) : MSSQL.MSSQLDatabase :=
  {| MSSQL.Address := MSSQL.Address r;
     MSSQL.Region := MSSQL.Region r;
     MSSQL.SKU := MSSQL.SKU r;
     MSSQL.LicenceType := MSSQL.LicenceType r;
     MSSQL.Tier := MSSQL.Tier r;
     MSSQL.Family := MSSQL.Family r;
     MSSQL.Cores := MSSQL.Cores r;
     MSSQL.MaxSizeGB := MSSQL.MaxSizeGB r;
     MSSQL.ReadReplicaCount := MSSQL.ReadReplicaCount r;
     MSSQL.ZoneRedundant := MSSQL.ZoneRedundant r;
     MSSQL.ExtraDataStorageGB := None;
     MSSQL.MonthlyVCoreHours := None;
     MSSQL.LongTermRetentionStorageGB := None |}.

(** A cost component with its monthly quantity left out. *)
Definition without_monthly_quantity (c : CostComponent.t) : CostComponent.t :=
  {| CostComponent.Name := CostComponent.Name c;
     CostComponent.Unit := CostComponent.Unit c;
     CostComponent.UnitMultiplier := CostComponent.UnitMultiplier c;
     CostComponent.HourlyQuantity := CostComponent.HourlyQuantity c;
     CostComponent.MonthlyQuantity := None;
     CostComponent.ProductFilter := CostComponent.ProductFilter c;
     CostComponent.PriceFilter := CostComponent.PriceFilter c |}.

(** The range of Go's [int64]. *)
Definition int64 (n : Z) : Prop := - 2 ^ 63 <= n < 2 ^ 63.

(** The product filter of a component, read field by field. *)
Definition filter_field (f : ProductFilter.t -> option string)
    (c : CostComponent.t) : option string :=
  p ← CostComponent.ProductFilter c; f p.

Definition attribute_filters (c : CostComponent.t) : list AttributeFilter.t :=
  from_option ProductFilter.AttributeFilters [] (CostComponent.ProductFilter c).

(** * Properties *)

(** ** Strings, maps and slices *)

Lemma eqb_serverless_not_hyperscale (s : string) :
  (s == "general purpose - serverless") = true -> (s == "hyperscale") = false.
Proof. intros H. apply String.eqb_eq in H. subst s. reflexivity. Qed.

Lemma serverless_not_hyperscale (tier : string) :
  is_serverless tier = true -> is_hyperscale tier = false.
Proof. apply eqb_serverless_not_hyperscale. Qed.

Lemma map_index_tier (k : string) :
  map_index (<["p" := "Premium"]> (<["s" := "Standard"]> ∅)) k =
  if k == "p" then "Premium" else if k == "s" then "Standard" else "".
Proof.
  unfold map_index.
  destruct (String.eqb_spec k "p") as [->|Hp]; [reflexivity|].
  rewrite lookup_insert_ne by congruence.
  destruct (String.eqb_spec k "s") as [->|Hs]; [reflexivity|].
  rewrite lookup_insert_ne by congruence. reflexivity.
Qed.

Lemma slice_to_1 (s : string) :
  slice_to s 1 =
  match s with
  | EmptyString => panic
  | String c _ => ret (String c EmptyString)
  end.
Proof. destruct s as [|c [|c' s']]; reflexivity. Qed.

Lemma HasPrefix_1 (s : string) (c : ascii) :
  Strings.HasPrefix s (String c EmptyString) =
  match s with
  | EmptyString => false
  | String c' _ => Ascii.eqb c' c
  end.
Proof. destruct s; simpl; [reflexivity|]. apply andb_true_r. Qed.

(** The tier name the DTU path derives from the first byte of a lowered
    SKU is "Premium" exactly for the SKUs that start with "p". *)
Lemma premium_by_initial (c : ascii) (s : string) :
  (Strings.ToLower
     (map_index (<["p" := "Premium"]> (<["s" := "Standard"]> ∅))
                (String c EmptyString)) == "premium")
  = Strings.HasPrefix (String c s) "p".
Proof.
  rewrite map_index_tier, HasPrefix_1.
  destruct (Ascii.eqb_spec c "p") as [->|Hc]; [reflexivity|].
  destruct (String.eqb_spec (String c "") "p") as [E|_]; [congruence|].
  destruct (String c "" == "s"); reflexivity.
Qed.

(** ** [MSSQLDatabase]: the cost components by purchase model *)

Section MSSQLProperties.

Variable vendorName : string.

(** The components of the vCore purchase model, spelled out. *)
Lemma MSSQL_vCore_components (r : MSSQL.MSSQLDatabase) :
  exists l p,
    MSSQL.provisionedComputeCostComponent vendorName r = (l, Some p) /\
    CostComponent.Name p = "Compute (provisioned, " +:+ MSSQL.SKU r +:+ ")" /\
    MSSQL.vCorePurchaseCostComponents vendorName r =
      if is_serverless (MSSQL.Tier r)
      then ([], Some [ MSSQL.serverlessComputeHoursCostComponent vendorName r;
                       MSSQL.mssqlStorageComponent vendorName r;
                       MSSQL.longTermRetentionMSSQLCostComponent vendorName r ])
      else (l, Some
             ([p]
              ++ (if is_hyperscale (MSSQL.Tier r)
                  then [MSSQL.readReplicaCostComponent vendorName r] else [])
              ++ (if licence_included (MSSQL.LicenceType r)
                  then [MSSQL.sqlLicenseCostComponent vendorName r] else [])
              ++ [MSSQL.mssqlStorageComponent vendorName r]
              ++ (if is_hyperscale (MSSQL.Tier r) then []
                  else [MSSQL.longTermRetentionMSSQLCostComponent vendorName r]))).
Proof.
  eexists _, _. split; [reflexivity|]. split; [reflexivity|].
  unfold MSSQL.vCorePurchaseCostComponents, is_serverless, is_hyperscale,
    licence_included, MSSQL.sqlServerlessTier, MSSQL.sqlHyperscaleTier.
  destruct (Strings.ToLower (MSSQL.Tier r) == _) eqn:Hs.
  - rewrite (eqb_serverless_not_hyperscale _ Hs). reflexivity.
  - destruct (Strings.ToLower (MSSQL.Tier r) == "hyperscale");
      destruct (Strings.ToLower (MSSQL.LicenceType r) == "licenseincluded");
      reflexivity.
Qed.

(** A vCore SKU makes [BuildResource] return the vCore components. *)
Lemma MSSQL_BuildResource_vCore (r : MSSQL.MSSQLDatabase) :
  dtu_purchase (MSSQL.SKU r) = false ->
  exists l cs res,
    MSSQL.vCorePurchaseCostComponents vendorName r = (l, Some cs) /\
    MSSQL.BuildResource vendorName r = (l, Some res) /\
    Resource.CostComponents res = cs /\
    Resource.Name res = MSSQL.Address r.
Proof.
  unfold dtu_purchase. intros Hv.
  destruct (MSSQL_vCore_components r) as (l & p & _ & _ & Hc).
  unfold MSSQL.BuildResource. rewrite Hv, Hc.
  destruct (is_serverless (MSSQL.Tier r)); cbn; rewrite ?app_nil_r; eauto 10.
Qed.

(** The components of the DTU purchase model, spelled out.  The SKUs that
    reach this path through [BuildResource] are not empty, so the slice
    [skuName[:1]] is in range. *)
Lemma MSSQL_dtu_components (r : MSSQL.MSSQLDatabase) :
  dtu_purchase (MSSQL.SKU r) = true ->
  exists compute,
    CostComponent.Name compute
      = "Compute (" +:+ Strings.ToTitle (MSSQL.SKU r) +:+ ")" /\
    if basic_sku (MSSQL.SKU r)
    then MSSQL.dtuPurchaseCostComponents vendorName r =
           ([], Some [ compute;
                       MSSQL.longTermRetentionMSSQLCostComponent vendorName r ])
    else exists extra,
      CostComponent.Name extra = "Extra data storage" /\
      CostComponent.MonthlyQuantity extra
        = extra_storage_spec (premium_sku (MSSQL.SKU r))
            (MSSQL.MaxSizeGB r) (MSSQL.ExtraDataStorageGB r) /\
      MSSQL.dtuPurchaseCostComponents vendorName r =
        ([], Some [ compute; extra;
                    MSSQL.longTermRetentionMSSQLCostComponent vendorName r ]).
Proof.
  unfold dtu_purchase, MSSQL.isDTU, basic_sku, premium_sku.
  unfold MSSQL.dtuPurchaseCostComponents.
  set (sku := Strings.ToLower (MSSQL.SKU r)).
  intros Hd.
  destruct (sku == "basic") eqn:Hb.
  - eexists. split; [|reflexivity]. reflexivity.
  - assert (Hb' : (sku == "b") = false).
    { destruct (String.eqb_spec sku "b") as [E|]; [|reflexivity].
      rewrite E in Hd. discriminate Hd. }
    rewrite Hb'. cbn [negb].
    rewrite slice_to_1.
    destruct sku as [|c sku'] eqn:Hsku; [discriminate Hd|].
    eexists. split; [|eexists; split; [|split; [|reflexivity]]];
      [reflexivity|reflexivity|].
    cbn [CostComponent.MonthlyQuantity].
    unfold MSSQL.extraStorageGB, extra_storage_spec.
    rewrite (premium_by_initial c sku').
    destruct (MSSQL.ExtraDataStorageGB r); [reflexivity|].
    destruct (MSSQL.MaxSizeGB r); [|reflexivity].
    destruct (Strings.HasPrefix (String c sku') "p"); reflexivity.
Qed.

(** [BuildResource] never panics, and names the resource by its address. *)
Lemma MSSQL_BuildResource_total (r : MSSQL.MSSQLDatabase) :
  exists l res,
    MSSQL.BuildResource vendorName r = (l, Some res) /\
    Resource.Name res = MSSQL.Address r.
Proof.
  destruct (dtu_purchase (MSSQL.SKU r)) eqn:Hd.
  - destruct (MSSQL_dtu_components r Hd) as (compute & _ & H).
    unfold MSSQL.BuildResource. unfold dtu_purchase in Hd. rewrite Hd.
    destruct (basic_sku (MSSQL.SKU r)).
    + rewrite H. cbn. eauto.
    + destruct H as (extra & _ & _ & H). rewrite H. cbn. eauto.
  - destruct (MSSQL_BuildResource_vCore r Hd) as (l & cs & res & _ & H & _ & Hn).
    eauto.
Qed.

End MSSQLProperties.

(** ** [SQLDatabase]: the cost components by purchase model *)

Section SQLProperties.

Variable vendorName : string.
Variable priceFilterConsumption : option PriceFilter.t.

(** The components of the vCore purchase model, which [costComponents]
    selects when the core count is set. *)
Lemma SQL_vCore_components (r : SQL.SQLDatabase) (cores : Z) :
  SQL.Cores r = Some cores ->
  exists l p replicas license,
    SQL.provisionedComputeCostComponent vendorName priceFilterConsumption r
      = (l, Some p) /\
    CostComponent.Name p = "Compute (provisioned, " +:+ SQL.SKU r +:+ ")" /\
    SQL.readReplicaCostComponent vendorName priceFilterConsumption r
      = ([], Some replicas) /\
    CostComponent.Name replicas = "Read replicas" /\
    CostComponent.HourlyQuantity replicas = SQL.ReadReplicaCount r /\
    SQL.sqlLicenseCostComponent vendorName priceFilterConsumption r
      = ([], Some license) /\
    CostComponent.Name license = "SQL license" /\
    (p ← CostComponent.ProductFilter license; ProductFilter.Region p)
      = Some (SQL.licenseRegion (SQL.Region r)) /\
    SQL.costComponents vendorName priceFilterConsumption r =
      if is_serverless (SQL.Tier r)
      then ([], Some
             [ SQL.serverlessComputeHoursCostComponent
                 vendorName priceFilterConsumption r;
               SQL.mssqlStorageComponent vendorName r;
               SQL.longTermRetentionMSSQLCostComponent
                 vendorName priceFilterConsumption r ])
      else (l, Some
             ([p]
              ++ (if is_hyperscale (SQL.Tier r) then [replicas] else [])
              ++ (if licence_included (SQL.LicenceType r) then [license] else [])
              ++ [SQL.mssqlStorageComponent vendorName r]
              ++ (if is_hyperscale (SQL.Tier r) then []
                  else [SQL.longTermRetentionMSSQLCostComponent
                          vendorName priceFilterConsumption r]))).
Proof.
  intros Hc.
  unfold SQL.costComponents, SQL.vCorePurchaseCostComponents,
    SQL.provisionedComputeCostComponent, SQL.readReplicaCostComponent,
    SQL.sqlLicenseCostComponent, is_serverless, is_hyperscale,
    licence_included, SQL.sqlServerlessTier, SQL.sqlHyperscaleTier.
  rewrite Hc. cbn [deref bind ret].
  eexists _, _, _, _.
  split; [reflexivity|]. split; [reflexivity|].
  split; [reflexivity|]. split; [reflexivity|].
  split; [destruct (SQL.ReadReplicaCount r); reflexivity|].
  split; [reflexivity|]. split; [reflexivity|]. split; [reflexivity|].
  destruct (Strings.ToLower (SQL.Tier r) == _) eqn:Hs.
  - rewrite (eqb_serverless_not_hyperscale _ Hs). reflexivity.
  - destruct (Strings.ToLower (SQL.Tier r) == "hyperscale");
      destruct (Strings.ToLower (SQL.LicenceType r) == "licenseincluded");
      reflexivity.
Qed.

(** The components of the DTU purchase model, which [costComponents]
    selects when the core count is nil.  An empty SKU makes the slice
    [strings.ToLower(r.SKU)[:1]] panic. *)
Lemma SQL_dtu_components (r : SQL.SQLDatabase) :
  SQL.Cores r = None ->
  SQL.SKU r <> "" ->
  exists compute,
    CostComponent.Name compute
      = "Compute (" +:+ Strings.ToTitle (SQL.SKU r) +:+ ")" /\
    if basic_sku (SQL.SKU r) || (Strings.ToLower (SQL.SKU r) == "b")
    then SQL.costComponents vendorName priceFilterConsumption r =
           ([], Some [ compute;
                       SQL.longTermRetentionMSSQLCostComponent
                         vendorName priceFilterConsumption r ])
    else exists extra,
      CostComponent.Name extra = "Extra data storage" /\
      CostComponent.MonthlyQuantity extra
        = extra_storage_spec (premium_sku (SQL.SKU r))
            (SQL.MaxSizeGB r) (SQL.ExtraDataStorageGB r) /\
      SQL.costComponents vendorName priceFilterConsumption r =
        ([], Some [ compute; extra;
                    SQL.longTermRetentionMSSQLCostComponent
                      vendorName priceFilterConsumption r ]).
Proof.
  intros Hc Hsku.
  unfold SQL.costComponents, SQL.dtuPurchaseCostComponents,
    SQL.extraDataStorageCostComponent, basic_sku, premium_sku.
  rewrite Hc.
  set (sku := Strings.ToLower (SQL.SKU r)).
  assert (Hne : sku <> "").
  { subst sku. destruct (SQL.SKU r); [congruence|discriminate]. }
  destruct (sku == "basic") eqn:Hb.
  - eexists. split; [|reflexivity]. reflexivity.
  - cbn [orb]. destruct (sku == "b") eqn:Hb'.
    + eexists. split; [|reflexivity]. reflexivity.
    + cbn [negb]. rewrite slice_to_1.
      destruct sku as [|c sku'] eqn:E; [congruence|].
      eexists. split; [|eexists; split; [|split; [|reflexivity]]];
        [reflexivity|reflexivity|].
      cbn [CostComponent.MonthlyQuantity].
      unfold extra_storage_spec, SQL.tierMapping.
      rewrite (premium_by_initial c sku').
      destruct (SQL.ExtraDataStorageGB r); [reflexivity|].
      destruct (SQL.MaxSizeGB r); [|reflexivity].
      destruct (Strings.HasPrefix (String c sku') "p"); reflexivity.
Qed.

(** The slice does panic on an empty SKU without a core count. *)
Lemma SQL_dtu_empty_sku_panics (r : SQL.SQLDatabase) :
  SQL.Cores r = None ->
  SQL.SKU r = "" ->
  value (SQL.BuildResource vendorName priceFilterConsumption r) = None.
Proof.
  intros Hc Hsku. unfold SQL.BuildResource, SQL.costComponents,
    SQL.dtuPurchaseCostComponents, SQL.extraDataStorageCostComponent.
  rewrite Hc, Hsku. reflexivity.
Qed.

End SQLProperties.

(** ** Usage population keeps what the attributes gave *)

Lemma PopulateUsage_frame (r : MSSQL.MSSQLDatabase) (u : UsageData) :
  MSSQL.SKU (MSSQL.PopulateUsage r u) = MSSQL.SKU r /\
  MSSQL.Tier (MSSQL.PopulateUsage r u) = MSSQL.Tier r /\
  MSSQL.LicenceType (MSSQL.PopulateUsage r u) = MSSQL.LicenceType r /\
  MSSQL.Region (MSSQL.PopulateUsage r u) = MSSQL.Region r /\
  MSSQL.MaxSizeGB (MSSQL.PopulateUsage r u) = MSSQL.MaxSizeGB r /\
  MSSQL.ReadReplicaCount (MSSQL.PopulateUsage r u) = MSSQL.ReadReplicaCount r.
Proof. repeat split. Qed.

Lemma PopulateUsage_fields (r : MSSQL.MSSQLDatabase) (u : UsageData) :
  MSSQL.ExtraDataStorageGB (MSSQL.PopulateUsage r u)
    = from_option Some (MSSQL.ExtraDataStorageGB r) (u !! "extra_data_storage_gb") /\
  MSSQL.MonthlyVCoreHours (MSSQL.PopulateUsage r u)
    = from_option Some (MSSQL.MonthlyVCoreHours r) (u !! "monthly_vcore_hours") /\
  MSSQL.LongTermRetentionStorageGB (MSSQL.PopulateUsage r u)
    = from_option Some (MSSQL.LongTermRetentionStorageGB r)
        (u !! "long_term_retention_storage_gb").
Proof. repeat split. Qed.

(** ** Read replicas and long-term retention by tier *)

(** C8. For every vCore-purchase database, of either resource type and
    whatever the values of its usage fields, the "Read replicas" component
    is present exactly when the tier is Hyperscale (compared in lower
    case) and the "Long-term retention" component exactly when it is not;
    so a Hyperscale database has no long-term retention component even
    when [long_term_retention_storage_gb] is supplied.  Stated for
    databases whose SKU, tier and licence type are of ASCII bytes. *)
Theorem vcore_replicas_and_retention_by_tier
    (vendorName : string) (priceFilterConsumption : option PriceFilter.t)
    (r : MSSQL.MSSQLDatabase) (s : SQL.SQLDatabase) (cores : Z) :
  (ascii_strings r = true ->
   dtu_purchase (MSSQL.SKU r) = false ->
   exists cs,
      components_of (MSSQL.BuildResource vendorName r) = Some cs /\
      has_component "Read replicas" cs = is_hyperscale (MSSQL.Tier r) /\
      has_component "Long-term retention" cs
        = negb (is_hyperscale (MSSQL.Tier r))) /\
  (sql_ascii_strings s = true ->
   SQL.Cores s = Some cores ->
   exists cs,
      components_of (SQL.BuildResource vendorName priceFilterConsumption s)
        = Some cs /\
      has_component "Read replicas" cs = is_hyperscale (SQL.Tier s) /\
      has_component "Long-term retention" cs
        = negb (is_hyperscale (SQL.Tier s))).
Proof.
  split; [intros _ Hv|intros _ Hc].
  - destruct (MSSQL_BuildResource_vCore vendorName r Hv)
      as (l & cs & res & Hcs & Hres & <- & _).
    destruct (MSSQL_vCore_components vendorName r)
      as (l' & p & _ & Hname & Heq).
    exists (Resource.CostComponents res).
    unfold components_of. rewrite Hres. split; [reflexivity|].
    rewrite Heq in Hcs.
    destruct (is_serverless (MSSQL.Tier r)) eqn:Hs.
    + rewrite (serverless_not_hyperscale _ Hs).
      injection Hcs as _ <-. split; reflexivity.
    + injection Hcs as _ <-. unfold has_component. cbn [app existsb].
      rewrite Hname.
      destruct (is_hyperscale (MSSQL.Tier r));
        destruct (licence_included _); split; reflexivity.
  - destruct (SQL_vCore_components vendorName priceFilterConsumption s cores Hc)
      as (l & p & replicas & license & _ & Hname & _ & Hr & _ & _ & Hl & _ & Heq).
    unfold components_of, SQL.BuildResource. rewrite Heq.
    destruct (is_serverless (SQL.Tier s)) eqn:Hs.
    + rewrite (serverless_not_hyperscale _ Hs).
      eexists. split; [reflexivity|]. split; reflexivity.
    + eexists. split; [reflexivity|].
      cbn [Resource.CostComponents]. unfold has_component. cbn [app existsb].
      rewrite Hname.
      destruct (is_hyperscale (SQL.Tier s));
        destruct (licence_included _); cbn [app existsb];
        rewrite ?Hr, ?Hl; split; reflexivity.
Qed.

(** ** The licence region *)

Lemma MSSQL_licenseRegion_spec (region : string) :
  MSSQL.licenseRegion region = license_region_spec region.
Proof.
  unfold MSSQL.licenseRegion, license_region_spec.
  destruct (Strings.Contains region "germany"),
    (Strings.Contains region "china"),
    (Strings.Contains region "usgov"); reflexivity.
Qed.

Lemma SQL_licenseRegion_spec (region : string) :
  SQL.licenseRegion region = license_region_spec region.
Proof.
  unfold SQL.licenseRegion, license_region_spec.
  destruct (Strings.Contains region "germany"),
    (Strings.Contains region "china"),
    (Strings.Contains region "usgov"); reflexivity.
Qed.

Lemma license_region_spec_values (region : string) :
  license_region_spec region ∈ ["US Gov"; "China"; "Germany"; "Global"].
Proof.
  unfold license_region_spec.
  destruct (Strings.Contains region "germany"),
    (Strings.Contains region "china"),
    (Strings.Contains region "usgov"); set_solver.
Qed.

(** The licence region coincides with the resource's region only for a
    resource whose region is literally "Global". *)
Lemma license_region_spec_own (region : string) :
  license_region_spec region = region <-> region = "Global".
Proof.
  split.
  - unfold license_region_spec.
    destruct (Strings.Contains region "germany") eqn:G.
    { intros <-. discriminate G. }
    destruct (Strings.Contains region "china") eqn:C.
    { intros <-. discriminate C. }
    destruct (Strings.Contains region "usgov") eqn:U.
    { intros <-. discriminate U. }
    congruence.
  - intros ->. reflexivity.
Qed.

(** The names of the DTU components are not the licence's. *)
Lemma dtu_compute_name_not_license (sku : string) :
  ("Compute (" +:+ sku +:+ ")" == "SQL license") = false.
Proof. reflexivity. Qed.

(** C9. Every "SQL license" component a database emits, of either
    resource type, carries as product-filter region not the region of the
    resource but the licence region: "Germany" if the resource region
    contains "germany", else "China" if it contains "china", else "US Gov"
    if it contains "usgov", else "Global" (the three tests run in the order
    usgov, china, germany and a later match overrides an earlier one). *)
Theorem license_component_region
    (vendorName : string) (priceFilterConsumption : option PriceFilter.t)
    (r : MSSQL.MSSQLDatabase) (s : SQL.SQLDatabase) :
  (forall cs c,
      components_of (MSSQL.BuildResource vendorName r) = Some cs ->
      c ∈ cs -> CostComponent.Name c = "SQL license" ->
      (p ← CostComponent.ProductFilter c; ProductFilter.Region p)
        = Some (MSSQL.licenseRegion (MSSQL.Region r))) /\
  (forall cs c,
      components_of (SQL.BuildResource vendorName priceFilterConsumption s)
        = Some cs ->
      c ∈ cs -> CostComponent.Name c = "SQL license" ->
      (p ← CostComponent.ProductFilter c; ProductFilter.Region p)
        = Some (SQL.licenseRegion (SQL.Region s))) /\
  MSSQL.licenseRegion (MSSQL.Region r) = license_region_spec (MSSQL.Region r) /\
  SQL.licenseRegion (SQL.Region s) = license_region_spec (SQL.Region s) /\
  license_region_spec (MSSQL.Region r) ∈ ["US Gov"; "China"; "Germany"; "Global"] /\
  license_region_spec (SQL.Region s) ∈ ["US Gov"; "China"; "Germany"; "Global"].
Proof.
  split; [intros cs c Hcs Hin Hname|
          split; [intros cs' c' Hcs' Hin' Hname'|
          split; [apply MSSQL_licenseRegion_spec|
          split; [apply SQL_licenseRegion_spec|
          split; apply license_region_spec_values]]]].
  - unfold components_of in Hcs.
    destruct (dtu_purchase (MSSQL.SKU r)) eqn:Hd.
    + destruct (MSSQL_dtu_components vendorName r Hd) as (compute & Hn & H).
      unfold MSSQL.BuildResource in Hcs. unfold dtu_purchase in Hd.
      rewrite Hd in Hcs.
      destruct (basic_sku (MSSQL.SKU r)).
      * rewrite H in Hcs. injection Hcs as <-.
        cbn in Hin. set_unfold in Hin.
        destruct Hin as [->|[->|[]]]; [|discriminate Hname].
        rewrite Hn in Hname. discriminate Hname.
      * destruct H as (extra & Hne & _ & H). rewrite H in Hcs.
        injection Hcs as <-. cbn in Hin. set_unfold in Hin.
        destruct Hin as [->|[->|[->|[]]]]; [| |discriminate Hname].
        -- rewrite Hn in Hname. discriminate Hname.
        -- rewrite Hne in Hname. discriminate Hname.
    + destruct (MSSQL_BuildResource_vCore vendorName r Hd)
        as (l & cs0 & res & Hv & Hres & <- & _).
      rewrite Hres in Hcs. injection Hcs as <-.
      destruct (MSSQL_vCore_components vendorName r)
        as (l' & p & _ & Hn & Heq).
      rewrite Heq in Hv.
      destruct (is_serverless (MSSQL.Tier r)).
      * injection Hv as _ Hv. rewrite <- Hv in Hin. set_unfold in Hin.
        destruct Hin as [->|[->|[->|[]]]]; discriminate Hname.
      * injection Hv as _ Hv. rewrite <- Hv in Hin.
        destruct (is_hyperscale (MSSQL.Tier r));
          destruct (licence_included (MSSQL.LicenceType r));
          cbn in Hin; set_unfold in Hin;
          repeat match goal with
                 | H : _ \/ _ |- _ => destruct H as [->|H]
                 | H : False |- _ => destruct H
                 end;
          try discriminate Hname; try reflexivity;
          rewrite Hn in Hname; discriminate Hname.
  - unfold components_of, SQL.BuildResource in Hcs'.
    destruct (SQL.Cores s) as [cores|] eqn:Hc.
    + destruct (SQL_vCore_components vendorName priceFilterConsumption s cores Hc)
        as (l & p & replicas & license & _ & Hn & _ & Hr & _ & _ & Hl & Hreg & Heq).
      rewrite Heq in Hcs'.
      destruct (is_serverless (SQL.Tier s)).
      * injection Hcs' as <-. cbn in Hin'. set_unfold in Hin'.
        destruct Hin' as [->|[->|[->|[]]]]; discriminate Hname'.
      * injection Hcs' as <-.
        destruct (is_hyperscale (SQL.Tier s));
          destruct (licence_included (SQL.LicenceType s));
          cbn in Hin'; set_unfold in Hin';
          repeat match goal with
                 | H : _ \/ _ |- _ => destruct H as [->|H]
                 | H : False |- _ => destruct H
                 end;
          try discriminate Hname'; try exact Hreg;
          try (rewrite Hn in Hname'; discriminate Hname');
          try (rewrite Hr in Hname'; discriminate Hname').
    + destruct (String.eqb_spec (SQL.SKU s) "") as [He|Hne].
      { pose proof (SQL_dtu_empty_sku_panics vendorName priceFilterConsumption
                      s Hc He) as Hp.
        unfold SQL.BuildResource, value in Hp.
        destruct (SQL.costComponents _ _ s) as [l [x|]]; cbn in *; congruence. }
      destruct (SQL_dtu_components vendorName priceFilterConsumption s Hc Hne)
        as (compute & Hn & H).
      destruct (basic_sku (SQL.SKU s) || _).
      * rewrite H in Hcs'. injection Hcs' as <-.
        cbn in Hin'. set_unfold in Hin'.
        destruct Hin' as [->|[->|[]]]; [|discriminate Hname'].
        rewrite Hn in Hname'. discriminate Hname'.
      * destruct H as (extra & Hne' & _ & H). rewrite H in Hcs'.
        injection Hcs' as <-. cbn in Hin'. set_unfold in Hin'.
        destruct Hin' as [->|[->|[->|[]]]]; [| |discriminate Hname'].
        -- rewrite Hn in Hname'. discriminate Hname'.
        -- rewrite Hne' in Hname'. discriminate Hname'.
Qed.

(** ** [strings.Split], [strings.Join] and [strconv.ParseInt] *)

Lemma append_cons (c : ascii) (s t : string) :
  String c s +:+ t = String c (s +:+ t).
Proof. reflexivity. Qed.

Lemma append_assoc (a b c : string) : (a +:+ b) +:+ c = a +:+ (b +:+ c).
Proof.
  induction a as [|x a IH]; [reflexivity|].
  rewrite !append_cons, IH. reflexivity.
Qed.

Lemma Split_nonempty (s : string) (sep : ascii) : Strings.Split s sep <> [].
Proof.
  destruct s as [|c s]; simpl; [discriminate|].
  destruct (Ascii.eqb c sep); [discriminate|].
  destruct (Strings.Split s sep); discriminate.
Qed.

Lemma Join_cons (w : string) (ws : list string) (sep : string) :
  ws <> [] -> Strings.Join (w :: ws) sep = w +:+ sep +:+ Strings.Join ws sep.
Proof. destruct ws; [congruence|reflexivity]. Qed.

(** Joining what was split gives the string back. *)
Lemma Join_Split (s : string) (sep : ascii) :
  Strings.Join (Strings.Split s sep) (String sep EmptyString) = s.
Proof.
  induction s as [|c s IH]; [reflexivity|].
  cbn [Strings.Split].
  destruct (Ascii.eqb_spec c sep) as [->|Hc].
  - rewrite Join_cons by apply Split_nonempty. rewrite IH. reflexivity.
  - pose proof (Split_nonempty s sep) as Hne.
    destruct (Strings.Split s sep) as [|w ws]; [congruence|].
    destruct ws as [|w' ws].
    + cbn in IH |- *. congruence.
    + rewrite Join_cons by discriminate.
      rewrite Join_cons in IH by discriminate.
      rewrite append_cons, IH. reflexivity.
Qed.

Lemma Join_app (l1 l2 : list string) (sep : string) :
  l1 <> [] -> l2 <> [] ->
  Strings.Join (l1 ++ l2) sep
  = Strings.Join l1 sep +:+ sep +:+ Strings.Join l2 sep.
Proof.
  intros H1 H2. induction l1 as [|w l1 IH]; [congruence|].
  destruct l1 as [|w' l1].
  - cbn [app]. rewrite Join_cons by assumption. reflexivity.
  - change ((w :: w' :: l1) ++ l2) with (w :: ((w' :: l1) ++ l2)).
    rewrite Join_cons by discriminate.
    rewrite IH by discriminate.
    rewrite (Join_cons w (w' :: l1)) by discriminate.
    rewrite !append_assoc. reflexivity.
Qed.

(** Splitting distributes over a separator in the middle. *)
Lemma Split_app (a b : string) (sep : ascii) :
  Strings.Split (a +:+ String sep b) sep
  = Strings.Split a sep ++ Strings.Split b sep.
Proof.
  induction a as [|c a IH].
  - change ("" +:+ String sep b) with (String sep b).
    cbn [Strings.Split]. rewrite Ascii.eqb_refl. reflexivity.
  - rewrite append_cons. cbn [Strings.Split].
    destruct (Ascii.eqb c sep); rewrite IH; [reflexivity|].
    pose proof (Split_nonempty a sep) as Hne.
    destruct (Strings.Split a sep); [congruence|reflexivity].
Qed.

(** A string free of the separator is one segment. *)
Lemma Split_free (s : string) (sep : ascii) :
  free_of sep s = true -> Strings.Split s sep = [s].
Proof.
  induction s as [|c s IH]; [reflexivity|].
  cbn. destruct (Ascii.eqb c sep); [discriminate|].
  cbn. intros H. rewrite (IH H). reflexivity.
Qed.

Lemma digit_not_underscore (c : ascii) (d : N) :
  Strconv.digit c = Some d -> Ascii.eqb c "_" = false.
Proof.
  destruct (Ascii.eqb_spec c "_") as [->|]; [discriminate|reflexivity].
Qed.

Lemma digits_free (s : string) (acc v : N) :
  Strconv.digits acc s = Some v -> free_of "_" s = true.
Proof.
  revert acc. induction s as [|c s IH]; intros acc; [reflexivity|].
  cbn. destruct (Strconv.digit c) as [d|] eqn:Hd; [|discriminate].
  intros H. rewrite (digit_not_underscore c d Hd). cbn. eauto.
Qed.

(** A string [ParseInt] accepts holds no underscore. *)
Lemma ParseInt_free (s : string) :
  is_Some (Strconv.ParseInt s) -> free_of "_" s = true.
Proof.
  intros [v Hv]. destruct s as [|c s]; [discriminate|].
  unfold Strconv.ParseInt in Hv.
  destruct (Strconv.ParseUint _) as [un|] eqn:Hu; [|discriminate].
  clear Hv. unfold Strconv.ParseUint in Hu.
  destruct (Ascii.eqb c "+" || Ascii.eqb c "-") eqn:Hsign.
  - assert (Hc : Ascii.eqb c "_" = false).
    { destruct (Ascii.eqb_spec c "_") as [->|]; [discriminate|reflexivity]. }
    cbn. rewrite Hc. cbn.
    destruct s as [|c' s']; [reflexivity|].
    exact (digits_free _ _ _ Hu).
  - exact (digits_free _ _ _ Hu).
Qed.

Lemma append_nil_r (s : string) : s +:+ "" = s.
Proof. induction s as [|c s IH]; [reflexivity|]. rewrite append_cons, IH. reflexivity. Qed.

Lemma HasPrefix_app (a q : string) : Strings.HasPrefix (a +:+ q) a = true.
Proof.
  induction a as [|c a IH]; [reflexivity|].
  rewrite append_cons. cbn [Strings.HasPrefix].
  rewrite Ascii.eqb_refl, IH. reflexivity.
Qed.

Lemma Contains_prefix (s x : string) :
  Strings.HasPrefix s x = true -> Strings.Contains s x = true.
Proof. intros H. destruct s; cbn [Strings.Contains]; rewrite H; reflexivity. Qed.

Lemma Contains_app_r (p s x : string) :
  Strings.Contains s x = true -> Strings.Contains (p +:+ s) x = true.
Proof.
  intros H. induction p as [|c p IH]; [exact H|].
  rewrite append_cons. cbn [Strings.Contains]. rewrite IH. apply orb_true_r.
Qed.

(** A message built as [p ++ a ++ q] contains [a]. *)
Lemma Contains_middle (p a q : string) :
  Strings.Contains (p +:+ a +:+ q) a = true.
Proof. apply Contains_app_r, Contains_prefix, HasPrefix_app. Qed.

Lemma Contains_end (p a : string) : Strings.Contains (p +:+ a) a = true.
Proof.
  apply Contains_app_r, Contains_prefix.
  rewrite <- (append_nil_r a) at 1. apply HasPrefix_app.
Qed.

(** ** [parseMSSQLSku] *)

Lemma bind_ret_l {A B : Type} (a : A) (k : A -> Go B) : bind (ret a) k = k a.
Proof. unfold bind, ret. destruct (k a). reflexivity. Qed.

(** The last two elements of a slice of three elements or more. *)
Lemma last_two (s : list string) :
  (3 <= length s)%nat ->
  exists pre y z,
    s = pre ++ [y; z] /\ pre <> [] /\
    take (length s - 2) s = pre /\
    s !! (length s - 2)%nat = Some y /\
    s !! (length s - 1)%nat = Some z.
Proof.
  intros Hlen.
  destruct (lookup_lt_is_Some_2 s (length s - 2)) as [y Hy]; [lia|].
  destruct (lookup_lt_is_Some_2 s (length s - 1)) as [z Hz]; [lia|].
  exists (take (length s - 2) s), y, z.
  assert (Hdrop : drop (length s - 2) s = [y; z]).
  { rewrite (drop_S _ _ _ Hy).
    replace (S (length s - 2)) with (length s - 1)%nat by lia.
    rewrite (drop_S _ _ _ Hz).
    rewrite drop_ge by lia. reflexivity. }
  split; [|split; [|split; [reflexivity|split; assumption]]].
  - rewrite <- Hdrop. symmetry. apply take_drop.
  - intros E. apply (f_equal length) in E.
    rewrite length_take in E. cbn in E. lia.
Qed.

Lemma tiers_lookup (k v : string) :
  Terraform.tiers !! k = Some v ->
  k ∈ ["GP"; "GP_S"; "HS"; "BC"].
Proof.
  unfold Terraform.tiers. intros H.
  destruct (decide (k = "GP")) as [->|]; [set_solver|].
  rewrite lookup_insert_ne in H by congruence.
  destruct (decide (k = "GP_S")) as [->|]; [set_solver|].
  rewrite lookup_insert_ne in H by congruence.
  destruct (decide (k = "HS")) as [->|]; [set_solver|].
  rewrite lookup_insert_ne in H by congruence.
  destruct (decide (k = "BC")) as [->|]; [set_solver|].
  rewrite lookup_insert_ne in H by congruence.
  rewrite lookup_empty in H. discriminate.
Qed.

Lemma tiers_value (k v : string) :
  Terraform.tiers !! k = Some v ->
  (k, v) ∈ [ ("GP", "General Purpose"); ("GP_S", "General Purpose - Serverless");
             ("HS", "Hyperscale"); ("BC", "Business Critical") ].
Proof.
  unfold Terraform.tiers. intros H.
  destruct (decide (k = "GP")) as [->|].
  { rewrite lookup_insert_eq in H. injection H as <-. set_solver. }
  rewrite lookup_insert_ne in H by congruence.
  destruct (decide (k = "GP_S")) as [->|].
  { rewrite lookup_insert_eq in H. injection H as <-. set_solver. }
  rewrite lookup_insert_ne in H by congruence.
  destruct (decide (k = "HS")) as [->|].
  { rewrite lookup_insert_eq in H. injection H as <-. set_solver. }
  rewrite lookup_insert_ne in H by congruence.
  destruct (decide (k = "BC")) as [->|].
  { rewrite lookup_insert_eq in H. injection H as <-. set_solver. }
  rewrite lookup_insert_ne in H by congruence.
  rewrite lookup_empty in H. discriminate.
Qed.

Lemma families_lookup (k v : string) :
  Terraform.families !! k = Some v ->
  k ∈ ["Gen5"; "Gen4"; "M"].
Proof.
  unfold Terraform.families. intros H.
  destruct (decide (k = "Gen5")) as [->|]; [set_solver|].
  rewrite lookup_insert_ne in H by congruence.
  destruct (decide (k = "Gen4")) as [->|]; [set_solver|].
  rewrite lookup_insert_ne in H by congruence.
  destruct (decide (k = "M")) as [->|]; [set_solver|].
  rewrite lookup_insert_ne in H by congruence.
  rewrite lookup_empty in H. discriminate.
Qed.

Lemma tiers_known (k : string) :
  k ∈ ["GP"; "GP_S"; "HS"; "BC"] -> is_Some (Terraform.tiers !! k).
Proof.
  intros H. set_unfold in H.
  destruct H as [->|[->|[->|[->|[]]]]]; eexists; reflexivity.
Qed.

Lemma families_known (k : string) :
  k ∈ ["Gen5"; "Gen4"; "M"] ->
  is_Some (Terraform.families !! k) /\ free_of "_" k = true.
Proof.
  intros H. set_unfold in H.
  destruct H as [->|[->|[->|[]]]]; (split; [eexists|]; reflexivity).
Qed.

(** The parser, case by case, on an SKU with three segments or more. *)
Lemma parseMSSQLSku_segments (address sku : string)
    (pre : list string) (familyKey coreCount : string) :
  Strings.Split sku "_" = pre ++ [familyKey; coreCount] ->
  pre <> [] ->
  Terraform.parseMSSQLSku address sku =
    ret match Terraform.tiers !! Strings.Join pre "_" with
        | None => Err ("Invalid tier in MSSQL SKU for resource "
                         +:+ address +:+ ": " +:+ sku)
        | Some tier =>
            match Terraform.families !! familyKey with
            | None => Err ("Invalid family in MSSQL SKU for resource "
                             +:+ address +:+ ": " +:+ sku)
            | Some family =>
                match Strconv.ParseInt coreCount with
                | None => Err ("Invalid core count in MSSQL SKU for resource "
                                 +:+ address +:+ ": " +:+ sku)
                | Some cores => Ok (Terraform.Build_skuConfig tier family cores)
                end
            end
        end.
Proof.
  intros Hs Hpre. unfold Terraform.parseMSSQLSku. rewrite Hs.
  assert (Hlen : length (pre ++ [familyKey; coreCount]) = (length pre + 2)%nat).
  { rewrite length_app. reflexivity. }
  assert (Hpos : (0 < length pre)%nat).
  { destruct pre; [congruence|cbn; lia]. }
  rewrite Hlen.
  replace (length pre + 2 <? 3)%nat with false
    by (symmetry; apply Nat.ltb_ge; lia).
  unfold slice_upto. rewrite Hlen.
  replace (length pre + 2 - 2 <=? length pre + 2)%nat with true
    by (symmetry; apply Nat.leb_le; lia).
  replace (length pre + 2 - 2)%nat with (length pre) by lia.
  rewrite take_app_length.
  unfold index.
  rewrite (lookup_app_r pre) by lia. rewrite Nat.sub_diag. cbn [lookup list_lookup].
  replace (length pre + 2 - 1)%nat with (S (length pre)) by lia.
  rewrite (lookup_app_r pre) by lia.
  replace (S (length pre) - length pre)%nat with 1%nat by lia.
  cbn [lookup list_lookup].
  rewrite bind_ret_l.
  destruct (Terraform.tiers !! _); [|reflexivity].
  rewrite bind_ret_l.
  destruct (Terraform.families !! _); [|reflexivity].
  rewrite bind_ret_l.
  destruct (Strconv.ParseInt _); reflexivity.
Qed.

(** The parser never panics and logs nothing. *)
Lemma parseMSSQLSku_total (address sku : string) :
  exists res, Terraform.parseMSSQLSku address sku = ([], Some res).
Proof.
  destruct (Nat.ltb_spec (length (Strings.Split sku "_")) 3) as [Hlt|Hge].
  - unfold Terraform.parseMSSQLSku.
    replace (length (Strings.Split sku "_") <? 3)%nat with true
      by (symmetry; apply Nat.ltb_lt; lia).
    eexists. reflexivity.
  - destruct (last_two _ Hge) as (pre & y & z & Hs & Hpre & _).
    rewrite (parseMSSQLSku_segments address sku pre y z Hs Hpre).
    eexists. reflexivity.
Qed.

(** The parser accepts exactly the SKUs of the form tier_family_cores. *)
Lemma parseMSSQLSku_Ok (address sku : string) (c : Terraform.skuConfig) :
  Terraform.parseMSSQLSku address sku = ([], Some (Ok c)) <->
  exists tierKey familyKey coreCount : string,
    sku = tierKey +:+ "_" +:+ familyKey +:+ "_" +:+ coreCount /\
    Terraform.tiers !! tierKey = Some (Terraform.tier c) /\
    Terraform.families !! familyKey = Some (Terraform.family c) /\
    Strconv.ParseInt coreCount = Some (Terraform.cores c).
Proof.
  split.
  - intros H.
    destruct (Nat.ltb_spec (length (Strings.Split sku "_")) 3) as [Hlt|Hge].
    { unfold Terraform.parseMSSQLSku in H.
      replace (length (Strings.Split sku "_") <? 3)%nat with true in H
        by (symmetry; apply Nat.ltb_lt; lia).
      discriminate H. }
    destruct (last_two _ Hge) as (pre & y & z & Hs & Hpre & _).
    rewrite (parseMSSQLSku_segments address sku pre y z Hs Hpre) in H.
    exists (Strings.Join pre "_"), y, z.
    destruct (Terraform.tiers !! _) as [t|]; [|discriminate H].
    destruct (Terraform.families !! _) as [f|]; [|discriminate H].
    destruct (Strconv.ParseInt _) as [n|]; [|discriminate H].
    injection H as <-. cbn.
    split; [|auto].
    rewrite <- (Join_Split sku "_") at 1. rewrite Hs.
    rewrite Join_app by (assumption || discriminate). reflexivity.
  - intros (tk & fk & cc & -> & Ht & Hf & Hc).
    assert (Hfree : free_of "_" fk = true).
    { apply families_known. eapply families_lookup; eassumption. }
    assert (Hs : Strings.Split (tk +:+ "_" +:+ fk +:+ "_" +:+ cc) "_"
                 = Strings.Split tk "_" ++ [fk; cc]).
    { change (tk +:+ "_" +:+ fk +:+ "_" +:+ cc)
        with (tk +:+ String "_" (fk +:+ String "_" cc)).
      rewrite !Split_app.
      rewrite (Split_free fk) by assumption.
      rewrite (Split_free cc) by (apply ParseInt_free; eauto).
      reflexivity. }
    rewrite (parseMSSQLSku_segments address _ _ fk cc Hs (Split_nonempty _ _)).
    rewrite Join_Split, Ht, Hf, Hc. destruct c; reflexivity.
Qed.

Lemma parseMSSQLSku_well_formed (address sku : string) :
  (exists c, Terraform.parseMSSQLSku address sku = ([], Some (Ok c)))
  <-> sku_well_formed sku.
Proof.
  unfold sku_well_formed. split.
  - intros [c H]. apply parseMSSQLSku_Ok in H as (tk & fk & cc & ? & Ht & Hf & Hc).
    exists tk, fk, cc. split; [assumption|].
    split; [eapply tiers_lookup; eassumption|].
    split; [eapply families_lookup; eassumption|eauto].
  - intros (tk & fk & cc & Hsku & Ht & Hf & [n Hc]).
    destruct (tiers_known tk Ht) as [t Ht'].
    destruct (families_known fk Hf) as [[f Hf'] _].
    exists (Terraform.Build_skuConfig t f n).
    apply parseMSSQLSku_Ok. exists tk, fk, cc. auto.
Qed.

(** Every error of the parser names the resource address and the SKU. *)
Lemma parseMSSQLSku_Err (address sku msg : string) (l : list Log.Entry) :
  Terraform.parseMSSQLSku address sku = (l, Some (Err msg)) ->
  Strings.Contains msg address = true /\ Strings.Contains msg sku = true.
Proof.
  intros H.
  assert (Hmsg : exists p, msg = p +:+ address +:+ ": " +:+ sku).
  { destruct (Nat.ltb_spec (length (Strings.Split sku "_")) 3) as [Hlt|Hge].
    - unfold Terraform.parseMSSQLSku in H.
      replace (length (Strings.Split sku "_") <? 3)%nat with true in H
        by (symmetry; apply Nat.ltb_lt; lia).
      injection H as _ <-. eauto.
    - destruct (last_two _ Hge) as (pre & y & z & Hs & Hpre & _).
      rewrite (parseMSSQLSku_segments address sku pre y z Hs Hpre) in H.
      destruct (Terraform.tiers !! _); [|injection H as _ <-; eauto].
      destruct (Terraform.families !! _); [|injection H as _ <-; eauto].
      destruct (Strconv.ParseInt _); [discriminate H|injection H as _ <-; eauto]. }
  destruct Hmsg as [p ->]. split.
  - apply Contains_middle.
  - rewrite <- !append_assoc. apply Contains_end.
Qed.

(** ** [NewAzureRMMSSQLDatabase], by the form of the SKU *)

Section ProviderProperties.

Variable vendorName : string.
Variable lookupRegion : ResourceData.t -> list string -> string.

(** A DTU SKU is not parsed: the resource is built from the attributes. *)
Lemma provider_dtu (d : ResourceData.t) (u : UsageData) :
  dtu_purchase (sku_of d) = true ->
  Terraform.NewAzureRMMSSQLDatabase vendorName lookupRegion d u =
    let* res := MSSQL.BuildResource vendorName
                  (MSSQL.PopulateUsage
                     (resource_of (lookupRegion d ["server_id"]) d None) u) in
    ret (Some res).
Proof.
  unfold dtu_purchase, MSSQL.isDTU, Terraform.NewAzureRMMSSQLDatabase.
  fold (sku_of d). fold (licence_of d). intros Hd.
  rewrite <- !negb_orb, Hd. cbn [negb]. rewrite bind_ret_l. reflexivity.
Qed.

(** A vCore SKU that parses: the resource is built with its tier, family
    and core count. *)
Lemma provider_vcore (d : ResourceData.t) (u : UsageData)
    (c : Terraform.skuConfig) :
  dtu_purchase (sku_of d) = false ->
  Terraform.parseMSSQLSku (ResourceData.Address d) (sku_of d) = ([], Some (Ok c)) ->
  Terraform.NewAzureRMMSSQLDatabase vendorName lookupRegion d u =
    let* res := MSSQL.BuildResource vendorName
                  (MSSQL.PopulateUsage
                     (resource_of (lookupRegion d ["server_id"]) d (Some c)) u) in
    ret (Some res).
Proof.
  unfold dtu_purchase, MSSQL.isDTU, Terraform.NewAzureRMMSSQLDatabase.
  fold (sku_of d). fold (licence_of d). intros Hd Hp.
  rewrite <- !negb_orb, Hd. cbn [negb]. rewrite Hp.
  change (bind ([], Some (Ok c)) ?k) with (bind (ret (Ok c)) k).
  rewrite !bind_ret_l. reflexivity.
Qed.

(** A vCore SKU that does not parse: one warning, and no resource. *)
Lemma provider_unparsed (d : ResourceData.t) (u : UsageData) (msg : string) :
  dtu_purchase (sku_of d) = false ->
  Terraform.parseMSSQLSku (ResourceData.Address d) (sku_of d) = ([], Some (Err msg)) ->
  Terraform.NewAzureRMMSSQLDatabase vendorName lookupRegion d u =
    ([Log.Warnf msg []], Some None).
Proof.
  unfold dtu_purchase, MSSQL.isDTU, Terraform.NewAzureRMMSSQLDatabase.
  fold (sku_of d). fold (licence_of d). intros Hd Hp.
  rewrite <- !negb_orb, Hd. cbn [negb]. rewrite Hp. reflexivity.
Qed.

(** The provider never panics. *)
Lemma provider_total (d : ResourceData.t) (u : UsageData) :
  exists l res,
    Terraform.NewAzureRMMSSQLDatabase vendorName lookupRegion d u = (l, Some res).
Proof.
  destruct (dtu_purchase (sku_of d)) eqn:Hd.
  - rewrite (provider_dtu d u Hd).
    destruct (MSSQL_BuildResource_total vendorName
                (MSSQL.PopulateUsage
                   (resource_of (lookupRegion d ["server_id"]) d None) u))
      as (l & res & H & _).
    rewrite H. cbn. eauto.
  - destruct (parseMSSQLSku_total (ResourceData.Address d) (sku_of d))
      as [[c|msg] Hp].
    + rewrite (provider_vcore d u c Hd Hp).
      destruct (MSSQL_BuildResource_total vendorName
                  (MSSQL.PopulateUsage
                     (resource_of (lookupRegion d ["server_id"]) d (Some c)) u))
        as (l & res & H & _).
      rewrite H. cbn. eauto.
    + rewrite (provider_unparsed d u msg Hd Hp). eauto.
Qed.

End ProviderProperties.

(** ** Compute and licence components by tier *)

(** What the vCore purchase model emits, for [MSSQLDatabase]. *)
Lemma MSSQL_vCore_shape (vendorName : string) (r : MSSQL.MSSQLDatabase) :
  dtu_purchase (MSSQL.SKU r) = false ->
  exists cs,
    components_of (MSSQL.BuildResource vendorName r) = Some cs /\
    (is_serverless (MSSQL.Tier r) = true ->
     cs = [ MSSQL.serverlessComputeHoursCostComponent vendorName r;
            MSSQL.mssqlStorageComponent vendorName r;
            MSSQL.longTermRetentionMSSQLCostComponent vendorName r ]) /\
    (is_serverless (MSSQL.Tier r) = false ->
     exists p rest,
       cs = p :: rest /\
       value (MSSQL.provisionedComputeCostComponent vendorName r) = Some p /\
       has_component ("Compute (serverless, " +:+ MSSQL.SKU r +:+ ")") cs = false /\
       has_component ("Compute (provisioned, " +:+ MSSQL.SKU r +:+ ")") rest = false) /\
    has_component "SQL license" cs
      = negb (is_serverless (MSSQL.Tier r))
        && licence_included (MSSQL.LicenceType r).
Proof.
  intros Hv.
  destruct (MSSQL_BuildResource_vCore vendorName r Hv)
    as (l & cs & res & Hcs & Hres & <- & _).
  destruct (MSSQL_vCore_components vendorName r) as (l' & p & Hp & Hname & Heq).
  exists (Resource.CostComponents res).
  unfold components_of. rewrite Hres. split; [reflexivity|].
  rewrite Heq in Hcs.
  destruct (is_serverless (MSSQL.Tier r)) eqn:Hs.
  - injection Hcs as _ <-.
    split; [reflexivity|]. split; [discriminate|]. reflexivity.
  - injection Hcs as _ <-.
    split; [discriminate|]. split.
    + intros _. eexists _, _. split; [reflexivity|].
      split; [rewrite Hp; reflexivity|].
      unfold has_component. cbn [app existsb]. rewrite Hname.
      destruct (is_hyperscale (MSSQL.Tier r));
        destruct (licence_included _); split; reflexivity.
    + unfold has_component. cbn [app existsb]. rewrite Hname.
      destruct (is_hyperscale (MSSQL.Tier r));
        destruct (licence_included _); reflexivity.
Qed.

(** The same for the sibling [SQLDatabase]. *)
Lemma SQL_vCore_shape (vendorName : string)
    (priceFilterConsumption : option PriceFilter.t)
    (s : SQL.SQLDatabase) (cores : Z) :
  SQL.Cores s = Some cores ->
  exists cs,
    components_of (SQL.BuildResource vendorName priceFilterConsumption s)
      = Some cs /\
    (is_serverless (SQL.Tier s) = true ->
     cs = [ SQL.serverlessComputeHoursCostComponent
              vendorName priceFilterConsumption s;
            SQL.mssqlStorageComponent vendorName s;
            SQL.longTermRetentionMSSQLCostComponent
              vendorName priceFilterConsumption s ]) /\
    (is_serverless (SQL.Tier s) = false ->
     exists p rest,
       cs = p :: rest /\
       value (SQL.provisionedComputeCostComponent
                vendorName priceFilterConsumption s) = Some p /\
       has_component ("Compute (serverless, " +:+ SQL.SKU s +:+ ")") cs = false /\
       has_component ("Compute (provisioned, " +:+ SQL.SKU s +:+ ")") rest = false) /\
    has_component "SQL license" cs
      = negb (is_serverless (SQL.Tier s))
        && licence_included (SQL.LicenceType s).
Proof.
  intros Hc.
  destruct (SQL_vCore_components vendorName priceFilterConsumption s cores Hc)
    as (l & p & replicas & license & Hp & Hname & _ & Hr & _ & _ & Hl & _ & Heq).
  unfold components_of, SQL.BuildResource. rewrite Heq.
  destruct (is_serverless (SQL.Tier s)) eqn:Hs.
  - eexists. split; [reflexivity|].
    split; [reflexivity|]. split; [discriminate|]. reflexivity.
  - eexists. split; [reflexivity|]. cbn [Resource.CostComponents].
    split; [discriminate|]. split.
    + intros _. eexists _, _. split; [reflexivity|].
      split; [rewrite Hp; reflexivity|].
      unfold has_component. cbn [app existsb]. rewrite Hname.
      destruct (is_hyperscale (SQL.Tier s));
        destruct (licence_included _); cbn [app existsb];
        rewrite ?Hr, ?Hl; split; reflexivity.
    + unfold has_component. cbn [app existsb]. rewrite Hname.
      destruct (is_hyperscale (SQL.Tier s));
        destruct (licence_included _); cbn [app existsb];
        rewrite ?Hr, ?Hl; reflexivity.
Qed.

(** C1, as amended. For every vCore-purchase database, of either resource
    type, whose SKU, tier and licence type are of ASCII bytes: with the
    serverless tier the components are the serverless
    compute component, "Storage" and "Long-term retention", and nothing
    else; with any other tier the first component is the provisioned
    compute component, it is the only one of that name, and there is no
    serverless compute component; and a "SQL license" component is present
    exactly when the tier is not serverless and the licence type is
    "LicenseIncluded" (compared in lower case).  In the provider the
    licence type is the attribute [license_type] when the node has it and
    "LicenseIncluded" when it has not, so a node without the attribute
    gets the licence component for every tier but the serverless one.
    (An SKU that parses is of ASCII bytes, and so is the tier parsed from
    it.) *)
Theorem vcore_compute_and_licence_by_tier
    (vendorName : string) (priceFilterConsumption : option PriceFilter.t)
    (lookupRegion : ResourceData.t -> list string -> string)
    (r : MSSQL.MSSQLDatabase) (s : SQL.SQLDatabase) (cores : Z)
    (d : ResourceData.t) (u : UsageData) (c : Terraform.skuConfig) :
  (ascii_strings r = true ->
   dtu_purchase (MSSQL.SKU r) = false ->
   exists cs,
     components_of (MSSQL.BuildResource vendorName r) = Some cs /\
     (is_serverless (MSSQL.Tier r) = true ->
      cs = [ MSSQL.serverlessComputeHoursCostComponent vendorName r;
             MSSQL.mssqlStorageComponent vendorName r;
             MSSQL.longTermRetentionMSSQLCostComponent vendorName r ]) /\
     (is_serverless (MSSQL.Tier r) = false ->
      exists p rest,
        cs = p :: rest /\
        value (MSSQL.provisionedComputeCostComponent vendorName r) = Some p /\
        has_component ("Compute (serverless, " +:+ MSSQL.SKU r +:+ ")") cs = false /\
        has_component ("Compute (provisioned, " +:+ MSSQL.SKU r +:+ ")") rest = false) /\
     has_component "SQL license" cs
       = negb (is_serverless (MSSQL.Tier r))
         && licence_included (MSSQL.LicenceType r)) /\
  (sql_ascii_strings s = true ->
   SQL.Cores s = Some cores ->
   exists cs,
     components_of (SQL.BuildResource vendorName priceFilterConsumption s)
       = Some cs /\
     (is_serverless (SQL.Tier s) = true ->
      cs = [ SQL.serverlessComputeHoursCostComponent
               vendorName priceFilterConsumption s;
             SQL.mssqlStorageComponent vendorName s;
             SQL.longTermRetentionMSSQLCostComponent
               vendorName priceFilterConsumption s ]) /\
     (is_serverless (SQL.Tier s) = false ->
      exists p rest,
        cs = p :: rest /\
        value (SQL.provisionedComputeCostComponent
                 vendorName priceFilterConsumption s) = Some p /\
        has_component ("Compute (serverless, " +:+ SQL.SKU s +:+ ")") cs = false /\
        has_component ("Compute (provisioned, " +:+ SQL.SKU s +:+ ")") rest = false) /\
     has_component "SQL license" cs
       = negb (is_serverless (SQL.Tier s))
         && licence_included (SQL.LicenceType s)) /\
  (Strings.is_ascii (licence_of d) = true ->
   dtu_purchase (sku_of d) = false ->
   Terraform.parseMSSQLSku (ResourceData.Address d) (sku_of d)
     = ([], Some (Ok c)) ->
   exists cs,
     built_components
       (Terraform.NewAzureRMMSSQLDatabase vendorName lookupRegion d u) = Some cs /\
     has_component "SQL license" cs
       = negb (is_serverless (Terraform.tier c))
         && licence_included
              (if Gjson.Exists (ResourceData.Get d "license_type")
               then Gjson.String (ResourceData.Get d "license_type")
               else "LicenseIncluded")).
Proof.
  split; [intros _; apply MSSQL_vCore_shape|].
  split; [intros _; apply SQL_vCore_shape|].
  intros _ Hd Hp.
  rewrite (provider_vcore vendorName lookupRegion d u c Hd Hp).
  set (r' := MSSQL.PopulateUsage _ u).
  destruct (MSSQL_vCore_shape vendorName r' Hd) as (cs & Hcs & _ & _ & Hl).
  exists cs. split; [|exact Hl].
  unfold components_of, value in Hcs. unfold built_components, value.
  destruct (MSSQL.BuildResource vendorName r') as [l [res|]];
    [|discriminate Hcs].
  cbn in Hcs |- *. congruence.
Qed.

Lemma vcore_compute_and_licence_by_tier_witness :
  (ascii_strings Examples.general_purpose = true /\
   sql_ascii_strings Examples.sql_general_purpose = true /\
   Strings.is_ascii
     (licence_of (Examples.node [("sku_name", Gjson.text "GP_Gen5_4")]))
     = true /\
   dtu_purchase (MSSQL.SKU Examples.general_purpose) = false /\
   is_serverless (MSSQL.Tier Examples.general_purpose) = false /\
   SQL.Cores Examples.sql_general_purpose = Some 4 /\
   dtu_purchase "GP_Gen5_4" = false /\
   Terraform.parseMSSQLSku "azurerm_mssql_database.db" "GP_Gen5_4"
     = ([], Some (Ok (Terraform.Build_skuConfig
                        "General Purpose" "Compute Gen5" 4)))) /\
  (exists cs,
     components_of (MSSQL.BuildResource "azure" Examples.general_purpose)
       = Some cs /\
     has_component "SQL license" cs = true) /\
  (exists cs,
     components_of
       (SQL.BuildResource "azure" Examples.consumption
          Examples.sql_general_purpose) = Some cs /\
     has_component "SQL license" cs = true) /\
  (exists cs,
     built_components
       (Examples.build [("sku_name", Gjson.text "GP_Gen5_4")] ∅) = Some cs /\
     has_component "SQL license" cs = true).
Proof.
  split; [repeat split; vm_compute; reflexivity|].
  pose proof (vcore_compute_and_licence_by_tier "azure" Examples.consumption
                Examples.region Examples.general_purpose
                Examples.sql_general_purpose 4
                (Examples.node [("sku_name", Gjson.text "GP_Gen5_4")]) ∅
                (Terraform.Build_skuConfig "General Purpose" "Compute Gen5" 4))
    as (H1 & H2 & H3).
  split; [|split].
  - destruct (H1 eq_refl eq_refl) as (cs & Hcs & _ & _ & Hl). exists cs. auto.
  - destruct (H2 eq_refl eq_refl) as (cs & Hcs & _ & _ & Hl). exists cs. auto.
  - exact (H3 eq_refl eq_refl eq_refl).
Defined.

(** C1 as stated fails on the provider: a node with a vCore SKU and no
    [license_type] attribute holds no licence flag, and yet its resource
    carries the "SQL license" component. *)
Lemma licence_component_without_licence_attribute :
  Gjson.Exists
    (ResourceData.Get (Examples.node [("sku_name", Gjson.text "GP_Gen5_4")])
                      "license_type") = false /\
  (component_names <$>
     built_components (Examples.build [("sku_name", Gjson.text "GP_Gen5_4")] ∅))
  = Some [ "Compute (provisioned, GP_Gen5_4)"; "SQL license"; "Storage";
           "Long-term retention" ].
Proof. split; vm_compute; reflexivity. Qed.

(** ** Storage and long-term retention quantities *)

Lemma monthly_quantities_here (name : string) (c : CostComponent.t)
    (cs : list CostComponent.t) :
  (CostComponent.Name c == name) = true ->
  monthly_quantities name (c :: cs)
  = CostComponent.MonthlyQuantity c :: monthly_quantities name cs.
Proof. intros H. unfold monthly_quantities, named. cbn. rewrite H. reflexivity. Qed.

Lemma monthly_quantities_skip (name : string) (c : CostComponent.t)
    (cs : list CostComponent.t) :
  (CostComponent.Name c == name) = false ->
  monthly_quantities name (c :: cs) = monthly_quantities name cs.
Proof. intros H. unfold monthly_quantities, named. cbn. rewrite H. reflexivity. Qed.

Lemma hourly_quantities_here (name : string) (c : CostComponent.t)
    (cs : list CostComponent.t) :
  (CostComponent.Name c == name) = true ->
  hourly_quantities name (c :: cs)
  = CostComponent.HourlyQuantity c :: hourly_quantities name cs.
Proof. intros H. unfold hourly_quantities, named. cbn. rewrite H. reflexivity. Qed.

Lemma hourly_quantities_skip (name : string) (c : CostComponent.t)
    (cs : list CostComponent.t) :
  (CostComponent.Name c == name) = false ->
  hourly_quantities name (c :: cs) = hourly_quantities name cs.
Proof. intros H. unfold hourly_quantities, named. cbn. rewrite H. reflexivity. Qed.

(** Decides a comparison of a component's name, using the names known
    from the context. *)
Ltac name_test :=
  repeat match goal with
         | H : CostComponent.Name _ = _ |- _ => rewrite H
         end;
  reflexivity.

(** Walks a list of components, keeping the quantities of those of the
    name asked for. *)
Ltac quantities :=
  cbn [app];
  repeat first
    [ rewrite monthly_quantities_here by name_test
    | rewrite monthly_quantities_skip by name_test
    | rewrite hourly_quantities_here by name_test
    | rewrite hourly_quantities_skip by name_test ];
  change (monthly_quantities ?n []) with (@nil (option Z));
  change (hourly_quantities ?n []) with (@nil (option Z)).

(** C2, as amended. Among the databases whose SKU, tier and licence type
    are of ASCII bytes: a vCore-purchase database with [max_size_gb = 500]
    reports one "Storage" component, of monthly quantity 500, whatever its
    usage; a database for which [long_term_retention_storage_gb = 100] is
    supplied reports one "Long-term retention" component, of monthly
    quantity 100, whatever its [max_size_gb], provided it is of the DTU
    purchase model or its tier is not Hyperscale. *)
Theorem storage_and_retention_quantities
    (vendorName : string) (r : MSSQL.MSSQLDatabase) :
  (ascii_strings r = true ->
   dtu_purchase (MSSQL.SKU r) = false ->
   MSSQL.MaxSizeGB r = Some 500 ->
   exists cs,
     components_of (MSSQL.BuildResource vendorName r) = Some cs /\
     monthly_quantities "Storage" cs = [Some 500]) /\
  (ascii_strings r = true ->
   dtu_purchase (MSSQL.SKU r) = true \/ is_hyperscale (MSSQL.Tier r) = false ->
   MSSQL.LongTermRetentionStorageGB r = Some 100 ->
   exists cs,
     components_of (MSSQL.BuildResource vendorName r) = Some cs /\
     monthly_quantities "Long-term retention" cs = [Some 100]).
Proof.
  split.
  - intros _ Hv Hmax.
    destruct (MSSQL_BuildResource_vCore vendorName r Hv)
      as (l & cs & res & Hcs & Hres & <- & _).
    destruct (MSSQL_vCore_components vendorName r) as (l' & p & _ & Hname & Heq).
    exists (Resource.CostComponents res).
    unfold components_of. rewrite Hres. split; [reflexivity|].
    rewrite Heq in Hcs.
    assert (Hq : CostComponent.MonthlyQuantity
                   (MSSQL.mssqlStorageComponent vendorName r) = Some 500).
    { cbn. rewrite Hmax. reflexivity. }
    destruct (is_serverless (MSSQL.Tier r)).
    + injection Hcs as _ <-. quantities. exact (f_equal (fun q => [q]) Hq).
    + injection Hcs as _ <-.
      destruct (is_hyperscale (MSSQL.Tier r));
        destruct (licence_included _); quantities;
        exact (f_equal (fun q => [q]) Hq).
  - intros _ Hcase Hu.
    assert (Hq : CostComponent.MonthlyQuantity
                   (MSSQL.longTermRetentionMSSQLCostComponent vendorName r)
                 = Some 100).
    { cbn. rewrite Hu. reflexivity. }
    destruct (dtu_purchase (MSSQL.SKU r)) eqn:Hd.
    + destruct (MSSQL_dtu_components vendorName r Hd) as (compute & Hn & H).
      unfold components_of, MSSQL.BuildResource.
      unfold dtu_purchase in Hd. rewrite Hd.
      destruct (basic_sku (MSSQL.SKU r)).
      * rewrite H. eexists. split; [reflexivity|].
        cbn [Resource.CostComponents]. quantities.
        exact (f_equal (fun q => [q]) Hq).
      * destruct H as (extra & Hne & _ & H). rewrite H.
        eexists. split; [reflexivity|].
        cbn [Resource.CostComponents]. quantities.
        exact (f_equal (fun q => [q]) Hq).
    + destruct Hcase as [Hcase|Hh]; [discriminate Hcase|].
      destruct (MSSQL_BuildResource_vCore vendorName r Hd)
        as (l & cs & res & Hcs & Hres & <- & _).
      destruct (MSSQL_vCore_components vendorName r)
        as (l' & p & _ & Hname & Heq).
      exists (Resource.CostComponents res).
      unfold components_of. rewrite Hres. split; [reflexivity|].
      rewrite Heq, Hh in Hcs.
      destruct (is_serverless (MSSQL.Tier r)).
      * injection Hcs as _ <-. quantities. exact (f_equal (fun q => [q]) Hq).
      * injection Hcs as _ <-.
        destruct (licence_included _); quantities;
          exact (f_equal (fun q => [q]) Hq).
Qed.

Lemma storage_and_retention_quantities_witness :
  (ascii_strings Examples.general_purpose_with_retention = true /\
   dtu_purchase (MSSQL.SKU Examples.general_purpose_with_retention) = false /\
   MSSQL.MaxSizeGB Examples.general_purpose_with_retention = Some 500 /\
   is_hyperscale (MSSQL.Tier Examples.general_purpose_with_retention) = false /\
   MSSQL.LongTermRetentionStorageGB Examples.general_purpose_with_retention
     = Some 100) /\
  (exists cs,
     components_of
       (MSSQL.BuildResource "azure" Examples.general_purpose_with_retention)
       = Some cs /\
     monthly_quantities "Storage" cs = [Some 500]) /\
  (exists cs,
     components_of
       (MSSQL.BuildResource "azure" Examples.general_purpose_with_retention)
       = Some cs /\
     monthly_quantities "Long-term retention" cs = [Some 100]).
Proof.
  split; [repeat split; vm_compute; reflexivity|].
  pose proof (storage_and_retention_quantities "azure"
                Examples.general_purpose_with_retention) as [H1 H2].
  split.
  - apply H1; reflexivity.
  - apply H2; [|right|]; reflexivity.
Defined.

(** C2 as stated fails twice.  A database of the DTU purchase model with
    [max_size_gb = 500] and no usage reports no "Storage" component; and a
    Hyperscale database reports no "Long-term retention" component even
    with [long_term_retention_storage_gb = 100]. *)
Lemma storage_component_missing_for_dtu_and_retention_for_hyperscale :
  (MSSQL.MaxSizeGB Examples.standard = Some 500 /\
   component_names <$>
     components_of (MSSQL.BuildResource "azure" Examples.standard)
   = Some [ "Compute (S0)"; "Extra data storage"; "Long-term retention" ]) /\
  (MSSQL.LongTermRetentionStorageGB Examples.hyperscale_with_retention
     = Some 100 /\
   component_names <$>
     components_of
       (MSSQL.BuildResource "azure" Examples.hyperscale_with_retention)
   = Some [ "Compute (provisioned, HS_Gen5_4)"; "Read replicas";
            "SQL license"; "Storage" ]).
Proof. repeat split; vm_compute; reflexivity. Qed.

(** ** The quantity of "Extra data storage" *)

Lemma extra_storage_spec_derived (premium : bool) (maxSizeGB : option Z) (q : Z) :
  extra_storage_spec premium maxSizeGB None = Some q -> 0 <= q.
Proof.
  unfold extra_storage_spec. destruct maxSizeGB as [m|]; [|discriminate].
  destruct (Z.ltb_spec (m - (if premium then 500 else 250)) 0);
    [discriminate|]. intros [= <-]. assumption.
Qed.

Lemma extra_storage_spec_usage (premium : bool) (maxSizeGB : option Z) (n : Z) :
  extra_storage_spec premium maxSizeGB (Some n) = Some n.
Proof. reflexivity. Qed.

(** C10, as amended. Every DTU-purchase database that is not Basic, of
    either resource type and with an SKU of ASCII bytes, reports one
    "Extra data storage" component.
    Without [extra_data_storage_gb] usage its monthly quantity is
    [MaxSizeGB - 500] for a SKU that starts with "p" and [MaxSizeGB - 250]
    otherwise, nil when that difference is negative (and nil without a
    [MaxSizeGB]), so it is never negative; an [extra_data_storage_gb]
    usage value replaces it whatever [MaxSizeGB] is, and is reported as
    given, also when it is negative. *)
Theorem extra_data_storage_quantity
    (vendorName : string) (priceFilterConsumption : option PriceFilter.t)
    (r : MSSQL.MSSQLDatabase) (s : SQL.SQLDatabase) :
  (Strings.is_ascii (MSSQL.SKU r) = true ->
   dtu_purchase (MSSQL.SKU r) = true ->
   basic_sku (MSSQL.SKU r) = false ->
   exists cs,
     components_of (MSSQL.BuildResource vendorName r) = Some cs /\
     monthly_quantities "Extra data storage" cs
       = [ extra_storage_spec (premium_sku (MSSQL.SKU r))
             (MSSQL.MaxSizeGB r) (MSSQL.ExtraDataStorageGB r) ]) /\
  (Strings.is_ascii (SQL.SKU s) = true ->
   SQL.Cores s = None ->
   SQL.SKU s <> "" ->
   basic_sku (SQL.SKU s) || (Strings.ToLower (SQL.SKU s) == "b") = false ->
   exists cs,
     components_of (SQL.BuildResource vendorName priceFilterConsumption s)
       = Some cs /\
     monthly_quantities "Extra data storage" cs
       = [ extra_storage_spec (premium_sku (SQL.SKU s))
             (SQL.MaxSizeGB s) (SQL.ExtraDataStorageGB s) ]) /\
  (forall premium maxSizeGB q,
      extra_storage_spec premium maxSizeGB None = Some q -> 0 <= q) /\
  (forall premium maxSizeGB n,
      extra_storage_spec premium maxSizeGB (Some n) = Some n).
Proof.
  split; [|split; [|split;
    [exact extra_storage_spec_derived|exact extra_storage_spec_usage]]].
  - intros _ Hd Hb.
    destruct (MSSQL_dtu_components vendorName r Hd) as (compute & Hn & H).
    rewrite Hb in H. destruct H as (extra & Hne & Hq & H).
    unfold components_of, MSSQL.BuildResource.
    unfold dtu_purchase in Hd. rewrite Hd, H.
    eexists. split; [reflexivity|].
    cbn [Resource.CostComponents]. quantities.
    exact (f_equal (fun q => [q]) Hq).
  - intros _ Hc Hsku Hb.
    destruct (SQL_dtu_components vendorName priceFilterConsumption s Hc Hsku)
      as (compute & Hn & H).
    rewrite Hb in H. destruct H as (extra & Hne & Hq & H).
    unfold components_of, SQL.BuildResource. rewrite H.
    eexists. split; [reflexivity|].
    cbn [Resource.CostComponents]. quantities.
    exact (f_equal (fun q => [q]) Hq).
Qed.

Lemma extra_data_storage_quantity_witness :
  (Strings.is_ascii (MSSQL.SKU Examples.standard) = true /\
   Strings.is_ascii (SQL.SKU Examples.sql_standard) = true /\
   dtu_purchase (MSSQL.SKU Examples.standard) = true /\
   basic_sku (MSSQL.SKU Examples.standard) = false /\
   SQL.Cores Examples.sql_standard = None /\
   basic_sku (SQL.SKU Examples.sql_standard)
     || (Strings.ToLower (SQL.SKU Examples.sql_standard) == "b") = false) /\
  (exists cs,
     components_of (MSSQL.BuildResource "azure" Examples.standard) = Some cs /\
     monthly_quantities "Extra data storage" cs = [Some 250]) /\
  (exists cs,
     components_of
       (SQL.BuildResource "azure" Examples.consumption Examples.sql_standard)
       = Some cs /\
     monthly_quantities "Extra data storage" cs = [Some 250]).
Proof.
  split; [repeat split; vm_compute; reflexivity|].
  pose proof (extra_data_storage_quantity "azure" Examples.consumption
                Examples.standard Examples.sql_standard) as (H1 & H2 & _).
  split.
  - apply H1; reflexivity.
  - apply H2; [reflexivity|reflexivity|discriminate|reflexivity].
Defined.

(** C10 as stated fails: for a Standard database to which the usage file
    gives [extra_data_storage_gb = -1], the monthly quantity of "Extra
    data storage" is -1, a negative quantity. *)
Lemma extra_data_storage_negative_with_usage :
  MSSQL.ExtraDataStorageGB Examples.standard_with_negative_usage = Some (-1) /\
  (monthly_quantities "Extra data storage" <$>
     components_of
       (MSSQL.BuildResource "azure" Examples.standard_with_negative_usage))
  = Some [Some (-1)] /\
  -1 < 0.
Proof. split; [reflexivity|split; [vm_compute; reflexivity|lia]]. Qed.

(** ** An SKU that does not parse *)

(** [fmt.Sprintf] without operand copies a format that holds no percent
    sign. *)
Lemma Sprintf_plain (format : string) :
  free_of "%" format = true -> Fmt.Sprintf format [] = Some format.
Proof.
  induction format as [|c format IH]; [reflexivity|].
  cbn [free_of Fmt.Sprintf]. intros H.
  apply andb_true_iff in H as [Hc Hrest].
  apply negb_true_iff in Hc. rewrite Hc, (IH Hrest). reflexivity.
Qed.

Lemma free_of_app (sep : ascii) (a b : string) :
  free_of sep (a +:+ b) = free_of sep a && free_of sep b.
Proof.
  induction a as [|c a IH]; [reflexivity|].
  rewrite append_cons. cbn [free_of]. rewrite IH. apply andb_assoc.
Qed.

(** For every node whose SKU (of ASCII bytes) is not "basic" and starts
    with neither "s" nor "p" in lower case, and is not of the form
    tier_family_cores with a tier key among GP, GP_S, HS and BC, a family
    among Gen5, Gen4 and M, and a core count that [strconv.ParseInt]
    reads, the builder returns nil: it does not panic, and calls
    [log.Warnf] once, with a message that names the address of the
    resource and the SKU as the format and no operand.  The text logged
    is that message when it holds no percent sign. *)
Lemma unparsed_sku_returns_nil
    (vendorName : string)
    (lookupRegion : ResourceData.t -> list string -> string)
    (d : ResourceData.t) (u : UsageData) :
  Strings.is_ascii (sku_of d) = true ->
  dtu_purchase (sku_of d) = false ->
  ~ sku_well_formed (sku_of d) ->
  exists msg,
    Terraform.NewAzureRMMSSQLDatabase vendorName lookupRegion d u
      = ([Log.Warnf msg []], Some None) /\
    Strings.Contains msg (ResourceData.Address d) = true /\
    Strings.Contains msg (sku_of d) = true /\
    (free_of "%" msg = true -> Log.render (Log.Warnf msg []) = Some msg).
Proof.
  intros _ Hd Hwf.
  destruct (parseMSSQLSku_total (ResourceData.Address d) (sku_of d))
    as [[c|msg] Hp].
  - exfalso. apply Hwf.
    apply (parseMSSQLSku_well_formed (ResourceData.Address d)). eauto.
  - exists msg. split; [apply provider_unparsed; assumption|].
    destruct (parseMSSQLSku_Err _ _ _ _ Hp) as [Ha Hs].
    split; [exact Ha|]. split; [exact Hs|]. apply Sprintf_plain.
Qed.

(** C4. The claim fails on a node whose address holds a percent sign.  The
    node [db["50%off"]] with the SKU "GP_Gen5" is skipped as the claim
    says: the builder returns nil without panic and calls [log.Warnf]
    once, with a message that names the address.  But the message is
    handed over as the format string, [log.Warnf(err.Error())], so the
    text logged is what [fmt.Sprintf] makes of it: it reads [%o] as a
    directive without operand, and the warning does not name the address
    of the resource. *)
Theorem unparsed_sku_warning_loses_address :
  let d := Examples.percent_node in
  let msg := "Unrecognized MSSQL SKU format for resource "
             +:+ ResourceData.Address d +:+ ": GP_Gen5" in
  let text := "Unrecognized MSSQL SKU format for resource "
              +:+ "azurerm_mssql_database.db[" +:+ Examples.quote
              +:+ "50%!o(MISSING)ff" +:+ Examples.quote +:+ "]: GP_Gen5" in
  Terraform.NewAzureRMMSSQLDatabase "azure" Examples.region d ∅
    = ([Log.Warnf msg []], Some None) /\
  Strings.Contains msg (ResourceData.Address d) = true /\
  Log.render (Log.Warnf msg []) = Some text /\
  Strings.Contains text (ResourceData.Address d) = false.
Proof. repeat split; vm_compute; reflexivity. Qed.

(** Conversely, a node with a DTU SKU or with an SKU of the form
    tier_family_cores gets a resource, named by its address. *)
Lemma provider_builds
    (vendorName : string)
    (lookupRegion : ResourceData.t -> list string -> string)
    (d : ResourceData.t) (u : UsageData) :
  dtu_purchase (sku_of d) = true \/ sku_well_formed (sku_of d) ->
  exists l res,
    Terraform.NewAzureRMMSSQLDatabase vendorName lookupRegion d u
      = (l, Some (Some res)) /\
    Resource.Name res = ResourceData.Address d.
Proof.
  intros Hcase. destruct (dtu_purchase (sku_of d)) eqn:Hd.
  - rewrite (provider_dtu vendorName lookupRegion d u Hd).
    destruct (MSSQL_BuildResource_total vendorName
                (MSSQL.PopulateUsage
                   (resource_of (lookupRegion d ["server_id"]) d None) u))
      as (l & res & H & Hn).
    rewrite H. cbn. eauto.
  - destruct Hcase as [Hcase|Hwf]; [discriminate Hcase|].
    apply (parseMSSQLSku_well_formed (ResourceData.Address d)) in Hwf
      as [c Hp].
    rewrite (provider_vcore vendorName lookupRegion d u c Hd Hp).
    destruct (MSSQL_BuildResource_total vendorName
                (MSSQL.PopulateUsage
                   (resource_of (lookupRegion d ["server_id"]) d (Some c)) u))
      as (l & res & H & Hn).
    rewrite H. cbn. eauto.
Qed.

(** ** The run goes on after a skipped node *)

Lemma value_bind {A B : Type} (m : Go A) (k : A -> Go B) :
  value (bind m k) = value m ≫= (fun a => value (k a)).
Proof.
  destruct m as [l [a|]]; [|reflexivity].
  unfold value. cbn. destruct (k a). reflexivity.
Qed.

(** A run over builders that do not panic does not panic, and a node that
    is skipped leaves the resources of the other nodes as they are. *)
Lemma buildAll_skips (build : ResourceData.t -> Go (option Resource.t))
    (before after : list ResourceData.t) (d : ResourceData.t) :
  (forall n, exists r, value (build n) = Some r) ->
  value (build d) = Some None ->
  exists rs skipped skipped',
    value (buildAll build (before ++ after)) = Some (rs, skipped) /\
    value (buildAll build (before ++ d :: after)) = Some (rs, skipped') /\
    ResourceData.Address d ∈ skipped'.
Proof.
  intros Htotal Hd.
  assert (Hall : forall nodes, exists rs skipped,
             value (buildAll build nodes) = Some (rs, skipped)).
  { induction nodes as [|n nodes IH]; [eexists _, _; reflexivity|].
    destruct IH as (rs & skipped & IH). destruct (Htotal n) as [r Hr].
    cbn [buildAll]. rewrite !value_bind, Hr. cbn [mbind option_bind]. rewrite value_bind, IH.
    cbn [mbind option_bind].
    destruct r; eexists _, _; reflexivity. }
  induction before as [|n before IH].
  - destruct (Hall after) as (rs & skipped & Hafter).
    exists rs, skipped, (ResourceData.Address d :: skipped).
    split; [exact Hafter|]. split; [|set_solver].
    cbn [app buildAll]. rewrite !value_bind, Hd. cbn [mbind option_bind].
    rewrite value_bind, Hafter. reflexivity.
  - destruct IH as (rs & skipped & skipped' & H1 & H2 & Hin).
    destruct (Htotal n) as [r Hr].
    cbn [app buildAll]. rewrite !value_bind, Hr. cbn [mbind option_bind].
    rewrite !value_bind, H1, H2. cbn [mbind option_bind].
    destruct r as [r|]; eexists _, _, _;
      (split; [reflexivity|split; [reflexivity|set_solver]]).
Qed.

(** A run of the MSSQL builder over any nodes goes on after a node whose
    SKU does not parse: the node is recorded as skipped, and the other
    nodes give the resources they give without it. *)
Lemma run_continues_after_unparsed_sku
    (vendorName : string)
    (lookupRegion : ResourceData.t -> list string -> string)
    (usage : ResourceData.t -> UsageData)
    (before after : list ResourceData.t) (d : ResourceData.t) :
  dtu_purchase (sku_of d) = false ->
  ~ sku_well_formed (sku_of d) ->
  exists rs skipped skipped',
    value (buildAll (fun n => Terraform.NewAzureRMMSSQLDatabase
                                vendorName lookupRegion n (usage n))
                    (before ++ after)) = Some (rs, skipped) /\
    value (buildAll (fun n => Terraform.NewAzureRMMSSQLDatabase
                                vendorName lookupRegion n (usage n))
                    (before ++ d :: after)) = Some (rs, skipped') /\
    ResourceData.Address d ∈ skipped'.
Proof.
  intros Hd Hwf. apply buildAll_skips.
  - intros n.
    destruct (provider_total vendorName lookupRegion n (usage n))
      as (l & r & H).
    exists r. rewrite H. reflexivity.
  - destruct (parseMSSQLSku_total (ResourceData.Address d) (sku_of d))
      as [[c|msg] Hp].
    + exfalso. apply Hwf.
      apply (parseMSSQLSku_well_formed (ResourceData.Address d)). eauto.
    + rewrite (provider_unparsed vendorName lookupRegion d (usage d) msg Hd Hp).
      reflexivity.
Qed.

(** ** Components without a quantity *)

(** The components a database reports are decided by its SKU, tier and
    licence type: no component is left out for want of a quantity. *)
Lemma MSSQL_component_names (vendorName : string) (r : MSSQL.MSSQLDatabase) :
  component_names <$> components_of (MSSQL.BuildResource vendorName r)
  = Some (mssql_component_names (MSSQL.SKU r) (MSSQL.Tier r) (MSSQL.LicenceType r)).
Proof.
  unfold mssql_component_names.
  destruct (dtu_purchase (MSSQL.SKU r)) eqn:Hd.
  - destruct (MSSQL_dtu_components vendorName r Hd) as (compute & Hn & H).
    unfold components_of, MSSQL.BuildResource.
    unfold dtu_purchase in Hd. rewrite Hd.
    destruct (basic_sku (MSSQL.SKU r)).
    + rewrite H. cbn. rewrite Hn. reflexivity.
    + destruct H as (extra & Hne & _ & H). rewrite H. cbn.
      rewrite Hn, Hne. reflexivity.
  - destruct (MSSQL_BuildResource_vCore vendorName r Hd)
      as (l & cs & res & Hcs & Hres & <- & _).
    destruct (MSSQL_vCore_components vendorName r) as (l' & p & _ & Hname & Heq).
    unfold components_of. rewrite Hres. rewrite Heq in Hcs.
    change (Some (component_names (Resource.CostComponents res)) = Some
      (if is_serverless (MSSQL.Tier r)
       then [ "Compute (serverless, " +:+ MSSQL.SKU r +:+ ")"; "Storage";
              "Long-term retention" ]
       else ["Compute (provisioned, " +:+ MSSQL.SKU r +:+ ")"]
            ++ (if is_hyperscale (MSSQL.Tier r) then ["Read replicas"] else [])
            ++ (if licence_included (MSSQL.LicenceType r)
                then ["SQL license"] else [])
            ++ ["Storage"]
            ++ (if is_hyperscale (MSSQL.Tier r) then []
                else ["Long-term retention"]))).
    destruct (is_serverless (MSSQL.Tier r)).
    + injection Hcs as _ <-. reflexivity.
    + injection Hcs as _ <-.
      destruct (is_hyperscale (MSSQL.Tier r));
        destruct (licence_included _); cbn; rewrite Hname; reflexivity.
Qed.

Lemma hyperscale_not_serverless (tier : string) :
  is_hyperscale tier = true -> is_serverless tier = false.
Proof.
  intros H. destruct (is_serverless tier) eqn:Hs; [|reflexivity].
  rewrite (serverless_not_hyperscale _ Hs) in H. discriminate H.
Qed.

(** An SKU parsed to the Hyperscale tier is of the vCore purchase model. *)
Lemma hyperscale_sku_is_vcore (address sku : string) (c : Terraform.skuConfig) :
  Terraform.parseMSSQLSku address sku = ([], Some (Ok c)) ->
  is_hyperscale (Terraform.tier c) = true ->
  dtu_purchase sku = false.
Proof.
  intros Hp Hh. apply parseMSSQLSku_Ok in Hp as (tk & fk & cc & -> & Ht & _).
  pose proof (tiers_value _ _ Ht) as Hin. set_unfold in Hin.
  destruct Hin as [E|[E|[E|[E|[]]]]]; injection E as -> E;
    rewrite E in Hh; try discriminate Hh.
  reflexivity.
Qed.

Lemma cost_without_quantity (p : Aggregator.Priced) :
  Aggregator.monthlyQuantity (Aggregator.component p) = None ->
  Aggregator.cost p = 0.
Proof. unfold Aggregator.cost. intros ->. reflexivity. Qed.

Lemma total_app (ps qs : list Aggregator.Priced) :
  Aggregator.total (ps ++ qs) = Aggregator.total ps + Aggregator.total qs.
Proof.
  unfold Aggregator.total, Aggregator.costed.
  induction ps as [|p ps IH]; [reflexivity|].
  cbn [app map fold_right snd]. rewrite IH. lia.
Qed.

Lemma costed_retains (ps : list Aggregator.Priced) :
  map fst (Aggregator.costed ps) = ps.
Proof.
  unfold Aggregator.costed. induction ps as [|p ps IH]; [reflexivity|].
  cbn. rewrite IH. reflexivity.
Qed.

(** C6. A component whose quantity is nil is emitted and kept.  On the
    code: a Hyperscale node without [read_replica_count] attribute gets
    one "Read replicas" component, with no hourly and no monthly
    quantity; and the names of the components of a database (whose SKU,
    tier and licence type are of ASCII bytes) follow from these three
    alone, so none is dropped for a nil quantity.  On the aggregator of
    the design: a component without
    quantity costs zero, leaves the total as it would be without it, and
    stays in the result. *)
Theorem nil_quantity_component_is_kept
    (vendorName : string)
    (lookupRegion : ResourceData.t -> list string -> string)
    (d : ResourceData.t) (u : UsageData) (c : Terraform.skuConfig)
    (r : MSSQL.MSSQLDatabase)
    (before after : list Aggregator.Priced) (p : Aggregator.Priced) :
  (Terraform.parseMSSQLSku (ResourceData.Address d) (sku_of d)
     = ([], Some (Ok c)) ->
   is_hyperscale (Terraform.tier c) = true ->
   Gjson.Exists (ResourceData.Get d "read_replica_count") = false ->
   exists cs,
     built_components
       (Terraform.NewAzureRMMSSQLDatabase vendorName lookupRegion d u) = Some cs /\
     hourly_quantities "Read replicas" cs = [None] /\
     monthly_quantities "Read replicas" cs = [None]) /\
  (ascii_strings r = true ->
   component_names <$> components_of (MSSQL.BuildResource vendorName r)
   = Some (mssql_component_names
             (MSSQL.SKU r) (MSSQL.Tier r) (MSSQL.LicenceType r))) /\
  (Aggregator.monthlyQuantity (Aggregator.component p) = None ->
   Aggregator.cost p = 0 /\
   (p, 0) ∈ Aggregator.costed (before ++ p :: after) /\
   map fst (Aggregator.costed (before ++ p :: after)) = before ++ p :: after /\
   Aggregator.total (before ++ p :: after) = Aggregator.total (before ++ after)).
Proof.
  split; [|split; [intros _; apply MSSQL_component_names|]].
  - intros Hp Hh Hex.
    pose proof (hyperscale_sku_is_vcore _ _ _ Hp Hh) as Hd.
    rewrite (provider_vcore vendorName lookupRegion d u c Hd Hp).
    set (r' := MSSQL.PopulateUsage _ u).
    destruct (MSSQL_BuildResource_vCore vendorName r' Hd)
      as (l & cs & res & Hcs & Hres & <- & _).
    destruct (MSSQL_vCore_components vendorName r') as (l' & q & _ & Hname & Heq).
    rewrite Hres. exists (Resource.CostComponents res).
    split; [reflexivity|].
    rewrite Heq in Hcs.
    change (MSSQL.Tier r') with (Terraform.tier c) in Hcs.
    rewrite Hh, (hyperscale_not_serverless _ Hh) in Hcs.
    injection Hcs as _ <-.
    assert (Hq : CostComponent.HourlyQuantity
                   (MSSQL.readReplicaCostComponent vendorName r') = None).
    { cbn. rewrite Hex. reflexivity. }
    destruct (licence_included _); split; quantities;
      first [exact (f_equal (fun x => [x]) Hq)|reflexivity].
  - intros Hq. pose proof (cost_without_quantity p Hq) as Hc.
    split; [exact Hc|]. split; [|split; [apply costed_retains|]].
    + unfold Aggregator.costed. rewrite <- Hc.
      apply (list_elem_of_fmap_2 (fun x => (x, Aggregator.cost x))).
      set_solver.
    + rewrite !total_app.
      change (p :: after) with ([p] ++ after). rewrite total_app.
      unfold Aggregator.total at 2. cbn. rewrite Hc. lia.
Qed.

Lemma nil_quantity_component_is_kept_witness :
  (Terraform.parseMSSQLSku "azurerm_mssql_database.db" "HS_Gen5_4"
     = ([], Some (Ok (Terraform.Build_skuConfig "Hyperscale" "Compute Gen5" 4))) /\
   is_hyperscale "Hyperscale" = true /\
   Gjson.Exists
     (ResourceData.Get (Examples.node [("sku_name", Gjson.text "HS_Gen5_4")])
                       "read_replica_count") = false) /\
  exists cs,
    built_components
      (Examples.build [("sku_name", Gjson.text "HS_Gen5_4")] ∅) = Some cs /\
    hourly_quantities "Read replicas" cs = [None] /\
    monthly_quantities "Read replicas" cs = [None].
Proof.
  split; [repeat split; vm_compute; reflexivity|].
  exact (proj1
    (nil_quantity_component_is_kept "azure" Examples.region
       (Examples.node [("sku_name", Gjson.text "HS_Gen5_4")]) ∅
       (Terraform.Build_skuConfig "Hyperscale" "Compute Gen5" 4)
       Examples.general_purpose [] []
       (Aggregator.Build
          (MSSQL.readReplicaCostComponent "azure" Examples.general_purpose)
          (Some 1)))
    eq_refl eq_refl eq_refl).
Defined.

(** ** The usage schema engine *)

Section EngineProperties.

Context {V : Type}.

Implicit Types (spec : gmap Usage.Pattern (gmap string V)).

Lemma resolve_exact spec (a : Usage.ResourceAddress) (key : string) (default v : V) :
  Usage.exact_value spec a key = Some v ->
  Usage.resolve spec a (key, default) = v.
Proof. unfold Usage.resolve. cbn. intros ->. reflexivity. Qed.

Lemma resolve_wildcard spec (a : Usage.ResourceAddress) (key : string)
    (default v : V) :
  Usage.exact_value spec a key = None ->
  Usage.wildcard_value spec a key = Some v ->
  Usage.resolve spec a (key, default) = v.
Proof. unfold Usage.resolve. cbn. intros -> ->. reflexivity. Qed.

Lemma resolve_default spec (a : Usage.ResourceAddress) (key : string) (default : V) :
  Usage.exact_value spec a key = None ->
  Usage.wildcard_value spec a key = None ->
  Usage.base_value spec a key = None ->
  Usage.resolve spec a (key, default) = default.
Proof. unfold Usage.resolve. cbn. intros -> -> ->. reflexivity. Qed.

(** An address without index has neither a wildcard entry nor a base
    address other than itself. *)
Lemma resolve_unindexed spec (a : Usage.ResourceAddress) (key : string)
    (default : V) :
  Usage.index a = None ->
  Usage.resolve spec a (key, default)
  = from_option id default (Usage.exact_value spec a key).
Proof.
  intros Hi. unfold Usage.resolve, Usage.wildcard_value, Usage.base_value.
  rewrite Hi. cbn. destruct (Usage.exact_value spec a key); reflexivity.
Qed.

(** An exact entry for one address leaves the other addresses alone. *)
Lemma exact_value_insert_ne spec (a b : Usage.ResourceAddress)
    (entry : gmap string V) (key : string) :
  a <> b ->
  Usage.exact_value (<[Usage.Exact a := entry]> spec) b key
  = Usage.exact_value spec b key.
Proof.
  intros Hne. unfold Usage.exact_value.
  rewrite lookup_insert_ne by congruence. reflexivity.
Qed.

Lemma wildcard_value_insert_exact spec (a b : Usage.ResourceAddress)
    (entry : gmap string V) (key : string) :
  Usage.wildcard_value (<[Usage.Exact a := entry]> spec) b key
  = Usage.wildcard_value spec b key.
Proof.
  unfold Usage.wildcard_value. destruct (Usage.index b); [|reflexivity].
  rewrite lookup_insert_ne by discriminate. reflexivity.
Qed.

(** An entry for an indexed address is not the entry of a base address. *)
Lemma base_value_insert_indexed spec (base : string) (i : Usage.Index)
    (b : Usage.ResourceAddress) (entry : gmap string V) (key : string) :
  Usage.base_value (<[Usage.Exact (Usage.Build base (Some i)) := entry]> spec) b key
  = Usage.base_value spec b key.
Proof.
  unfold Usage.base_value. destruct (Usage.index b); [|reflexivity].
  rewrite lookup_insert_ne by discriminate. reflexivity.
Qed.

(** C3. For every resource address, the value resolved for a key of a
    usage schema follows the precedence of the design.  The value of the
    entry of that very address wins, whether the address has an index or
    not.  Else, for an indexed address, the value of the wildcard entry
    [base[*]] wins, which serves [base[0]], [base[5]] and every other
    index of [base].  The declared default is what is left when no entry
    holds the key: none of these two, nor the entry of the un-indexed base
    address, which design section 4.2 tries last for an indexed address;
    for an address without index it is what is left when its own entry
    does not hold the key.  An entry for [base[i]] overrides the wildcard
    for the index [i] and leaves every other index as it was. *)
Theorem usage_value_precedence
    (spec : gmap Usage.Pattern (gmap string V))
    (a : Usage.ResourceAddress)
    (base key : string) (i j : Usage.Index) (default v w : V)
    (entry wild : gmap string V) :
  (spec !! Usage.Exact a = Some entry ->
   entry !! key = Some v ->
   Usage.resolve spec a (key, default) = v) /\
  (Usage.exact_value spec a key = None ->
   Usage.index a = Some i ->
   spec !! Usage.Wildcard (Usage.base a) = Some wild ->
   wild !! key = Some w ->
   Usage.resolve spec a (key, default) = w) /\
  (Usage.exact_value spec a key = None ->
   Usage.wildcard_value spec a key = None ->
   Usage.base_value spec a key = None ->
   Usage.resolve spec a (key, default) = default) /\
  (Usage.exact_value spec a key = None ->
   Usage.index a = None ->
   Usage.resolve spec a (key, default) = default) /\
  (wild !! key = Some w ->
   Usage.resolve {[Usage.Wildcard base := wild]}
     (Usage.Build base (Some (Usage.Count 0))) (key, default) = w /\
   Usage.resolve {[Usage.Wildcard base := wild]}
     (Usage.Build base (Some (Usage.Count 5))) (key, default) = w /\
   Usage.resolve {[Usage.Wildcard base := wild]}
     (Usage.Build base (Some i)) (key, default) = w) /\
  (entry !! key = Some v ->
   Usage.resolve (<[Usage.Exact a := entry]> spec) a (key, default) = v) /\
  (j <> i ->
   Usage.resolve (<[Usage.Exact (Usage.Build base (Some i)) := entry]> spec)
     (Usage.Build base (Some j)) (key, default)
   = Usage.resolve spec (Usage.Build base (Some j)) (key, default)).
Proof.
  split; [|split; [|split; [|split; [|split; [|split]]]]].
  - intros He Hk. apply resolve_exact. unfold Usage.exact_value.
    rewrite He. exact Hk.
  - intros He Hi Hw Hk. apply resolve_wildcard; [exact He|].
    unfold Usage.wildcard_value. rewrite Hi, Hw. exact Hk.
  - apply resolve_default.
  - intros He Hi. rewrite (resolve_unindexed spec a key default Hi), He.
    reflexivity.
  - intros Hk.
    assert (Hany : forall n,
      Usage.resolve {[Usage.Wildcard base := wild]}
        (Usage.Build base (Some n)) (key, default) = w).
    { intros n. apply resolve_wildcard.
      - unfold Usage.exact_value.
        rewrite lookup_singleton_ne by discriminate. reflexivity.
      - unfold Usage.wildcard_value. cbn.
        rewrite lookup_singleton_eq. exact Hk. }
    auto.
  - intros Hk. apply resolve_exact. unfold Usage.exact_value.
    rewrite lookup_insert_eq. exact Hk.
  - intros Hji. unfold Usage.resolve.
    rewrite exact_value_insert_ne by congruence.
    rewrite wildcard_value_insert_exact, base_value_insert_indexed.
    reflexivity.
Qed.

(** Every key of a usage schema resolves to a value: the one of the exact
    entry, else the one of the wildcard entry, else the one of the entry
    of the un-indexed base address, else a default the schema declares for
    the key. *)
Lemma resolveUsage_defined (schema : list (string * V))
    (spec : gmap Usage.Pattern (gmap string V)) (a : Usage.ResourceAddress)
    (key : string) (default : V) :
  (key, default) ∈ schema ->
  exists v,
    Usage.resolveUsage schema spec a !! key = Some v /\
    (Usage.exact_value spec a key = Some v \/
     (Usage.exact_value spec a key = None /\
      Usage.wildcard_value spec a key = Some v) \/
     (Usage.exact_value spec a key = None /\
      Usage.wildcard_value spec a key = None /\
      Usage.base_value spec a key = Some v) \/
     (Usage.exact_value spec a key = None /\
      Usage.wildcard_value spec a key = None /\
      Usage.base_value spec a key = None /\
      (key, v) ∈ schema)).
Proof.
  intros Hin. unfold Usage.resolveUsage.
  destruct (list_to_map _ !! key) as [v|] eqn:E.
  - exists v. split; [reflexivity|].
    apply elem_of_list_to_map_2 in E.
    apply list_elem_of_fmap in E as ([k d] & [= -> ->] & Hitem).
    unfold Usage.resolve. cbn.
    destruct (Usage.exact_value spec a k) as [x|]; [left; reflexivity|].
    destruct (Usage.wildcard_value spec a k) as [x|]; [right; left; auto|].
    destruct (Usage.base_value spec a k) as [x|]; [right; right; left; auto|].
    right; right; right. auto.
  - apply not_elem_of_list_to_map_2 in E. exfalso. apply E.
    rewrite <- list_fmap_compose.
    apply list_elem_of_fmap. exists (key, default). auto.
Qed.

(** Without usage data every key resolves to its default. *)
Lemma resolveUsage_empty (schema : list (string * V))
    (a : Usage.ResourceAddress) :
  Usage.resolveUsage schema (∅ : gmap Usage.Pattern (gmap string V)) a
  = list_to_map schema.
Proof.
  unfold Usage.resolveUsage. f_equal.
  induction schema as [|[k d] schema IH]; [reflexivity|].
  cbn [map]. rewrite IH. f_equal.
  unfold Usage.resolve, Usage.exact_value, Usage.wildcard_value,
    Usage.base_value. cbn.
  rewrite lookup_empty. cbn.
  destruct (Usage.index a); [rewrite !lookup_empty|]; reflexivity.
Qed.

End EngineProperties.

(** The golden usage file of the engine's tests: [instance_counted[*]]
    gives "windows", [instance_counted[0]] gives "linux", and the entry of
    the address [with_usage], which has no index, gives "windows". *)
Example usage_file_golden_counted :
  let spec : gmap Usage.Pattern (gmap string string) :=
    <[Usage.Wildcard "aws_instance.instance_counted" :=
        {["operating_system" := "windows"]}]>
      (<[Usage.Exact (Usage.Build "aws_instance.instance_counted"
                        (Some (Usage.Count 0))) :=
           {["operating_system" := "linux"]}]>
         (<[Usage.Exact (Usage.Build "aws_instance.with_usage" None) :=
              {["operating_system" := "windows"]}]> ∅)) in
  Usage.resolve spec
    (Usage.Build "aws_instance.instance_counted" (Some (Usage.Count 0)))
    ("operating_system", "linux") = "linux" /\
  Usage.resolve spec
    (Usage.Build "aws_instance.instance_counted" (Some (Usage.Count 1)))
    ("operating_system", "linux") = "windows" /\
  Usage.resolve spec
    (Usage.Build "aws_instance.with_usage" None)
    ("operating_system", "linux") = "windows" /\
  Usage.resolve spec
    (Usage.Build "aws_instance.without_usage" None)
    ("operating_system", "linux") = "linux".
Proof. repeat split; vm_compute; reflexivity. Qed.

Lemma usage_value_precedence_witness :
  Usage.exact_value
    ({[Usage.Wildcard "db" := {["monthly_vcore_hours" := 7]}]}
       : gmap Usage.Pattern (gmap string Z))
    (Usage.Build "db" (Some (Usage.Count 5))) "monthly_vcore_hours" = None /\
  (({[Usage.Wildcard "db" := {["monthly_vcore_hours" := 7]}]}
      : gmap Usage.Pattern (gmap string Z)) !! Usage.Wildcard "db"
     = Some {["monthly_vcore_hours" := 7]} /\
   ({["monthly_vcore_hours" := 7]} : gmap string Z) !! "monthly_vcore_hours"
     = Some 7) /\
  Usage.resolve
    ({[Usage.Wildcard "db" := {["monthly_vcore_hours" := 7]}]}
       : gmap Usage.Pattern (gmap string Z))
    (Usage.Build "db" (Some (Usage.Count 5))) ("monthly_vcore_hours", 0) = 7.
Proof.
  split; [vm_compute; reflexivity|].
  split; [split; vm_compute; reflexivity|].
  refine (proj1 (proj2
    (usage_value_precedence
       ({[Usage.Wildcard "db" := {["monthly_vcore_hours" := 7]}]}
          : gmap Usage.Pattern (gmap string Z))
       (Usage.Build "db" (Some (Usage.Count 5)))
       "db" "monthly_vcore_hours" (Usage.Count 5) (Usage.Count 0) 0 0 7
       ∅ {["monthly_vcore_hours" := 7]})) _ _ _ _);
    vm_compute; reflexivity.
Defined.

(** ** Usage keys and their defaults *)

Lemma MSSQL_BuildResource_schema (vendorName : string) (r : MSSQL.MSSQLDatabase)
    (res : Resource.t) :
  value (MSSQL.BuildResource vendorName r) = Some res ->
  Resource.UsageSchema res =
    [ UsageItem.Build "extra_data_storage_gb" 0 UsageItem.Int64;
      UsageItem.Build "monthly_vcore_hours" 0 UsageItem.Int64;
      UsageItem.Build "long_term_retention_storage_gb" 0 UsageItem.Int64 ].
Proof.
  unfold MSSQL.BuildResource.
  match goal with
  | |- context [bind ?m _] => destruct m as [l [cs|]]
  end; cbn; [|discriminate].
  intros [= <-]. reflexivity.
Qed.

(** On the code alone: a database populated with usage data that holds no
    [monthly_vcore_hours] keeps the field nil, and its serverless compute
    component has no monthly quantity. *)
Lemma serverless_quantity_without_usage (vendorName : string)
    (r : MSSQL.MSSQLDatabase) (u : UsageData) :
  MSSQL.MonthlyVCoreHours r = None ->
  u !! "monthly_vcore_hours" = None ->
  CostComponent.MonthlyQuantity
    (MSSQL.serverlessComputeHoursCostComponent vendorName
       (MSSQL.PopulateUsage r u)) = None.
Proof. intros Hr Hu. cbn. rewrite Hu, Hr. reflexivity. Qed.

(** An SKU the parser accepts is of the vCore purchase model: its tier
    key is one of GP, GP_S, HS and BC. *)
Lemma parsed_sku_is_vcore (address sku : string) (c : Terraform.skuConfig) :
  Terraform.parseMSSQLSku address sku = ([], Some (Ok c)) ->
  dtu_purchase sku = false.
Proof.
  intros Hp. apply parseMSSQLSku_Ok in Hp as (tk & fk & cc & -> & Ht & _).
  pose proof (tiers_lookup _ _ Ht) as Hin. set_unfold in Hin.
  destruct Hin as [->|[->|[->|[->|[]]]]]; reflexivity.
Qed.

(** C5, as amended.  In the usage schema engine every key of a usage
    schema resolves to a value of the usage specification (of the exact
    entry, else of the wildcard entry, else of the entry of the un-indexed
    base address) or else to a default the schema declares for it: it is
    never undefined; and the schema an MSSQL database declares gives
    [monthly_vcore_hours] the default 0.  The builder does not use that
    default: it populates the database from the usage data it is handed,
    before the schema exists, so the monthly quantity of the serverless
    compute component is the value the usage data holds for
    [monthly_vcore_hours], and nil when it holds none. *)
Theorem usage_keys_never_undefined
    (vendorName : string)
    (lookupRegion : ResourceData.t -> list string -> string)
    (schema : list UsageItem.t)
    (spec : gmap Usage.Pattern (gmap string Z)) (a : Usage.ResourceAddress)
    (item : UsageItem.t) (r : MSSQL.MSSQLDatabase) (res : Resource.t)
    (d : ResourceData.t) (u : UsageData) (c : Terraform.skuConfig) :
  (item ∈ schema ->
   exists v,
     Usage.resolveUsage (Usage.declared schema) spec a !! UsageItem.Key item
       = Some v /\
     (Usage.exact_value spec a (UsageItem.Key item) = Some v \/
      (Usage.exact_value spec a (UsageItem.Key item) = None /\
       Usage.wildcard_value spec a (UsageItem.Key item) = Some v) \/
      (Usage.exact_value spec a (UsageItem.Key item) = None /\
       Usage.wildcard_value spec a (UsageItem.Key item) = None /\
       Usage.base_value spec a (UsageItem.Key item) = Some v) \/
      (Usage.exact_value spec a (UsageItem.Key item) = None /\
       Usage.wildcard_value spec a (UsageItem.Key item) = None /\
       Usage.base_value spec a (UsageItem.Key item) = None /\
       exists item', item' ∈ schema /\
                     UsageItem.Key item' = UsageItem.Key item /\
                     UsageItem.DefaultValue item' = v))) /\
  (value (MSSQL.BuildResource vendorName r) = Some res ->
   UsageItem.Build "monthly_vcore_hours" 0 UsageItem.Int64
     ∈ Resource.UsageSchema res /\
   Usage.resolveUsage (Usage.declared (Resource.UsageSchema res)) ∅ a
     !! "monthly_vcore_hours" = Some 0) /\
  (Terraform.parseMSSQLSku (ResourceData.Address d) (sku_of d)
     = ([], Some (Ok c)) ->
   is_serverless (Terraform.tier c) = true ->
   exists compute rest,
     built_components
       (Terraform.NewAzureRMMSSQLDatabase vendorName lookupRegion d u)
       = Some (compute :: rest) /\
     CostComponent.Name compute
       = "Compute (serverless, " +:+ sku_of d +:+ ")" /\
     CostComponent.MonthlyQuantity compute = u !! "monthly_vcore_hours").
Proof.
  split; [|split].
  - intros Hin.
    destruct (resolveUsage_defined (Usage.declared schema) spec a
                (UsageItem.Key item) (UsageItem.DefaultValue item))
      as (v & Hv & Hcase).
    { unfold Usage.declared.
      apply (list_elem_of_fmap_2
               (fun it => (UsageItem.Key it, UsageItem.DefaultValue it))).
      exact Hin. }
    exists v. split; [exact Hv|].
    destruct Hcase as [H|[H|[H|(H1 & H2 & H3 & H4)]]]; [auto|auto|auto|].
    right; right; right.
    split; [exact H1|]. split; [exact H2|]. split; [exact H3|].
    unfold Usage.declared in H4.
    apply list_elem_of_fmap in H4 as (item' & [= Hk Hd] & Hin').
    exists item'. auto.
  - intros Hres. rewrite (MSSQL_BuildResource_schema vendorName r res Hres).
    rewrite resolveUsage_empty. split; [set_solver|reflexivity].
  - intros Hp Hs.
    pose proof (parsed_sku_is_vcore _ _ _ Hp) as Hd.
    rewrite (provider_vcore vendorName lookupRegion d u c Hd Hp).
    set (r' := MSSQL.PopulateUsage _ u).
    destruct (MSSQL_vCore_shape vendorName r' Hd) as (cs & Hcs & Hshape & _).
    specialize (Hshape Hs).
    unfold components_of, value in Hcs. unfold built_components, value.
    destruct (MSSQL.BuildResource vendorName r') as [l [built|]];
      [|discriminate Hcs].
    cbn in Hcs |- *. injection Hcs as ->. rewrite Hshape.
    eexists _, _. split; [reflexivity|]. split; [reflexivity|].
    cbn. destruct (u !! "monthly_vcore_hours"); reflexivity.
Qed.

Lemma usage_keys_never_undefined_witness :
  exists compute rest,
    built_components
      (Examples.build [("sku_name", Gjson.text "GP_S_Gen5_4")]
                      {["monthly_vcore_hours" := 100]})
      = Some (compute :: rest) /\
    CostComponent.Name compute = "Compute (serverless, GP_S_Gen5_4)" /\
    CostComponent.MonthlyQuantity compute = Some 100.
Proof.
  exact (proj2 (proj2
    (usage_keys_never_undefined "azure" Examples.region [] ∅
       (Usage.Build "azurerm_mssql_database.db" None)
       (UsageItem.Build "monthly_vcore_hours" 0 UsageItem.Int64)
       Examples.general_purpose (Resource.Build "" [] [])
       (Examples.node [("sku_name", Gjson.text "GP_S_Gen5_4")])
       {["monthly_vcore_hours" := 100]}
       (Terraform.Build_skuConfig
          "General Purpose - Serverless" "Compute Gen5" 4)))
    eq_refl eq_refl).
Defined.

(** C5 as stated fails on the builder: a serverless database built with no
    usage data declares [monthly_vcore_hours] with the default 0 in its
    schema, and yet its serverless compute component has no monthly
    quantity. *)
Lemma serverless_quantity_nil_without_usage_data :
  (Resource.UsageSchema <$>
     mjoin (value (Examples.build
                     [("sku_name", Gjson.text "GP_S_Gen5_4")] ∅)))
  = Some [ UsageItem.Build "extra_data_storage_gb" 0 UsageItem.Int64;
           UsageItem.Build "monthly_vcore_hours" 0 UsageItem.Int64;
           UsageItem.Build "long_term_retention_storage_gb" 0 UsageItem.Int64 ] /\
  (monthly_quantities "Compute (serverless, GP_S_Gen5_4)" <$>
     built_components
       (Examples.build [("sku_name", Gjson.text "GP_S_Gen5_4")] ∅))
  = Some [None].
Proof. split; vm_compute; reflexivity. Qed.

(** ** The usage-file template: comments survive a regeneration *)

(** Induction on a document tree, with the hypothesis for every child. *)
Lemma Node_induction (P : UsageFile.Node -> Prop) :
  (forall k v c co ns, Forall P ns -> P (UsageFile.MkNode k v c co ns)) ->
  forall n, P n.
Proof.
  intros step. fix IH 1. intros [k v c co ns]. apply step.
  induction ns as [|n ns IHns]; constructor; [apply IH|exact IHns].
Qed.

Section MergeProperties.

Variable update : option string -> option string -> option string.

Lemma merge_key (t : option UsageFile.Node) (p : UsageFile.Node) :
  UsageFile.key (UsageFile.merge update t p) = UsageFile.key p.
Proof. destruct p; reflexivity. Qed.

Lemma comment_out_key (n : UsageFile.Node) :
  UsageFile.key (UsageFile.comment_out n) = UsageFile.key n.
Proof. destruct n; reflexivity. Qed.

(** A node of the prior file keeps its comment, and so does every node
    below it. *)
Lemma merge_keeps_annotations (p : UsageFile.Node) :
  forall (t : option UsageFile.Node) (x : list string * string),
    In x (UsageFile.annotations p) ->
    In x (UsageFile.annotations (UsageFile.merge update t p)).
Proof.
  induction p as [k v c co ps IH] using Node_induction.
  intros t x. cbn [UsageFile.annotations UsageFile.merge].
  rewrite !in_app_iff. intros [Hx|Hx].
  - left. destruct c as [text|]; [exact Hx|destruct Hx].
  - right. apply in_map_iff in Hx as ([path text] & <- & Hin).
    apply in_map_iff. exists (path, text). split; [reflexivity|].
    apply in_flat_map in Hin as (q & Hq & Hin).
    apply in_flat_map.
    rewrite Forall_forall in IH.
    exists (UsageFile.merge update
              (UsageFile.find_key (UsageFile.key q)
                 match t with
                 | Some t0 => UsageFile.children t0
                 | None => []
                 end) q).
    split.
    + apply in_app_iff. left.
      apply (in_map (fun q0 => UsageFile.merge update
                                 (UsageFile.find_key (UsageFile.key q0) _) q0)).
      exact Hq.
    + apply IH; [apply list_elem_of_In; exact Hq|exact Hin].
Qed.

(** Every node of the prior file is still there, under the same keys. *)
Lemma merge_keeps_paths (p : UsageFile.Node) :
  forall (t : option UsageFile.Node) (x : list string),
    In x (UsageFile.paths p) ->
    In x (UsageFile.paths (UsageFile.merge update t p)).
Proof.
  induction p as [k v c co ps IH] using Node_induction.
  intros t x. cbn [UsageFile.paths UsageFile.merge].
  intros [Hx|Hx]; [left; exact Hx|right].
  apply in_map_iff in Hx as (path & <- & Hin).
  apply in_map_iff. exists path. split; [reflexivity|].
  apply in_flat_map in Hin as (q & Hq & Hin).
  apply in_flat_map.
  rewrite Forall_forall in IH.
  exists (UsageFile.merge update
            (UsageFile.find_key (UsageFile.key q)
               match t with
               | Some t0 => UsageFile.children t0
               | None => []
               end) q).
  split.
  - apply in_app_iff. left.
    apply (in_map (fun q0 => UsageFile.merge update
                               (UsageFile.find_key (UsageFile.key q0) _) q0)).
    exact Hq.
  - apply IH; [apply list_elem_of_In; exact Hq|exact Hin].
Qed.

Lemma has_key_In (k : string) (ns : list UsageFile.Node) :
  UsageFile.has_key k ns = true <->
  exists n, In n ns /\ UsageFile.key n = k.
Proof.
  unfold UsageFile.has_key. rewrite existsb_exists.
  split; intros (n & Hn & Hk); exists n; split; try assumption;
    apply String.eqb_eq; assumption.
Qed.

(** Every entry of the template is in the regenerated file. *)
Lemma merge_adds_template_entries (t p : UsageFile.Node) (e : UsageFile.Node) :
  In e (UsageFile.children t) ->
  UsageFile.has_key (UsageFile.key e)
    (UsageFile.children (UsageFile.merge update (Some t) p)) = true.
Proof.
  intros He. destruct p as [k v c co ps].
  cbn [UsageFile.merge UsageFile.children].
  apply has_key_In.
  destruct (UsageFile.has_key (UsageFile.key e) ps) eqn:Hk.
  - apply has_key_In in Hk as (q & Hq & Hkq).
    eexists. split.
    + apply in_app_iff. left.
      apply (in_map (fun q0 => UsageFile.merge update
                                 (UsageFile.find_key (UsageFile.key q0) _) q0)).
      exact Hq.
    + rewrite merge_key. exact Hkq.
  - exists (UsageFile.comment_out e). split.
    + apply in_app_iff. right. apply in_map. apply filter_In.
      split; [exact He|]. rewrite Hk. reflexivity.
    + apply comment_out_key.
Qed.

Lemma merge_value (t p : UsageFile.Node) :
  UsageFile.value (UsageFile.merge update (Some t) p)
  = update (UsageFile.value t) (UsageFile.value p).
Proof. destruct p; reflexivity. Qed.

End MergeProperties.

(** C7. Regenerating the usage file from a prior file keeps every comment
    of the prior file, at the node of the same path of keys; the nodes of
    the prior file stay, the data value of a node is updated, and the
    entries of the template that the prior file lacks are added. *)
Theorem regenerate_keeps_comments
    (update : option string -> option string -> option string)
    (template prior entry : UsageFile.Node)
    (path : list string) (text : string) :
  (In (path, text) (UsageFile.annotations prior) ->
   In (path, text)
      (UsageFile.annotations (UsageFile.regenerate update template prior))) /\
  (In path (UsageFile.paths prior) ->
   In path (UsageFile.paths (UsageFile.regenerate update template prior))) /\
  (In entry (UsageFile.children template) ->
   UsageFile.has_key (UsageFile.key entry)
     (UsageFile.children (UsageFile.regenerate update template prior)) = true) /\
  UsageFile.value (UsageFile.regenerate update template prior)
    = update (UsageFile.value template) (UsageFile.value prior).
Proof.
  unfold UsageFile.regenerate.
  split; [apply merge_keeps_annotations|].
  split; [apply merge_keeps_paths|].
  split; [apply merge_adds_template_entries|apply merge_value].
Qed.

Example regenerate_golden :
  UsageFile.regenerate GoldenFile.keep_prior GoldenFile.template GoldenFile.prior
  = UsageFile.MkNode "resource_usage" None None false
      [ UsageFile.MkNode "aws_s3_bucket.with_usage" None None false
          [ UsageFile.MkNode "object_tags" (Some "10000000")
              (Some "This comment shouldn't be overwritten") false [];
            UsageFile.MkNode "standard" None None true
              [ UsageFile.MkNode "storage_gb" (Some "0.0")
                  (Some "Total storage in GB.") true [] ] ] ].
Proof. reflexivity. Qed.

Lemma regenerate_keeps_comments_witness :
  In (["resource_usage"; "aws_s3_bucket.with_usage"; "object_tags"],
      "This comment shouldn't be overwritten")
     (UsageFile.annotations GoldenFile.prior) /\
  In (["resource_usage"; "aws_s3_bucket.with_usage"; "object_tags"],
      "This comment shouldn't be overwritten")
     (UsageFile.annotations
        (UsageFile.regenerate GoldenFile.keep_prior
           GoldenFile.template GoldenFile.prior)).
Proof.
  assert (H : In (["resource_usage"; "aws_s3_bucket.with_usage"; "object_tags"],
                  "This comment shouldn't be overwritten")
                 (UsageFile.annotations GoldenFile.prior))
    by (left; reflexivity).
  split; [exact H|].
  exact (proj1 (regenerate_keeps_comments GoldenFile.keep_prior
                  GoldenFile.template GoldenFile.prior GoldenFile.prior
                  _ _) H).
Defined.

Lemma vcore_replicas_and_retention_by_tier_witness :
  (ascii_strings Examples.hyperscale_with_retention = true /\
   dtu_purchase (MSSQL.SKU Examples.hyperscale_with_retention) = false /\
   sql_ascii_strings Examples.sql_general_purpose = true /\
   SQL.Cores Examples.sql_general_purpose = Some 4) /\
  (exists cs,
     components_of
       (MSSQL.BuildResource "azure" Examples.hyperscale_with_retention)
       = Some cs /\
     has_component "Read replicas" cs = true /\
     has_component "Long-term retention" cs = false) /\
  (exists cs,
     components_of
       (SQL.BuildResource "azure" Examples.consumption
          Examples.sql_general_purpose) = Some cs /\
     has_component "Read replicas" cs = false /\
     has_component "Long-term retention" cs = true).
Proof.
  split; [repeat split; reflexivity|].
  pose proof (vcore_replicas_and_retention_by_tier "azure" Examples.consumption
                Examples.hyperscale_with_retention
                Examples.sql_general_purpose 4) as [H1 H2].
  split; [apply H1|apply H2]; reflexivity.
Defined.

Lemma license_component_region_witness :
  (components_of (MSSQL.BuildResource "azure" Examples.general_purpose)
     = Some general_purpose_components /\
   MSSQL.sqlLicenseCostComponent "azure" Examples.general_purpose
     ∈ general_purpose_components /\
   CostComponent.Name
     (MSSQL.sqlLicenseCostComponent "azure" Examples.general_purpose)
     = "SQL license") /\
  (p ← CostComponent.ProductFilter
         (MSSQL.sqlLicenseCostComponent "azure" Examples.general_purpose);
   ProductFilter.Region p) = Some "Global".
Proof.
  assert (Hcs : components_of
                  (MSSQL.BuildResource "azure" Examples.general_purpose)
                = Some general_purpose_components) by reflexivity.
  assert (Hin : MSSQL.sqlLicenseCostComponent "azure" Examples.general_purpose
                ∈ general_purpose_components).
  { apply list_elem_of_In. right. left. reflexivity. }
  split; [split; [exact Hcs|split; [exact Hin|reflexivity]]|].
  exact (proj1 (license_component_region "azure" Examples.consumption
                  Examples.general_purpose Examples.sql_general_purpose)
           _ _ Hcs Hin eq_refl).
Defined.

(** ** Concrete databases *)

Example names_general_purpose :
  component_names <$>
    built_components (Examples.build [("sku_name", Gjson.text "GP_Gen5_4")] ∅)
  = Some [ "Compute (provisioned, GP_Gen5_4)"; "SQL license"; "Storage";
           "Long-term retention" ].
Proof. vm_compute. reflexivity. Qed.

Example names_serverless :
  component_names <$>
    built_components (Examples.build [("sku_name", Gjson.text "GP_S_Gen5_4")] ∅)
  = Some [ "Compute (serverless, GP_S_Gen5_4)"; "Storage";
           "Long-term retention" ].
Proof. vm_compute. reflexivity. Qed.

Example names_hyperscale_byol :
  component_names <$>
    built_components
      (Examples.build [ ("sku_name", Gjson.text "HS_Gen5_4");
                        ("license_type", Gjson.text "BasePrice") ] ∅)
  = Some [ "Compute (provisioned, HS_Gen5_4)"; "Read replicas"; "Storage" ].
Proof. vm_compute. reflexivity. Qed.

Example names_basic :
  component_names <$>
    built_components (Examples.build [("sku_name", Gjson.text "Basic")] ∅)
  = Some [ "Compute (BASIC)"; "Long-term retention" ].
Proof. vm_compute. reflexivity. Qed.

Example premium_extra_storage :
  monthly_quantities "Extra data storage" <$>
    built_components
      (Examples.build [ ("sku_name", Gjson.text "P1");
                        ("max_size_gb", Gjson.number 750) ] ∅)
  = Some [Some 250].
Proof. vm_compute. reflexivity. Qed.

Example standard_small_database :
  monthly_quantities "Extra data storage" <$>
    built_components
      (Examples.build [ ("sku_name", Gjson.text "S0");
                        ("max_size_gb", Gjson.number 100) ] ∅)
  = Some [None].
Proof. vm_compute. reflexivity. Qed.

(** A [read_replica_count] that is present as JSON [null] exists for
    gjson, and reads as the count 0. *)
Example null_replica_count :
  hourly_quantities "Read replicas" <$>
    built_components
      (Examples.build [ ("sku_name", Gjson.text "HS_Gen5_4");
                        ("read_replica_count", Gjson.null) ] ∅)
  = Some [Some 0].
Proof. vm_compute. reflexivity. Qed.

Example license_regions :
  license_region_spec "usgovvirginia" = "US Gov" /\
  license_region_spec "chinaeast2" = "China" /\
  license_region_spec "germanywestcentral" = "Germany" /\
  license_region_spec "eastus" = "Global".
Proof. repeat split. Qed.

Example parse_int_range :
  Strconv.ParseInt "-9223372036854775808" = Some (-9223372036854775808) /\
  Strconv.ParseInt "9223372036854775808" = None /\
  Strconv.ParseInt "+12" = Some 12 /\
  Strconv.ParseInt "1_0" = None /\
  Strconv.ParseInt "" = None.
Proof. repeat split. Qed.

(** * Further properties of the builders *)

(** ** The cost components of [MSSQLDatabase], one by one *)

Lemma b_not_dtu (sku : string) :
  MSSQL.isDTU sku = true -> (sku == "basic") = false -> (sku == "b") = false.
Proof.
  intros Hd Hb. destruct (String.eqb_spec sku "b") as [E|]; [|reflexivity].
  rewrite E in Hd. discriminate Hd.
Qed.

(** The run of [BuildResource], path by path: every goal is left with the
    list of components the path builds. *)
Ltac build_paths r :=
  unfold components_of, MSSQL.BuildResource;
  let Hd := fresh "Hd" in
  let Hb := fresh "Hb" in
  let Hs := fresh "Hs" in
  destruct (MSSQL.isDTU (Strings.ToLower (MSSQL.SKU r))) eqn:Hd;
  [ unfold MSSQL.dtuPurchaseCostComponents;
    destruct (Strings.ToLower (MSSQL.SKU r) == "basic") eqn:Hb;
    [ | rewrite (b_not_dtu _ Hd Hb); cbn [negb];
        rewrite slice_to_1;
        destruct (Strings.ToLower (MSSQL.SKU r)) as [|? ?];
        [discriminate Hd|] ]
  | unfold MSSQL.vCorePurchaseCostComponents, MSSQL.sqlServerlessTier,
      MSSQL.sqlHyperscaleTier;
    destruct (Strings.ToLower (MSSQL.Tier r) == "general purpose - serverless")
      eqn:Hs;
    [ rewrite (eqb_serverless_not_hyperscale _ Hs)
    | destruct (Strings.ToLower (MSSQL.Tier r) == "hyperscale");
      destruct (Strings.ToLower (MSSQL.LicenceType r) == "licenseincluded") ] ].

(** X1. [BuildResource] never panics, whatever the fields of the
    database: it returns a resource named by the address, with the three
    usage keys of the schema (each an int64 of default 0), and between two
    and four cost components whose names differ from one another. *)
Theorem mssql_build_resource_never_panics
    (vendorName : string) (r : MSSQL.MSSQLDatabase) :
  exists l res,
    MSSQL.BuildResource vendorName r = (l, Some res) /\
    Resource.Name res = MSSQL.Address r /\
    Resource.UsageSchema res =
      map (fun key => UsageItem.Build key 0 UsageItem.Int64)
        [ "extra_data_storage_gb"; "monthly_vcore_hours";
          "long_term_retention_storage_gb" ] /\
    (2 <= length (Resource.CostComponents res) <= 4)%nat /\
    NoDup (component_names (Resource.CostComponents res)).
Proof.
  build_paths r;
    (eexists _, _; split; [reflexivity|];
     split; [reflexivity|]; split; [reflexivity|];
     split; [cbn; lia|]);
    cbn [Resource.CostComponents component_names map app];
    repeat (apply NoDup_cons; split;
            [set_unfold; intuition discriminate|]);
    apply NoDup_nil; exact I.
Qed.

(** X2. Every cost component of an [MSSQLDatabase] asks for a product of
    the vendor, of service "SQL Database" and family "Databases"; the
    region it asks for is the region of the database, but for
    "SQL license", which asks for the licence region; and each of its
    attribute filters holds either a value or a regular expression, never
    both and never neither. *)
Theorem mssql_product_filters
    (vendorName : string) (r : MSSQL.MSSQLDatabase) :
  exists l res,
    MSSQL.BuildResource vendorName r = (l, Some res) /\
    Forall (fun c =>
      filter_field ProductFilter.VendorName c = Some vendorName /\
      filter_field ProductFilter.Service c = Some "SQL Database" /\
      filter_field ProductFilter.ProductFamily c = Some "Databases" /\
      filter_field ProductFilter.Region c =
        Some (if CostComponent.Name c == "SQL license"
              then MSSQL.licenseRegion (MSSQL.Region r)
              else MSSQL.Region r) /\
      attribute_filters c <> [] /\
      Forall (fun f => is_Some (AttributeFilter.Value f)
                       <-> AttributeFilter.ValueRegex f = None)
             (attribute_filters c))
      (Resource.CostComponents res).
Proof.
  assert (Hv : forall v : string, is_Some (Some v) <-> @None string = None).
  { intros v. split; eauto. }
  assert (Hr : forall v : string, is_Some (@None string) <-> Some v = None).
  { intros v. split; [intros [? ?]|]; discriminate. }
  build_paths r;
    (eexists _, _; split; [reflexivity|]);
    cbn [Resource.CostComponents app];
    repeat (apply Forall_cons; split;
            [split; [reflexivity|]; split; [reflexivity|];
             split; [reflexivity|]; split; [reflexivity|];
             split; [discriminate|];
             repeat (apply Forall_cons; split; [solve [apply Hv|apply Hr]|]);
             apply Forall_nil; exact I|]);
    apply Forall_nil; exact I.
Qed.

(** X3. Every cost component of an [MSSQLDatabase] has unit multiplier 1
    and at most one of the hourly and the monthly quantity; an hourly
    quantity is only given in "hours" or "vCore-hours"; and every
    component but "Storage" asks for the purchase option "Consumption",
    while "Storage" has no price filter. *)
Theorem mssql_quantities_and_price_filters
    (vendorName : string) (r : MSSQL.MSSQLDatabase) :
  exists l res,
    MSSQL.BuildResource vendorName r = (l, Some res) /\
    Forall (fun c =>
      CostComponent.UnitMultiplier c = 1 /\
      (CostComponent.HourlyQuantity c = None \/
       CostComponent.MonthlyQuantity c = None /\
       CostComponent.Unit c ∈ ["hours"; "vCore-hours"]) /\
      CostComponent.PriceFilter c =
        if CostComponent.Name c == "Storage" then None
        else Some {| PriceFilter.PurchaseOption := Some "Consumption" |})
      (Resource.CostComponents res).
Proof.
  build_paths r;
    (eexists _, _; split; [reflexivity|]);
    cbn [Resource.CostComponents app];
    repeat (apply Forall_cons; split;
            [split; [reflexivity|]; split; [|reflexivity];
             first [left; reflexivity
                   |right; split; [reflexivity|set_solver]]|]);
    apply Forall_nil; exact I.
Qed.

(** X4. The usage fields of an [MSSQLDatabase] decide monthly quantities
    and nothing else: with the three usage fields nil, [BuildResource]
    logs the same and builds the same components, up to their monthly
    quantities. *)
Theorem usage_only_sets_monthly_quantities
    (vendorName : string) (r : MSSQL.MSSQLDatabase) :
  logged (MSSQL.BuildResource vendorName r)
    = logged (MSSQL.BuildResource vendorName (without_usage r)) /\
  map without_monthly_quantity <$>
    components_of (MSSQL.BuildResource vendorName r)
  = map without_monthly_quantity <$>
      components_of (MSSQL.BuildResource vendorName (without_usage r)).
Proof.
  unfold components_of, MSSQL.BuildResource.
  change (MSSQL.SKU (without_usage r)) with (MSSQL.SKU r).
  destruct (MSSQL.isDTU (Strings.ToLower (MSSQL.SKU r))) eqn:Hd.
  - unfold MSSQL.dtuPurchaseCostComponents.
    change (MSSQL.SKU (without_usage r)) with (MSSQL.SKU r).
    destruct (Strings.ToLower (MSSQL.SKU r) == "basic") eqn:Hb.
    + split; reflexivity.
    + rewrite (b_not_dtu _ Hd Hb). cbn [negb]. rewrite slice_to_1.
      destruct (Strings.ToLower (MSSQL.SKU r)) as [|c sku'];
        [discriminate Hd|].
      split; reflexivity.
  - unfold MSSQL.vCorePurchaseCostComponents, MSSQL.sqlServerlessTier,
      MSSQL.sqlHyperscaleTier.
    change (MSSQL.Tier (without_usage r)) with (MSSQL.Tier r).
    change (MSSQL.LicenceType (without_usage r)) with (MSSQL.LicenceType r).
    destruct (Strings.ToLower (MSSQL.Tier r) == "general purpose - serverless")
      eqn:Hs.
    + rewrite (eqb_serverless_not_hyperscale _ Hs). split; reflexivity.
    + destruct (Strings.ToLower (MSSQL.Tier r) == "hyperscale");
        destruct (Strings.ToLower (MSSQL.LicenceType r) == "licenseincluded");
        split; reflexivity.
Qed.

(** X5. The attribute filters of the DTU purchase model, for an SKU of
    ASCII bytes.  The compute
    component asks for the SKU in lower case, "b" for "basic"; the
    "Extra data storage" component, which every DTU SKU but "basic" has,
    asks for the tier "Premium" when the SKU starts with "p" and for
    "Standard" otherwise: the lookup of the tier by the first byte of the
    SKU never misses, and the slice that takes the byte is in range. *)
Theorem dtu_attribute_filters
    (vendorName : string) (r : MSSQL.MSSQLDatabase) :
  Strings.is_ascii (MSSQL.SKU r) = true ->
  dtu_purchase (MSSQL.SKU r) = true ->
  let sku := if basic_sku (MSSQL.SKU r) then "b"
             else Strings.ToLower (MSSQL.SKU r) in
  let tier := if premium_sku (MSSQL.SKU r) then "Premium" else "Standard" in
  exists cs,
    MSSQL.dtuPurchaseCostComponents vendorName r = ([], Some cs) /\
    map attribute_filters cs =
      [ [ AttributeFilter.Build "productName" None
            (Some "/^SQL Database Single/i");
          AttributeFilter.Build "skuName" None (Some ("/^" +:+ sku +:+ "$/i")) ] ]
      ++ (if basic_sku (MSSQL.SKU r) then []
          else [ [ AttributeFilter.Build "productName" None
                     (Some ("/SQL Database " +:+ tier +:+ " - Storage/i"));
                   AttributeFilter.Build "skuName" None
                     (Some ("/^" +:+ tier +:+ "$/i"));
                   AttributeFilter.Build "meterName" (Some "Data Stored") None ] ])
      ++ [ [ AttributeFilter.Build "productName"
               (Some "SQL Database - LTR Backup Storage") None;
             AttributeFilter.Build "skuName" (Some "Backup RA-GRS") None;
             AttributeFilter.Build "meterName" (Some "RA-GRS Data Stored") None ] ].
Proof.
  unfold dtu_purchase, basic_sku, premium_sku. intros _ Hd.
  unfold MSSQL.dtuPurchaseCostComponents.
  destruct (Strings.ToLower (MSSQL.SKU r) == "basic") eqn:Hb.
  - eexists. split; reflexivity.
  - rewrite (b_not_dtu _ Hd Hb). cbn [negb]. rewrite slice_to_1.
    destruct (Strings.ToLower (MSSQL.SKU r)) as [|c sku'] eqn:Hsku;
      [discriminate Hd|].
    eexists. split; [reflexivity|].
    cbn [map app attribute_filters from_option CostComponent.ProductFilter
         ProductFilter.AttributeFilters].
    rewrite map_index_tier, HasPrefix_1.
    unfold MSSQL.isDTU in Hd. cbn [orb] in Hd. rewrite !HasPrefix_1 in Hd.
    destruct (Ascii.eqb_spec c "p") as [->|Hp]; [reflexivity|].
    destruct (Ascii.eqb_spec c "s") as [->|Hs]; [reflexivity|].
    rewrite Hb in Hd. discriminate Hd.
Qed.

Lemma dtu_attribute_filters_witness :
  exists cs,
    MSSQL.dtuPurchaseCostComponents "azure" Examples.standard = ([], Some cs) /\
    map attribute_filters cs =
      [ [ AttributeFilter.Build "productName" None
            (Some "/^SQL Database Single/i");
          AttributeFilter.Build "skuName" None (Some "/^s0$/i") ];
        [ AttributeFilter.Build "productName" None
            (Some "/SQL Database Standard - Storage/i");
          AttributeFilter.Build "skuName" None (Some "/^Standard$/i");
          AttributeFilter.Build "meterName" (Some "Data Stored") None ];
        [ AttributeFilter.Build "productName"
            (Some "SQL Database - LTR Backup Storage") None;
          AttributeFilter.Build "skuName" (Some "Backup RA-GRS") None;
          AttributeFilter.Build "meterName" (Some "RA-GRS Data Stored") None ] ].
Proof.
  exact (dtu_attribute_filters "azure" Examples.standard eq_refl eq_refl).
Defined.

(** ** The sibling resource [SQLDatabase] *)

(** X6. [SQLDatabase.BuildResource] panics exactly when the core count is
    nil and the SKU is empty: the slice of the first byte of the SKU is
    then out of range.  In every other case it returns a resource named
    by the address. *)
Theorem sql_build_resource_panics_iff
    (vendorName : string) (priceFilterConsumption : option PriceFilter.t)
    (s : SQL.SQLDatabase) :
  Resource.Name <$>
    value (SQL.BuildResource vendorName priceFilterConsumption s)
  = if bool_decide (SQL.Cores s = None /\ SQL.SKU s = "") then None
    else Some (SQL.Address s).
Proof.
  destruct (SQL.Cores s) as [cores|] eqn:Hc.
  - rewrite bool_decide_eq_false_2 by (intros [? _]; discriminate).
    destruct (SQL_vCore_components vendorName priceFilterConsumption s cores Hc)
      as (l & p & replicas & license & _ & _ & _ & _ & _ & _ & _ & _ & H).
    unfold SQL.BuildResource. rewrite H.
    destruct (is_serverless (SQL.Tier s)); reflexivity.
  - destruct (String.eqb_spec (SQL.SKU s) "") as [E|Hne].
    + rewrite bool_decide_eq_true_2 by auto.
      rewrite (SQL_dtu_empty_sku_panics vendorName priceFilterConsumption
                 s Hc E).
      reflexivity.
    + rewrite bool_decide_eq_false_2 by (intros [_ ?]; contradiction).
      destruct (SQL_dtu_components vendorName priceFilterConsumption s Hc Hne)
        as (compute & _ & H).
      unfold SQL.BuildResource.
      destruct (basic_sku (SQL.SKU s) || _).
      * rewrite H. reflexivity.
      * destruct H as (extra & _ & _ & H). rewrite H. reflexivity.
Qed.

(** X7. The two resource types agree, on databases whose SKU, tier and
    licence type are of ASCII bytes.  When the purchase model the SKU
    tells ([MSSQLDatabase] goes by the SKU) is the one the core count
    tells ([SQLDatabase] goes by the core count being nil), and the package
    price filter is the one for "Consumption", [SQLDatabase.BuildResource]
    logs and returns what [MSSQLDatabase.BuildResource] does on the same
    fields. *)
Theorem sql_agrees_with_mssql
    (vendorName : string) (s : SQL.SQLDatabase) :
  sql_ascii_strings s = true ->
  dtu_purchase (SQL.SKU s) = bool_decide (SQL.Cores s = None) ->
  SQL.BuildResource vendorName
    (Some {| PriceFilter.PurchaseOption := Some "Consumption" |}) s
  = MSSQL.BuildResource vendorName (to_mssql s).
Proof.
  unfold dtu_purchase. intros _ Hm.
  unfold SQL.BuildResource, MSSQL.BuildResource, SQL.costComponents.
  change (MSSQL.SKU (to_mssql s)) with (SQL.SKU s).
  rewrite Hm.
  destruct (SQL.Cores s) as [cores|] eqn:Hc.
  - rewrite bool_decide_eq_false_2 by discriminate.
    unfold SQL.vCorePurchaseCostComponents, MSSQL.vCorePurchaseCostComponents,
      SQL.provisionedComputeCostComponent, SQL.readReplicaCostComponent,
      SQL.sqlLicenseCostComponent,
      SQL.sqlServerlessTier, SQL.sqlHyperscaleTier,
      MSSQL.sqlServerlessTier, MSSQL.sqlHyperscaleTier.
    change (MSSQL.Tier (to_mssql s)) with (SQL.Tier s).
    change (MSSQL.LicenceType (to_mssql s)) with (SQL.LicenceType s).
    rewrite Hc.
    assert (Hcores : MSSQL.Cores (to_mssql s) = cores).
    { unfold to_mssql. cbn. rewrite Hc. reflexivity. }
    destruct (Strings.ToLower (SQL.Tier s) == "general purpose - serverless")
      eqn:Hs.
    + rewrite (eqb_serverless_not_hyperscale _ Hs). reflexivity.
    + destruct (Strings.ToLower (SQL.Tier s) == "hyperscale");
        destruct (Strings.ToLower (SQL.LicenceType s) == "licenseincluded");
        cbn [negb andb deref bind ret warnf app];
        unfold MSSQL.provisionedComputeCostComponent,
          MSSQL.readReplicaCostComponent, MSSQL.sqlLicenseCostComponent,
          MSSQL.mssqlSkuName;
        rewrite Hcores; reflexivity.
  - rewrite bool_decide_eq_true_2 in Hm |- * by reflexivity.
    unfold SQL.dtuPurchaseCostComponents, MSSQL.dtuPurchaseCostComponents,
      SQL.extraDataStorageCostComponent.
    change (MSSQL.SKU (to_mssql s)) with (SQL.SKU s).
    destruct (Strings.ToLower (SQL.SKU s) == "basic") eqn:Hb.
    + reflexivity.
    + rewrite (b_not_dtu _ Hm Hb). cbn [negb]. rewrite slice_to_1.
      destruct (Strings.ToLower (SQL.SKU s)) as [|c sku'];
        [discriminate Hm|].
      reflexivity.
Qed.

Lemma sql_agrees_with_mssql_witness :
  SQL.BuildResource "azure"
    (Some {| PriceFilter.PurchaseOption := Some "Consumption" |})
    Examples.sql_general_purpose
  = MSSQL.BuildResource "azure" (to_mssql Examples.sql_general_purpose).
Proof.
  exact (sql_agrees_with_mssql "azure" Examples.sql_general_purpose
           eq_refl eq_refl).
Defined.

(** X8. [SQLDatabase] goes by the core count alone.  With a nil core
    count and an SKU of ASCII bytes that is neither empty, "basic" nor
    "b" in lower case, it builds the
    "Extra data storage" component whatever the SKU, and looks the tier up
    by the first byte of the SKU in lower case: "Premium" for "p",
    "Standard" for "s", and the empty name for any other byte, a vCore
    SKU such as "GP_Gen5_4" included, so that the product asked for is
    "/SQL Database  - Storage/i". *)
Theorem sql_extra_storage_tier
    (vendorName : string) (priceFilterConsumption : option PriceFilter.t)
    (s : SQL.SQLDatabase) :
  Strings.is_ascii (SQL.SKU s) = true ->
  SQL.Cores s = None ->
  SQL.SKU s <> "" ->
  basic_sku (SQL.SKU s) || (Strings.ToLower (SQL.SKU s) == "b") = false ->
  let tier := if premium_sku (SQL.SKU s) then "Premium"
              else if Strings.HasPrefix (Strings.ToLower (SQL.SKU s)) "s"
                   then "Standard" else "" in
  exists compute extra retention,
    SQL.BuildResource vendorName priceFilterConsumption s
      = ([], Some {| Resource.Name := SQL.Address s;
                     Resource.UsageSchema :=
                       [ UsageItem.Build "extra_data_storage_gb" 0 UsageItem.Int64;
                         UsageItem.Build "monthly_vcore_hours" 0 UsageItem.Int64;
                         UsageItem.Build "long_term_retention_storage_gb" 0
                           UsageItem.Int64 ];
                     Resource.CostComponents := [compute; extra; retention] |}) /\
    CostComponent.Name extra = "Extra data storage" /\
    attribute_filters extra =
      [ AttributeFilter.Build "productName" None
          (Some ("/SQL Database " +:+ tier +:+ " - Storage/i"));
        AttributeFilter.Build "skuName" None (Some ("/^" +:+ tier +:+ "$/i"));
        AttributeFilter.Build "meterName" (Some "Data Stored") None ].
Proof.
  unfold basic_sku, premium_sku. intros _ Hc Hne Hb.
  apply orb_false_elim in Hb as [Hb Hb'].
  unfold SQL.BuildResource, SQL.costComponents, SQL.dtuPurchaseCostComponents,
    SQL.extraDataStorageCostComponent.
  rewrite Hc, Hb, Hb'. cbn [negb]. rewrite slice_to_1.
  destruct (Strings.ToLower (SQL.SKU s)) as [|c sku'] eqn:Hsku.
  { destruct (SQL.SKU s); [congruence|discriminate Hsku]. }
  eexists _, _, _. split; [reflexivity|]. split; [reflexivity|].
  cbn [attribute_filters from_option CostComponent.ProductFilter
       SQL.productFilter ProductFilter.AttributeFilters].
  unfold SQL.tierMapping. rewrite map_index_tier, !HasPrefix_1.
  destruct (Ascii.eqb_spec c "p") as [->|Hp]; [reflexivity|].
  destruct (Ascii.eqb_spec c "s") as [->|Hs]; [reflexivity|].
  destruct (String.eqb_spec (String c "") "p") as [E|_]; [congruence|].
  destruct (String.eqb_spec (String c "") "s") as [E|_]; [congruence|].
  reflexivity.
Qed.

Lemma sql_extra_storage_tier_witness :
  exists compute extra retention,
    SQL.BuildResource "azure" None
      {| SQL.Address := "azurerm_sql_database.db";
         SQL.Region := "eastus";
         SQL.SKU := "GP_Gen5_4";
         SQL.LicenceType := "LicenseIncluded";
         SQL.Tier := "General Purpose";
         SQL.Family := "Compute Gen5";
         SQL.Cores := None;
         SQL.MaxSizeGB := None;
         SQL.ReadReplicaCount := None;
         SQL.ZoneRedundant := false;
         SQL.ExtraDataStorageGB := None;
         SQL.MonthlyVCoreHours := None;
         SQL.LongTermRetentionStorageGB := None |}
      = ([], Some {| Resource.Name := "azurerm_sql_database.db";
                     Resource.UsageSchema :=
                       [ UsageItem.Build "extra_data_storage_gb" 0 UsageItem.Int64;
                         UsageItem.Build "monthly_vcore_hours" 0 UsageItem.Int64;
                         UsageItem.Build "long_term_retention_storage_gb" 0
                           UsageItem.Int64 ];
                     Resource.CostComponents := [compute; extra; retention] |}) /\
    CostComponent.Name extra = "Extra data storage" /\
    attribute_filters extra =
      [ AttributeFilter.Build "productName" None
          (Some "/SQL Database  - Storage/i");
        AttributeFilter.Build "skuName" None (Some "/^$/i");
        AttributeFilter.Build "meterName" (Some "Data Stored") None ].
Proof.
  apply (sql_extra_storage_tier "azure" None
           {| SQL.Address := "azurerm_sql_database.db";
              SQL.Region := "eastus";
              SQL.SKU := "GP_Gen5_4";
              SQL.LicenceType := "LicenseIncluded";
              SQL.Tier := "General Purpose";
              SQL.Family := "Compute Gen5";
              SQL.Cores := None;
              SQL.MaxSizeGB := None;
              SQL.ReadReplicaCount := None;
              SQL.ZoneRedundant := false;
              SQL.ExtraDataStorageGB := None;
              SQL.MonthlyVCoreHours := None;
              SQL.LongTermRetentionStorageGB := None |});
    [reflexivity|reflexivity|discriminate|reflexivity].
Defined.

(** ** [strconv.ParseInt] on what [%d] prints *)

Lemma digit_pretty_N_char (d : N) :
  (d < 10)%N -> Strconv.digit (pretty_N_char d) = Some d.
Proof.
  intros Hd.
  assert (d = 0 \/ d = 1 \/ d = 2 \/ d = 3 \/ d = 4 \/ d = 5 \/ d = 6
          \/ d = 7 \/ d = 8 \/ d = 9)%N as H by lia.
  repeat destruct H as [->|H]; try subst d; reflexivity.
Qed.

Lemma digit_not_sign (c : ascii) (d : N) :
  Strconv.digit c = Some d -> Ascii.eqb c "+" || Ascii.eqb c "-" = false.
Proof.
  destruct (Ascii.eqb_spec c "+") as [->|]; [discriminate|].
  destruct (Ascii.eqb_spec c "-") as [->|]; [discriminate|reflexivity].
Qed.

(** The digits [pretty] writes for [x] in front of [s] read back as [x],
    shifted in front of what [s] reads as. *)
Lemma digits_pretty_N_go (x : N) :
  exists k : N, forall (s : string) (acc : N),
    Strconv.digits acc (pretty_N_go x s)
    = Strconv.digits (acc * 10 ^ k + x)%N s.
Proof.
  induction (N.lt_wf_0 x) as [x _ IH].
  destruct (N.eq_dec x 0%N) as [->|Hx].
  - exists 0%N. intros s acc. rewrite pretty_N_go_0.
    f_equal. rewrite N.pow_0_r. lia.
  - destruct (IH (x `div` 10)%N) as [k Hk].
    { apply N.div_lt; lia. }
    exists (N.succ k). intros s acc.
    rewrite pretty_N_go_step by lia. rewrite Hk.
    cbn [Strconv.digits].
    rewrite digit_pretty_N_char by (apply N.mod_lt; lia).
    f_equal. rewrite N.pow_succ_r'.
    pose proof (N.div_mod x 10 ltac:(lia)) as Hdm. lia.
Qed.

Lemma ParseUint_pretty (p : positive) :
  exists (c : ascii) (s : string),
    pretty (N.pos p) = String c s /\
    Ascii.eqb c "+" || Ascii.eqb c "-" = false /\
    Strconv.ParseUint (String c s) = Some (N.pos p).
Proof.
  destruct (digits_pretty_N_go (N.pos p)) as [k Hk].
  specialize (Hk "" 0%N). cbn [Strconv.digits] in Hk.
  rewrite N.mul_0_l, N.add_0_l in Hk.
  change (pretty (N.pos p)) with (pretty_N_go (N.pos p) "").
  destruct (pretty_N_go (N.pos p) "") as [|c s]; [discriminate Hk|].
  exists c, s. split; [reflexivity|]. split; [|exact Hk].
  cbn [Strconv.digits] in Hk.
  destruct (Strconv.digit c) as [d|] eqn:Hd; [|discriminate Hk].
  exact (digit_not_sign c d Hd).
Qed.

(** [strconv.ParseInt] reads back every [int64] that [%d] printed. *)
Lemma ParseInt_pretty (n : Z) :
  int64 n -> Strconv.ParseInt (pretty n) = Some n.
Proof.
  unfold int64. intros Hn. destruct n as [|p|p].
  - reflexivity.
  - destruct (ParseUint_pretty p) as (c & s & Hs & Hsign & Hu).
    change (pretty (Z.pos p)) with (pretty (N.pos p)). rewrite Hs.
    unfold Strconv.ParseInt. rewrite Hsign, Hu.
    apply orb_false_elim in Hsign as [_ ->]. cbn [negb andb].
    replace (2 ^ 63 <=? N.pos p)%N with false by (symmetry; apply N.leb_gt; lia).
    reflexivity.
  - destruct (ParseUint_pretty p) as (c & s & Hs & Hsign & Hu).
    change (pretty (Z.neg p)) with (String "-" (pretty (N.pos p))). rewrite Hs.
    unfold Strconv.ParseInt.
    change (Ascii.eqb "-" "-") with true. rewrite orb_true_r. rewrite Hu.
    cbn [negb andb].
    replace (2 ^ 63 <? N.pos p)%N with false by (symmetry; apply N.ltb_ge; lia).
    reflexivity.
Qed.

(** Every value [strconv.ParseInt] returns is an [int64]. *)
Lemma ParseInt_int64 (s : string) (n : Z) :
  Strconv.ParseInt s = Some n -> int64 n.
Proof.
  unfold int64, Strconv.ParseInt. destruct s as [|c s]; [discriminate|].
  destruct (Strconv.ParseUint _) as [un|]; [|discriminate].
  destruct (Ascii.eqb c "-"); cbn [negb andb].
  - destruct (N.ltb_spec (2 ^ 63) un); [discriminate|].
    intros [= <-]. lia.
  - destruct (N.leb_spec (2 ^ 63) un); [discriminate|].
    intros [= <-]. lia.
Qed.

(** ** [parseMSSQLSku], by the segments of the SKU *)

(** X9. What [parseMSSQLSku] returns, by the underscores of the SKU: with
    none or one it reports an unrecognized format; with two or more, the
    last two segments are the family and the core count and all before
    them is the tier key (so "GP_S" is a tier key), and the tier is
    looked up first, then the family, then the core count is read, the
    first failure being the error reported.  It never panics and never
    logs. *)
Theorem sku_parser_by_segments (address tierKey a b : string) :
  free_of "_" a = true ->
  free_of "_" b = true ->
  Terraform.parseMSSQLSku address a
    = ([], Some (Err ("Unrecognized MSSQL SKU format for resource "
                        +:+ address +:+ ": " +:+ a))) /\
  Terraform.parseMSSQLSku address (a +:+ "_" +:+ b)
    = ([], Some (Err ("Unrecognized MSSQL SKU format for resource "
                        +:+ address +:+ ": " +:+ a +:+ "_" +:+ b))) /\
  Terraform.parseMSSQLSku address (tierKey +:+ "_" +:+ a +:+ "_" +:+ b)
    = ([], Some
        match Terraform.tiers !! tierKey with
        | None => Err ("Invalid tier in MSSQL SKU for resource " +:+ address
                         +:+ ": " +:+ tierKey +:+ "_" +:+ a +:+ "_" +:+ b)
        | Some tier =>
            match Terraform.families !! a with
            | None => Err ("Invalid family in MSSQL SKU for resource "
                             +:+ address +:+ ": "
                             +:+ tierKey +:+ "_" +:+ a +:+ "_" +:+ b)
            | Some family =>
                match Strconv.ParseInt b with
                | None => Err ("Invalid core count in MSSQL SKU for resource "
                                 +:+ address +:+ ": "
                                 +:+ tierKey +:+ "_" +:+ a +:+ "_" +:+ b)
                | Some cores => Ok (Terraform.Build_skuConfig tier family cores)
                end
            end
        end).
Proof.
  intros Ha Hb. split; [|split].
  - unfold Terraform.parseMSSQLSku. rewrite (Split_free a) by assumption.
    reflexivity.
  - unfold Terraform.parseMSSQLSku.
    change (a +:+ "_" +:+ b) with (a +:+ String "_" b).
    rewrite Split_app, (Split_free a), (Split_free b) by assumption.
    reflexivity.
  - assert (Hs : Strings.Split (tierKey +:+ "_" +:+ a +:+ "_" +:+ b) "_"
                 = Strings.Split tierKey "_" ++ [a; b]).
    { change (tierKey +:+ "_" +:+ a +:+ "_" +:+ b)
        with (tierKey +:+ String "_" (a +:+ String "_" b)).
      rewrite !Split_app, (Split_free a), (Split_free b) by assumption.
      reflexivity. }
    rewrite (parseMSSQLSku_segments address _ _ a b Hs (Split_nonempty _ _)).
    rewrite Join_Split. reflexivity.
Qed.

Lemma sku_parser_by_segments_witness :
  Terraform.parseMSSQLSku "db" "Gen5"
    = ([], Some (Err "Unrecognized MSSQL SKU format for resource db: Gen5")) /\
  Terraform.parseMSSQLSku "db" "Gen5_4"
    = ([], Some (Err "Unrecognized MSSQL SKU format for resource db: Gen5_4")) /\
  Terraform.parseMSSQLSku "db" "GP_S_Gen5_4"
    = ([], Some (Ok (Terraform.Build_skuConfig
                       "General Purpose - Serverless" "Compute Gen5" 4))).
Proof. exact (sku_parser_by_segments "db" "GP_S" "Gen5" "4" eq_refl eq_refl). Defined.

(** X10. A configuration [parseMSSQLSku] returns holds a tier and a family
    of its two tables, and a core count within [int64]: the parser
    returns no other tier or family, and rejects a core count out of
    range. *)
Theorem parsed_sku_is_of_the_tables
    (address sku : string) (l : list Log.Entry) (c : Terraform.skuConfig) :
  Terraform.parseMSSQLSku address sku = (l, Some (Ok c)) ->
  Terraform.tier c ∈ [ "General Purpose"; "General Purpose - Serverless";
                       "Hyperscale"; "Business Critical" ] /\
  Terraform.family c ∈ [ "Compute Gen5"; "Compute Gen4"; "Compute M Series" ] /\
  int64 (Terraform.cores c).
Proof.
  intros H.
  destruct (parseMSSQLSku_total address sku) as [res Hres].
  rewrite Hres in H. injection H as <- ->.
  apply parseMSSQLSku_Ok in Hres as (tk & fk & cc & _ & Ht & Hf & Hc).
  destruct c as [t f n]. cbn in Ht, Hf, Hc |- *.
  split; [|split].
  - pose proof (tiers_value _ _ Ht) as Hin. set_unfold in Hin.
    destruct Hin as [E|[E|[E|[E|[]]]]]; injection E as _ <-; set_solver.
  - pose proof (families_lookup _ _ Hf) as Hin. set_unfold in Hin.
    destruct Hin as [->|[->|[->|[]]]]; vm_compute in Hf;
      injection Hf as <-; set_solver.
  - exact (ParseInt_int64 _ _ Hc).
Qed.

Lemma parsed_sku_is_of_the_tables_witness :
  Terraform.parseMSSQLSku "db" "HS_Gen5_2"
    = ([], Some (Ok (Terraform.Build_skuConfig "Hyperscale" "Compute Gen5" 2))) /\
  "Hyperscale" ∈ [ "General Purpose"; "General Purpose - Serverless";
                   "Hyperscale"; "Business Critical" ] /\
  "Compute Gen5" ∈ [ "Compute Gen5"; "Compute Gen4"; "Compute M Series" ] /\
  int64 2.
Proof.
  split; [reflexivity|].
  exact (parsed_sku_is_of_the_tables "db" "HS_Gen5_2" []
           (Terraform.Build_skuConfig "Hyperscale" "Compute Gen5" 2) eq_refl).
Defined.

(** X11. The SKU written from a tier key, a family key and a core count
    parses back to them: for every key of the two tables and every
    [int64] core count, negative ones too, the SKU that joins the keys and
    the count as [%d] prints it is parsed to the tier and family of the
    tables and to that count. *)
Theorem sku_parser_round_trip
    (address tierKey familyKey tier family : string) (cores : Z) :
  Terraform.tiers !! tierKey = Some tier ->
  Terraform.families !! familyKey = Some family ->
  int64 cores ->
  Terraform.parseMSSQLSku address
    (tierKey +:+ "_" +:+ familyKey +:+ "_" +:+ pretty cores)
  = ([], Some (Ok (Terraform.Build_skuConfig tier family cores))).
Proof.
  intros Ht Hf Hc. apply parseMSSQLSku_Ok.
  exists tierKey, familyKey, (pretty cores).
  split; [reflexivity|]. split; [exact Ht|]. split; [exact Hf|].
  exact (ParseInt_pretty cores Hc).
Qed.

Lemma sku_parser_round_trip_witness :
  Terraform.parseMSSQLSku "db" ("BC" +:+ "_" +:+ "M" +:+ "_" +:+ pretty (-8))
  = ([], Some (Ok (Terraform.Build_skuConfig
                     "Business Critical" "Compute M Series" (-8)))).
Proof.
  apply (sku_parser_round_trip "db" "BC" "M"); [reflexivity|reflexivity|].
  unfold int64. lia.
Defined.

(** ** The SKU name of the vCore purchase model *)

Lemma append_last (a b : string) (x y : ascii) :
  a +:+ String x "" = b +:+ String y "" -> a = b /\ x = y.
Proof.
  revert b. induction a as [|c a IH]; intros [|d b] H.
  - injection H as ->. auto.
  - injection H as _ H. destruct b; discriminate H.
  - injection H as _ H. destruct a; discriminate H.
  - rewrite !append_cons in H. injection H as -> H.
    destruct (IH b H) as [-> ->]. auto.
Qed.

Lemma append_cancel_r (a b t : string) : a +:+ t = b +:+ t -> a = b.
Proof.
  revert a b. induction t as [|x t IH]; intros a b H.
  - rewrite !append_nil_r in H. exact H.
  - change (String x t) with (String x "" +:+ t) in H.
    rewrite <- !append_assoc in H. apply IH in H.
    apply append_last in H. tauto.
Qed.

(** X12. The method [mssqlSkuName] is injective in its argument and in the
    zone redundancy of its receiver: called with [cores] on [r] and with
    [cores'] on [r'], it returns the same name exactly when
    [cores = cores'] and the two databases agree on [ZoneRedundant].  (The
    argument is what the caller passes: the core count of the database
    for provisioned compute and read replicas, and 1 for serverless
    compute, whatever the core count of the database.) *)
Theorem sku_name_injective
    (r r' : MSSQL.MSSQLDatabase) (cores cores' : Z) :
  MSSQL.mssqlSkuName r cores = MSSQL.mssqlSkuName r' cores'
  <-> cores = cores' /\ MSSQL.ZoneRedundant r = MSSQL.ZoneRedundant r'.
Proof.
  unfold MSSQL.mssqlSkuName. split.
  - intros H.
    destruct (MSSQL.ZoneRedundant r), (MSSQL.ZoneRedundant r').
    + apply append_cancel_r, append_cancel_r in H.
      apply (inj pretty) in H. auto.
    + exfalso.
      change ((pretty cores +:+ " vCore") +:+ " Zone Redundancy")
        with ((pretty cores +:+ " vCore") +:+ " Zone Redundanc" +:+ "y") in H.
      change (pretty cores' +:+ " vCore")
        with (pretty cores' +:+ " vCor" +:+ "e") in H.
      rewrite <- !append_assoc in H.
      apply append_last in H as [_ H]. discriminate H.
    + exfalso.
      change ((pretty cores' +:+ " vCore") +:+ " Zone Redundancy")
        with ((pretty cores' +:+ " vCore") +:+ " Zone Redundanc" +:+ "y") in H.
      change (pretty cores +:+ " vCore")
        with (pretty cores +:+ " vCor" +:+ "e") in H.
      rewrite <- !append_assoc in H.
      apply append_last in H as [_ H]. discriminate H.
    + apply append_cancel_r in H. apply (inj pretty) in H. auto.
  - intros [-> ->]. reflexivity.
Qed.

(** ** What [NewAzureRMMSSQLDatabase] returns and logs *)

(** The log of [BuildResource]: the notice on "Multiple products found",
    once, exactly when the provisioned compute component is built. *)
Lemma MSSQL_BuildResource_logged (vendorName : string) (r : MSSQL.MSSQLDatabase) :
  logged (MSSQL.BuildResource vendorName r) =
    if dtu_purchase (MSSQL.SKU r) || is_serverless (MSSQL.Tier r) then []
    else [ Log.Warnf "'Multiple products found' are safe to ignore for '%s' due to limitations in the Azure API."
             [ "Compute (provisioned, " +:+ MSSQL.SKU r +:+ ")" ] ].
Proof.
  unfold dtu_purchase, is_serverless.
  build_paths r; reflexivity.
Qed.

Section ProviderResults.

Variable vendorName : string.
Variable lookupRegion : ResourceData.t -> list string -> string.

(** X13. [NewAzureRMMSSQLDatabase] never panics, on any node and any
    usage data, and every resource it returns is named by the address of
    the node.  For a node whose SKU is of ASCII bytes, it returns nil
    exactly when the SKU is of the vCore purchase model and not of the
    form tier_family_cores. *)
Theorem provider_returns_nil_iff (d : ResourceData.t) (u : UsageData) :
  exists l res,
    Terraform.NewAzureRMMSSQLDatabase vendorName lookupRegion d u
      = (l, Some res) /\
    (Strings.is_ascii (sku_of d) = true ->
     (res = None <->
      dtu_purchase (sku_of d) = false /\ ~ sku_well_formed (sku_of d))) /\
    forall built, res = Some built ->
      Resource.Name built = ResourceData.Address d.
Proof.
  destruct (dtu_purchase (sku_of d)) eqn:Hd.
  - rewrite (provider_dtu vendorName lookupRegion d u Hd).
    destruct (MSSQL_BuildResource_total vendorName
                (MSSQL.PopulateUsage
                   (resource_of (lookupRegion d ["server_id"]) d None) u))
      as (l & built & H & Hname).
    rewrite H. cbn. eexists _, (Some built). split; [reflexivity|]. split.
    + intros _. split; [discriminate|]. intros [? _]. discriminate.
    + intros ? [= <-]. exact Hname.
  - destruct (parseMSSQLSku_total (ResourceData.Address d) (sku_of d))
      as [[c|msg] Hp].
    + rewrite (provider_vcore vendorName lookupRegion d u c Hd Hp).
      destruct (MSSQL_BuildResource_total vendorName
                  (MSSQL.PopulateUsage
                     (resource_of (lookupRegion d ["server_id"]) d (Some c)) u))
        as (l & built & H & Hname).
      rewrite H. cbn. eexists _, (Some built). split; [reflexivity|]. split.
      * intros _. split; [discriminate|]. intros [_ Hn]. exfalso. apply Hn.
        apply (parseMSSQLSku_well_formed (ResourceData.Address d)). eauto.
      * intros ? [= <-]. exact Hname.
    + rewrite (provider_unparsed vendorName lookupRegion d u msg Hd Hp).
      exists [Log.Warnf msg []], None. split; [reflexivity|]. split.
      * intros _. split; [|reflexivity]. intros _. split; [reflexivity|].
        intros Hwf.
        apply (parseMSSQLSku_well_formed (ResourceData.Address d)) in Hwf
          as [c Hc].
        rewrite Hc in Hp. discriminate Hp.
      * discriminate.
Qed.

(** X14. The calls to [log.Warnf] the builders make, for databases and
    nodes whose SKU, tier and licence type are of ASCII bytes, and taking
    [lookupRegion] as a function that logs nothing.  [BuildResource] logs
    the notice on "Multiple products found", once and with the name of
    the component as operand, exactly when it builds the provisioned
    compute component, that is for a vCore SKU of a tier other than
    serverless.  [NewAzureRMMSSQLDatabase] logs nothing for a DTU SKU, the
    error of the parser (and nothing else) for a vCore SKU that does not
    parse, and what [BuildResource] logs otherwise; it logs at most one
    entry. *)
Theorem provider_log (r : MSSQL.MSSQLDatabase) (d : ResourceData.t) (u : UsageData) :
  let notice (sku : string) :=
    Log.Warnf "'Multiple products found' are safe to ignore for '%s' due to limitations in the Azure API."
      [ "Compute (provisioned, " +:+ sku +:+ ")" ] in
  (ascii_strings r = true ->
   logged (MSSQL.BuildResource vendorName r)
   = (if dtu_purchase (MSSQL.SKU r) || is_serverless (MSSQL.Tier r)
      then [] else [notice (MSSQL.SKU r)])) /\
  (Strings.is_ascii (sku_of d) = true ->
   logged (Terraform.NewAzureRMMSSQLDatabase vendorName lookupRegion d u)
   = (if dtu_purchase (sku_of d) then []
      else match value (Terraform.parseMSSQLSku
                          (ResourceData.Address d) (sku_of d)) with
           | Some (Ok c) =>
               if is_serverless (Terraform.tier c) then []
               else [notice (sku_of d)]
           | Some (Err msg) => [Log.Warnf msg []]
           | None => []
           end)).
Proof.
  intros notice. split; [intros _; apply MSSQL_BuildResource_logged|].
  intros _. destruct (dtu_purchase (sku_of d)) eqn:Hd.
  - rewrite (provider_dtu vendorName lookupRegion d u Hd).
    set (r' := MSSQL.PopulateUsage _ u).
    pose proof (MSSQL_BuildResource_logged vendorName r') as Hl.
    change (MSSQL.SKU r') with (sku_of d) in Hl. rewrite Hd in Hl.
    destruct (MSSQL_BuildResource_total vendorName r') as (l & built & H & _).
    rewrite H in Hl |- *. cbn in Hl |- *. rewrite app_nil_r. exact Hl.
  - destruct (parseMSSQLSku_total (ResourceData.Address d) (sku_of d))
      as [[c|msg] Hp]; rewrite Hp; cbn [value snd].
    + rewrite (provider_vcore vendorName lookupRegion d u c Hd Hp).
      set (r' := MSSQL.PopulateUsage _ u).
      pose proof (MSSQL_BuildResource_logged vendorName r') as Hl.
      change (MSSQL.SKU r') with (sku_of d) in Hl.
      change (MSSQL.Tier r') with (Terraform.tier c) in Hl.
      rewrite Hd in Hl. cbn [orb] in Hl.
      destruct (MSSQL_BuildResource_total vendorName r') as (l & built & H & _).
      rewrite H in Hl |- *. cbn in Hl |- *. rewrite app_nil_r. exact Hl.
    + rewrite (provider_unparsed vendorName lookupRegion d u msg Hd Hp).
      reflexivity.
Qed.

(** X15. A node without SKU is skipped.  When the attribute [sku_name] is
    missing or null, and more generally when the SKU (of ASCII bytes) is
    of the vCore purchase model and holds no underscore,
    [NewAzureRMMSSQLDatabase] returns nil and calls [log.Warnf] once, with
    the message "Unrecognized MSSQL SKU format for resource", the address
    of the node and the SKU as format and no operand.  When neither the
    address nor the SKU holds a percent sign, the text logged is that
    message. *)
Theorem node_without_sku_is_skipped (d : ResourceData.t) (u : UsageData) :
  Gjson.Type_ (ResourceData.Get d "sku_name") = Gjson.Null \/
  (Strings.is_ascii (sku_of d) = true /\
   dtu_purchase (sku_of d) = false /\ free_of "_" (sku_of d) = true) ->
  let msg := "Unrecognized MSSQL SKU format for resource "
             +:+ ResourceData.Address d +:+ ": " +:+ sku_of d in
  Terraform.NewAzureRMMSSQLDatabase vendorName lookupRegion d u
    = ([Log.Warnf msg []], Some None) /\
  (free_of "%" (ResourceData.Address d) = true ->
   free_of "%" (sku_of d) = true ->
   Log.render (Log.Warnf msg []) = Some msg).
Proof.
  intros H.
  assert (Hd : dtu_purchase (sku_of d) = false /\ free_of "_" (sku_of d) = true).
  { destruct H as [Hnull|(_ & H)]; [|exact H].
    unfold sku_of. rewrite Hnull. split; reflexivity. }
  destruct Hd as [Hd Hfree]. split.
  - apply provider_unparsed; [exact Hd|].
    unfold Terraform.parseMSSQLSku. rewrite (Split_free _ _ Hfree). reflexivity.
  - intros Ha Hs. apply Sprintf_plain.
    rewrite !free_of_app, Ha, Hs. reflexivity.
Qed.

(** X16. The quantities [NewAzureRMMSSQLDatabase] takes from the
    attributes of a node whose vCore SKU parses and whose licence type is
    of ASCII bytes, whatever the usage data:
    "Storage" has the monthly quantity [max_size_gb], and 5 when the
    attribute is missing or null; "SQL license", when the tier is not
    serverless and the licence is included, has the hourly quantity of
    the core count of the SKU; "Read replicas", when the tier is
    Hyperscale, has the hourly quantity [read_replica_count], and none
    when the attribute does not exist. *)
Theorem provider_vcore_quantities
    (d : ResourceData.t) (u : UsageData) (c : Terraform.skuConfig) :
  Strings.is_ascii (licence_of d) = true ->
  dtu_purchase (sku_of d) = false ->
  Terraform.parseMSSQLSku (ResourceData.Address d) (sku_of d)
    = ([], Some (Ok c)) ->
  exists cs,
    built_components
      (Terraform.NewAzureRMMSSQLDatabase vendorName lookupRegion d u) = Some cs /\
    monthly_quantities "Storage" cs =
      [ Some (if Gjson.is_null (Gjson.Type_ (ResourceData.Get d "max_size_gb"))
              then 5 else Gjson.Int (ResourceData.Get d "max_size_gb")) ] /\
    hourly_quantities "SQL license" cs =
      (if negb (is_serverless (Terraform.tier c))
          && licence_included (licence_of d)
       then [Some (Terraform.cores c)] else []) /\
    hourly_quantities "Read replicas" cs =
      (if is_hyperscale (Terraform.tier c)
       then [ if Gjson.Exists (ResourceData.Get d "read_replica_count")
              then Some (Gjson.Int (ResourceData.Get d "read_replica_count"))
              else None ]
       else []).
Proof.
  intros _ Hd Hp.
  rewrite (provider_vcore vendorName lookupRegion d u c Hd Hp).
  set (r' := MSSQL.PopulateUsage _ u).
  destruct (MSSQL_BuildResource_vCore vendorName r' Hd)
    as (l & cs & res & Hcs & Hres & <- & _).
  destruct (MSSQL_vCore_components vendorName r') as (l' & p & _ & Hname & Heq).
  exists (Resource.CostComponents res).
  unfold built_components. rewrite Hres. split; [reflexivity|].
  rewrite Heq in Hcs.
  change (MSSQL.Tier r') with (Terraform.tier c) in Hcs.
  change (MSSQL.LicenceType r') with (licence_of d) in Hcs.
  assert (Hst : CostComponent.MonthlyQuantity
                  (MSSQL.mssqlStorageComponent vendorName r')
                = Some (if Gjson.is_null
                             (Gjson.Type_ (ResourceData.Get d "max_size_gb"))
                        then 5 else Gjson.Int (ResourceData.Get d "max_size_gb"))).
  { cbn. destruct (Gjson.is_null _); reflexivity. }
  assert (Hrr : CostComponent.HourlyQuantity
                  (MSSQL.readReplicaCostComponent vendorName r')
                = if Gjson.Exists (ResourceData.Get d "read_replica_count")
                  then Some (Gjson.Int (ResourceData.Get d "read_replica_count"))
                  else None).
  { cbn. destruct (Gjson.Exists _); reflexivity. }
  destruct (is_serverless (Terraform.tier c)) eqn:Hs.
  - rewrite (serverless_not_hyperscale _ Hs).
    injection Hcs as _ <-. quantities.
    split; [exact (f_equal (fun q => [q]) Hst)|]. split; reflexivity.
  - injection Hcs as _ <-.
    destruct (is_hyperscale (Terraform.tier c));
      destruct (licence_included (licence_of d)); quantities;
      (split; [exact (f_equal (fun q => [q]) Hst)|]);
      (split; [reflexivity|]);
      first [reflexivity | exact (f_equal (fun q => [q]) Hrr)].
Qed.

End ProviderResults.

Lemma provider_returns_nil_iff_witness :
  exists l res,
    Examples.build [("sku_name", Gjson.text "GP_Gen5")] ∅ = (l, Some res) /\
    (res = None <->
     dtu_purchase "GP_Gen5" = false /\ ~ sku_well_formed "GP_Gen5").
Proof.
  destruct (provider_returns_nil_iff "azure" Examples.region
              (Examples.node [("sku_name", Gjson.text "GP_Gen5")]) ∅)
    as (l & res & H & Hiff & _).
  exists l, res. split; [exact H|exact (Hiff eq_refl)].
Defined.

Lemma provider_log_witness :
  logged (MSSQL.BuildResource "azure" Examples.general_purpose)
  = [ Log.Warnf "'Multiple products found' are safe to ignore for '%s' due to limitations in the Azure API."
        [ "Compute (provisioned, GP_Gen5_4)" ] ] /\
  logged (Examples.build [("sku_name", Gjson.text "S0")] ∅) = [].
Proof.
  destruct (provider_log "azure" Examples.region Examples.general_purpose
              (Examples.node [("sku_name", Gjson.text "S0")]) ∅) as [H1 H2].
  split; [exact (H1 eq_refl)|exact (H2 eq_refl)].
Defined.

Lemma node_without_sku_is_skipped_witness :
  Terraform.NewAzureRMMSSQLDatabase "azure" Examples.region
    (Examples.node [("max_size_gb", Gjson.number 10)]) ∅
  = ([ Log.Warnf "Unrecognized MSSQL SKU format for resource azurerm_mssql_database.db: " [] ],
     Some None) /\
  Log.render
    (Log.Warnf "Unrecognized MSSQL SKU format for resource azurerm_mssql_database.db: " [])
  = Some "Unrecognized MSSQL SKU format for resource azurerm_mssql_database.db: ".
Proof.
  destruct (node_without_sku_is_skipped "azure" Examples.region
              (Examples.node [("max_size_gb", Gjson.number 10)]) ∅
              (or_introl eq_refl)) as [H1 H2].
  split; [exact H1|exact (H2 eq_refl eq_refl)].
Defined.

Lemma provider_vcore_quantities_witness :
  exists cs,
    built_components (Examples.build [("sku_name", Gjson.text "HS_Gen5_2")] ∅)
      = Some cs /\
    monthly_quantities "Storage" cs = [Some 5] /\
    hourly_quantities "SQL license" cs = [Some 2] /\
    hourly_quantities "Read replicas" cs = [None].
Proof.
  exact (provider_vcore_quantities "azure" Examples.region
           (Examples.node [("sku_name", Gjson.text "HS_Gen5_2")]) ∅
           (Terraform.Build_skuConfig "Hyperscale" "Compute Gen5" 2)
           eq_refl eq_refl eq_refl).
Defined.

(** ** From the SKU of a node to the product asked for *)

(** The attribute filters of the compute component of the vCore purchase
    model, which is the first component built. *)
Lemma MSSQL_compute_filters (vendorName : string) (r : MSSQL.MSSQLDatabase) :
  dtu_purchase (MSSQL.SKU r) = false ->
  exists compute rest,
    components_of (MSSQL.BuildResource vendorName r) = Some (compute :: rest) /\
    CostComponent.Name compute
      = (if is_serverless (MSSQL.Tier r) then "Compute (serverless, "
         else "Compute (provisioned, ") +:+ MSSQL.SKU r +:+ ")" /\
    attribute_filters compute =
      [ AttributeFilter.Build "productName" None
          (Some ("/" +:+ MSSQL.Tier r +:+ " - " +:+ MSSQL.Family r +:+ "/"));
        AttributeFilter.Build "skuName"
          (Some (MSSQL.mssqlSkuName r
                   (if is_serverless (MSSQL.Tier r) then 1 else MSSQL.Cores r)))
          None ].
Proof.
  unfold dtu_purchase, is_serverless. intros Hv.
  unfold components_of, MSSQL.BuildResource. rewrite Hv.
  unfold MSSQL.vCorePurchaseCostComponents, MSSQL.sqlServerlessTier,
    MSSQL.sqlHyperscaleTier.
  destruct (Strings.ToLower (MSSQL.Tier r) == "general purpose - serverless")
    eqn:Hs.
  - rewrite (eqb_serverless_not_hyperscale _ Hs).
    eexists _, _. split; [reflexivity|]. split; reflexivity.
  - destruct (Strings.ToLower (MSSQL.Tier r) == "hyperscale");
      destruct (Strings.ToLower (MSSQL.LicenceType r) == "licenseincluded");
      (eexists _, _; split; [reflexivity|]; split; reflexivity).
Qed.

Lemma tier_key_is_vcore (tierKey tier rest : string) :
  Terraform.tiers !! tierKey = Some tier ->
  dtu_purchase (tierKey +:+ "_" +:+ rest) = false.
Proof.
  intros Ht. pose proof (tiers_lookup _ _ Ht) as Hin. set_unfold in Hin.
  destruct Hin as [->|[->|[->|[->|[]]]]]; reflexivity.
Qed.

(** X17. From the SKU of a node to the product its compute component asks
    for.  For a node whose SKU is written tier_family_cores with keys of
    the two tables and an [int64] core count, [NewAzureRMMSSQLDatabase]
    builds the compute component first; it asks for the product
    "/<tier> - <family>/" with the names the tables give the keys, and for
    the SKU "<cores> vCore", followed by " Zone Redundancy" when
    [zone_redundant] is set; for the serverless tier the SKU asked for is
    "1 vCore", whatever the core count. *)
Theorem provider_compute_filters
    (vendorName : string)
    (lookupRegion : ResourceData.t -> list string -> string)
    (d : ResourceData.t) (u : UsageData)
    (tierKey familyKey tier family : string) (cores : Z) :
  Terraform.tiers !! tierKey = Some tier ->
  Terraform.families !! familyKey = Some family ->
  int64 cores ->
  sku_of d = tierKey +:+ "_" +:+ familyKey +:+ "_" +:+ pretty cores ->
  exists compute rest,
    built_components
      (Terraform.NewAzureRMMSSQLDatabase vendorName lookupRegion d u)
      = Some (compute :: rest) /\
    CostComponent.Name compute
      = (if is_serverless tier then "Compute (serverless, "
         else "Compute (provisioned, ") +:+ sku_of d +:+ ")" /\
    attribute_filters compute =
      [ AttributeFilter.Build "productName" None
          (Some ("/" +:+ tier +:+ " - " +:+ family +:+ "/"));
        AttributeFilter.Build "skuName"
          (Some (let sku := pretty (if is_serverless tier then 1 else cores)
                              +:+ " vCore" in
                 if Gjson.Bool (ResourceData.Get d "zone_redundant")
                 then sku +:+ " Zone Redundancy" else sku))
          None ].
Proof.
  intros Ht Hf Hc Hsku.
  assert (Hd : dtu_purchase (sku_of d) = false).
  { rewrite Hsku. exact (tier_key_is_vcore _ _ _ Ht). }
  assert (Hp : Terraform.parseMSSQLSku (ResourceData.Address d) (sku_of d)
               = ([], Some (Ok (Terraform.Build_skuConfig tier family cores)))).
  { apply parseMSSQLSku_Ok. exists tierKey, familyKey, (pretty cores).
    split; [exact Hsku|]. split; [exact Ht|]. split; [exact Hf|].
    exact (ParseInt_pretty cores Hc). }
  rewrite (provider_vcore vendorName lookupRegion d u _ Hd Hp).
  set (r' := MSSQL.PopulateUsage _ u).
  destruct (MSSQL_compute_filters vendorName r' Hd)
    as (compute & rest & Hcs & Hname & Hfilters).
  exists compute, rest.
  unfold components_of, value in Hcs. unfold built_components, value.
  destruct (MSSQL.BuildResource vendorName r') as [l [res|]];
    [|discriminate Hcs].
  cbn in Hcs |- *. injection Hcs as ->.
  split; [reflexivity|]. split; [exact Hname|exact Hfilters].
Qed.

Lemma provider_compute_filters_witness :
  exists compute rest,
    built_components
      (Examples.build [ ("sku_name", Gjson.text "GP_S_Gen5_4");
                        ("zone_redundant", Gjson.boolean true) ] ∅)
      = Some (compute :: rest) /\
    CostComponent.Name compute = "Compute (serverless, GP_S_Gen5_4)" /\
    attribute_filters compute =
      [ AttributeFilter.Build "productName" None
          (Some "/General Purpose - Serverless - Compute Gen5/");
        AttributeFilter.Build "skuName" (Some "1 vCore Zone Redundancy") None ].
Proof.
  apply (provider_compute_filters "azure" Examples.region
           (Examples.node [ ("sku_name", Gjson.text "GP_S_Gen5_4");
                            ("zone_redundant", Gjson.boolean true) ]) ∅
           "GP_S" "Gen5" "General Purpose - Serverless" "Compute Gen5" 4);
    [reflexivity|reflexivity|unfold int64; lia|reflexivity].
Defined.

(** ** The region of a node in the products asked for *)

Lemma MSSQL_filter_regions (vendorName : string) (r : MSSQL.MSSQLDatabase) :
  exists l res,
    MSSQL.BuildResource vendorName r = (l, Some res) /\
    Forall (fun c =>
      filter_field ProductFilter.Region c =
        Some (if CostComponent.Name c == "SQL license"
              then MSSQL.licenseRegion (MSSQL.Region r)
              else MSSQL.Region r))
      (Resource.CostComponents res).
Proof.
  build_paths r;
    (eexists _, _; split; [reflexivity|]);
    cbn [Resource.CostComponents app];
    repeat (apply Forall_cons; split; [reflexivity|]);
    apply Forall_nil; exact I.
Qed.

(** X18. The region of a resource is the one [lookupRegion] finds through
    the reference attributes of the registry entry, ["server_id"].  For
    a node whose SKU is of the DTU purchase model or of the form
    tier_family_cores, the registered builder returns a resource, and every
    cost component of it asks for a product of that region, but for
    "SQL license", which asks for the licence region that goes with it. *)
Theorem registered_builder_region
    (vendorName : string)
    (lookupRegion : ResourceData.t -> list string -> string)
    (d : ResourceData.t) (u : UsageData) :
  let item := GetAzureRMMSSQLDatabaseRegistryItem vendorName lookupRegion in
  let region := lookupRegion d (RegistryItem.ReferenceAttributes item) in
  dtu_purchase (sku_of d) = true \/ sku_well_formed (sku_of d) ->
  exists res,
    value (RegistryItem.RFunc item d u) = Some (Some res) /\
    Forall (fun c =>
      filter_field ProductFilter.Region c =
        Some (if CostComponent.Name c == "SQL license"
              then MSSQL.licenseRegion region else region))
      (Resource.CostComponents res).
Proof.
  cbn [GetAzureRMMSSQLDatabaseRegistryItem RegistryItem.RFunc
       RegistryItem.ReferenceAttributes].
  assert (Hbuilt : forall c, exists res,
    value (let* built := MSSQL.BuildResource vendorName
                           (MSSQL.PopulateUsage
                              (resource_of (lookupRegion d ["server_id"]) d c) u) in
           ret (Some built)) = Some (Some res) /\
    Forall (fun c =>
      filter_field ProductFilter.Region c =
        Some (if CostComponent.Name c == "SQL license"
              then MSSQL.licenseRegion (lookupRegion d ["server_id"])
              else lookupRegion d ["server_id"]))
      (Resource.CostComponents res)).
  { intros c.
    destruct (MSSQL_filter_regions vendorName
                (MSSQL.PopulateUsage
                   (resource_of (lookupRegion d ["server_id"]) d c) u))
      as (l & built & H & Hall).
    rewrite H. exists built. split; [reflexivity|exact Hall]. }
  intros Hsku.
  destruct (dtu_purchase (sku_of d)) eqn:Hd.
  - rewrite (provider_dtu vendorName lookupRegion d u Hd). apply Hbuilt.
  - destruct Hsku as [Hsku|Hwf]; [discriminate Hsku|].
    apply (parseMSSQLSku_well_formed (ResourceData.Address d)) in Hwf
      as [c Hp].
    rewrite (provider_vcore vendorName lookupRegion d u c Hd Hp).
    apply Hbuilt.
Qed.

Lemma registered_builder_region_witness :
  exists res,
    value (RegistryItem.RFunc
             (GetAzureRMMSSQLDatabaseRegistryItem "azure" Examples.region)
             (Examples.node [("sku_name", Gjson.text "S0")]) ∅)
      = Some (Some res) /\
    Forall (fun c =>
      filter_field ProductFilter.Region c =
        Some (if CostComponent.Name c == "SQL license"
              then MSSQL.licenseRegion "eastus" else "eastus"))
      (Resource.CostComponents res).
Proof.
  exact (registered_builder_region "azure" Examples.region
           (Examples.node [("sku_name", Gjson.text "S0")]) ∅
           (or_introl eq_refl)).
Defined.
